(** * Dynamic rescheduling policy engine (reservas): model and properties

    Shallow embedding of the rescheduling rules of the [reservas] application:

    - [models]      : [reservas/models.py]  (rule rows, [obtener_valor],
                      [es_aplicable_a_rol], [obtener_regla_activa], [clean]);
    - [validators]  : [reservas/validators.py]  ([ValidadorReprogramacionDinamico],
                      [GeneradorRecomendaciones]);
    - [serializers] : [reservas/serializers.py]  ([ReprogramacionReservaSerializer]);
    - [views]       : [reservas/views.py]  ([ReservaViewSet.reprogramar],
                      [GestionReprogramacionAPIView.post]).

    Names of the specification and names of the code.  The specification renders
    the Spanish identifiers of the code in English; the model keeps the code's:
    MIN_LEAD_TIME = TIEMPO_MINIMO, MAX_LEAD_TIME = TIEMPO_MAXIMO,
    MAX_RESCHEDULES_PER_BOOKING = LIMITE_REPROGRAMACIONES,
    MAX_RESCHEDULES_PER_DAY = LIMITE_DIARIO, BLACKOUT_DAYS = DIAS_BLACKOUT,
    BLACKOUT_HOURS = HORAS_BLACKOUT, MAX_CAPACITY_PER_DATE = CAPACIDAD_MAXIMA,
    PENALTY_PERCENT = DESCUENTO_PENALIZACION, RESTRICTED_SERVICES =
    SERVICIOS_RESTRINGIDOS; roles CLIENT = CLIENTE, OPERATOR = OPERADOR;
    states CANCELLED = CANCELADA, RESCHEDULED = REPROGRAMADA; evaluate =
    [validar_reprogramacion_completa], suggestAlternatives =
    [sugerir_fechas_alternativas], originalStartTime = [fecha_original].
    The weekday names inside the value of a DIAS_BLACKOUT rule are data that
    the engine compares as text, with lunes .. domingo: the list that the
    specification writes with sunday is the list with domingo.

    Conventions of the model.
    - Instants are counted in microseconds; an aware datetime is its UTC instant
      together with the UTC offset of its time zone ([datetime]).  Offsets are
      fixed (no daylight-saving change inside one computation).
    - Python numbers: [int] is [Z], [float] is a binary64 primitive float,
      [bool] is [bool]; a Decimal with two decimal places is the integer number
      of its hundredths.
    - A [str] is the sequence of the bytes of its UTF-8 encoding; [len]
      counts its characters.
    - The database keeps the instant of a datetime column and returns it in
      UTC ([en_utc]); a datetime that comes with a request carries the zone in
      which the request delivers it.
    - Exceptions are values of [exn]; a computation that may raise returns [res].
    - [timezone.now()] reads a clock: the k-th reading is [reloj k].
    - What the Python runtime computes outside this repository (JSON decoding,
      conversion of a float number of hours to a timedelta, formatting of numbers
      inside messages) is a field of the class [Runtime]. *)

From Stdlib Require Import ZArith List String Ascii Bool Lia Floats Uint63.
From Stdlib Require Import DecimalString.
From Stdlib Require Import Sorting.Sorted Permutation.
Import ListNotations.
Open Scope string_scope.
Open Scope Z_scope.

(** ** Python values and exceptions *)

Set Warnings "-register-all".

Inductive pyval : Type :=
| VNone
| VBool (b : bool)
| VInt (z : Z)
| VFloat (f : float)
| VStr (s : string)
| VList (l : list pyval)
| VDict (d : list (string * pyval)).

Inductive exn : Type :=
| ValueError
| TypeError
| OverflowError
| AttributeError
| Http404
| PermissionDenied (detalle : string)
| ValidationError (detalle : list string).

Inductive res (A : Type) : Type :=
| Ok (a : A)
| Raise (e : exn).
Arguments Ok {A} a.
Arguments Raise {A} e.

Definition res_bind {A B} (r : res A) (f : A -> res B) : res B :=
  match r with Ok a => f a | Raise e => Raise e end.

(** [isinstance(v, (int, float))]: [bool] is a subclass of [int]. *)
Definition es_numero (v : pyval) : bool :=
  match v with VInt _ | VFloat _ | VBool _ => true | _ => false end.


Definition Z_de_bool (b : bool) : Z := if b then 1 else 0.

(** [float(z)] for an integer of magnitude below 2^63. *)
Definition float_de_Z (z : Z) : float :=
  if z <? 0 then PrimFloat.opp (PrimFloat.of_uint63 (Uint63.of_Z (- z)))
  else PrimFloat.of_uint63 (Uint63.of_Z z).

(** [float(d)] for a Decimal [d] with two decimal places, given by its
    hundredths [c]: the binary64 nearest to c/100 (exact for |c| <= 2^53,
    which covers the 10- and 12-digit decimal columns of the models). *)
Definition float_de_decimal (c : Z) : float :=
  PrimFloat.div (float_de_Z c) (float_de_Z 100).

(** [int(f)] for a float: truncation towards zero; [int(nan)] raises
    ValueError and [int(inf)] raises OverflowError. *)
Definition int_de_float (f : float) : res Z :=
  match Prim2SF f with
  | S754_zero _ => Ok 0
  | S754_infinity _ => Raise OverflowError
  | S754_nan => Raise ValueError
  | S754_finite s m e =>
      let a := if 0 <=? e then Z.pos m * 2 ^ e else Z.pos m / 2 ^ (- e) in
      Ok (if s then - a else a)
  end.

(** [int(v)] for a value that passed [isinstance(v, (int, float))]. *)
Definition int_py (v : pyval) : res Z :=
  match v with
  | VInt z => Ok z
  | VBool b => Ok (Z_de_bool b)
  | VFloat f => int_de_float f
  | _ => Raise TypeError
  end.

(** [str.lower()] on the ASCII letters.  (Outside ASCII, [lower] of Python
    never yields one of the seven weekday names compared with it below.) *)
Definition lower_ascii (c : ascii) : ascii :=
  let n := nat_of_ascii c in
  if (Nat.leb 65 n && Nat.leb n 90)%bool then ascii_of_nat (n + 32) else c.

Fixpoint lower (s : string) : string :=
  match s with
  | EmptyString => EmptyString
  | String c t => String (lower_ascii c) (lower t)
  end.

(** [len(s)]: the number of characters (code points) of the text, that is,
    of the bytes of its UTF-8 encoding that are not continuation bytes
    (10xxxxxx). *)
Definition es_continuacion (c : ascii) : bool :=
  let n := nat_of_ascii c in (Nat.leb 128 n && Nat.leb n 191)%bool.

Fixpoint len (s : string) : nat :=
  match s with
  | EmptyString => 0%nat
  | String c t => if es_continuacion c then len t else S (len t)
  end.

(** [v.lower()]: only [str] has the attribute. *)
Definition py_lower (v : pyval) : res string :=
  match v with VStr s => Ok (lower s) | _ => Raise AttributeError end.

(** [[d.lower() for d in l]]. *)
Fixpoint lower_todos (l : list pyval) : res (list string) :=
  match l with
  | [] => Ok []
  | d :: t =>
      res_bind (py_lower d) (fun s =>
      res_bind (lower_todos t) (fun ss => Ok (s :: ss)))
  end.

(** [h == v] for an [int] [h]: equal ints, floats of the same value, and
    [True]/[False] as 1/0. *)
Definition py_eq_int (h : Z) (v : pyval) : bool :=
  match v with
  | VInt z => h =? z
  | VBool b => h =? Z_de_bool b
  | VFloat f => PrimFloat.eqb (float_de_Z h) f
  | _ => false
  end.

(** [s == v] for a [str] [s]. *)
Definition py_eq_str (s : string) (v : pyval) : bool :=
  match v with VStr t => String.eqb s t | _ => false end.

(** [x in l] for a list of strings. *)
Definition en_lista (s : string) (l : list string) : bool :=
  existsb (String.eqb s) l.

(** [a or b] on an optional text: [None] and the empty string are falsy. *)
Definition o_bien (a : option string) (b : string) : string :=
  match a with
  | Some (String c t) => String c t
  | _ => b
  end.

(** ** What the runtime provides *)

Class Runtime : Type := {
  (** [json.loads]; [Raise] when the text is not JSON. *)
  json_loads : string -> res pyval;
  (** microseconds of [timedelta(hours=f)] for a float [f]. *)
  timedelta_horas_float : float -> res Z;
  (** [a / b] on ints when an operand exceeds 2^53 in magnitude. *)
  truediv_grande : Z -> Z -> res float;
  (** the text of a value inside an f-string, [f"{v}"]. *)
  str_de : pyval -> string;
  (** the text [f"{v/24:.0f}"]. *)
  fmt_dias : pyval -> string;
  (** UTC offset of Django's current time zone (used by [__date] lookups). *)
  zona_actual : Z;
  (** successive readings of [timezone.now()], as UTC instants. *)
  reloj : nat -> Z
}.

(** ** Dates and durations *)

Record datetime : Type := {
  utc : Z;        (* instant, microseconds since the epoch (a Thursday) *)
  offset : Z      (* UTC offset of the datetime's zone, microseconds *)
}.

Definition us_por_hora : Z := 3600000000.
Definition us_por_dia : Z := 86400000000.

(** Local clock reading of a datetime. *)
Definition local (d : datetime) : Z := utc d + offset d.

(** [datetime.min] and [datetime.max] as local readings. *)
Definition local_min : Z := -62135596800000000.
Definition local_max : Z := 253402300799999999.

(** Comparison of aware datetimes compares instants. *)
Definition dt_le (a b : datetime) : bool := utc a <=? utc b.
Definition dt_lt (a b : datetime) : bool := utc a <? utc b.

(** A timedelta is a number of microseconds; its constructor raises
    OverflowError beyond 999999999 days. *)
Definition timedelta_us (us : Z) : res Z :=
  if (Z.abs (us / us_por_dia) <=? 999999999) then Ok us else Raise OverflowError.

Definition timedelta_dias (n : Z) : res Z := timedelta_us (n * us_por_dia).

(** [timedelta(hours=v)] for a value that passed [isinstance(v, (int, float))]. *)
Definition timedelta_horas `{Runtime} (v : pyval) : res Z :=
  match v with
  | VInt z => timedelta_us (z * us_por_hora)
  | VBool b => timedelta_us (Z_de_bool b * us_por_hora)
  | VFloat f => timedelta_horas_float f
  | _ => Raise TypeError
  end.

(** [d + td]: the zone is kept; OverflowError outside years 1..9999. *)
Definition dt_mas (d : datetime) (td : Z) : res datetime :=
  let l := local d + td in
  if ((local_min <=? l) && (l <=? local_max))%bool
  then Ok {| utc := utc d + td; offset := offset d |}
  else Raise OverflowError.

(** A datetime read back from a column of the database: the instant that was
    written, in UTC. *)
Definition en_utc (d : datetime) : datetime := {| utc := utc d; offset := 0 |}.

(** [d.date()], as a day number. *)
Definition date (d : datetime) : Z := local d / us_por_dia.

(** The date of a stored datetime in the current time zone ([__date] lookup). *)
Definition date_en_zona (zona : Z) (d : datetime) : Z := (utc d + zona) / us_por_dia.

(** [d.weekday()]: 0 = Monday .. 6 = Sunday (day 0 of the epoch is a Thursday). *)
Definition weekday (d : datetime) : Z := (date d + 3) mod 7.

(** [d.hour]. *)
Definition hour (d : datetime) : Z := (local d mod us_por_dia) / us_por_hora.

(** [(a - b).days]. *)
Definition dias_entre (a b : datetime) : Z := (utc a - utc b) / us_por_dia.

(** ** Computations over a state that may raise

    The state reached when an exception is raised is kept, so that an
    [except] clause continues from it. *)

Definition ST (S A : Type) : Type := S -> res A * S.

Definition ret {S A} (a : A) : ST S A := fun s => (Ok a, s).

Definition bind {S A B} (m : ST S A) (f : A -> ST S B) : ST S B :=
  fun s => match m s with
           | (Ok a, s') => f a s'
           | (Raise e, s') => (Raise e, s')
           end.

Notation "x <- c1 ;; c2" := (bind c1 (fun x => c2))
  (at level 61, c1 at next level, right associativity).
Notation "e1 ;; e2" := (bind e1 (fun _ => e2))
  (at level 61, right associativity).

Definition lift {S A} (r : res A) : ST S A := fun s => (r, s).

Definition raise {S A} (e : exn) : ST S A := fun s => (Raise e, s).

(** [try: m except <atrapa>: pass]. *)
Definition try_except {S} (atrapa : exn -> bool) (m : ST S unit) : ST S unit :=
  fun s => match m s with
           | (Raise e, s') => if atrapa e then (Ok tt, s') else (Raise e, s')
           | r => r
           end.

(** [for x in l: f x]. *)
Fixpoint para_cada {S A} (f : A -> ST S unit) (l : list A) : ST S unit :=
  match l with
  | [] => ret tt
  | x :: t => f x ;; para_cada f t
  end.

(** ** reservas/models.py *)

Module models.

Inductive Estado : Type := PENDIENTE | PAGADA | CANCELADA | REPROGRAMADA.

Definition estado_eqb (a b : Estado) : bool :=
  match a, b with
  | PENDIENTE, PENDIENTE | PAGADA, PAGADA
  | CANCELADA, CANCELADA | REPROGRAMADA, REPROGRAMADA => true
  | _, _ => false
  end.

Record ReservaServicio : Type := {
  servicio_id : Z;
  servicio_titulo : string;
  cantidad : Z
}.

Record Reserva : Type := {
  id : Z;
  usuario : Z;                            (* id of the owner *)
  fecha_inicio : datetime;
  estado : Estado;
  total : Z;                              (* hundredths *)
  fecha_original : option datetime;
  fecha_reprogramacion : option datetime;
  motivo_reprogramacion : option string;
  numero_reprogramaciones : Z;
  reprogramado_por : option Z;
  detalles : list ReservaServicio
}.

Record HistorialReprogramacion : Type := {
  h_reserva : Z;
  fecha_anterior : datetime;
  fecha_nueva : datetime;
  motivo : option string;
  h_reprogramado_por : option Z;
  notificacion_enviada : bool;
  created_at : datetime
}.

Record ReglasReprogramacion : Type := {
  nombre : string;
  tipo_regla : string;
  aplicable_a : string;
  valor_numerico : option Z;
  valor_decimal : option Z;               (* hundredths *)
  valor_texto : option string;
  valor_booleano : option bool;
  fecha_inicio_vigencia : option datetime;
  fecha_fin_vigencia : option datetime;
  activa : bool;
  prioridad : Z;
  mensaje_error : option string
}.

(** The tables read by the engine, rows in the order the database returns them. *)
Record BD : Type := {
  reglas : list ReglasReprogramacion;
  reservas : list Reserva;
  historial : list HistorialReprogramacion
}.

Definition es_aplicable_a_rol (self : ReglasReprogramacion) (rol : string) : bool :=
  if String.eqb (aplicable_a self) "ALL" then true
  else if String.eqb (aplicable_a self) rol then true
  else if (String.eqb (aplicable_a self) "CLIENTE_OPERADOR"
           && en_lista rol ["CLIENTE"; "OPERADOR"])%bool then true
  else if (String.eqb (aplicable_a self) "OPERADOR_ADMIN"
           && en_lista rol ["OPERADOR"; "ADMIN"])%bool then true
  else false.

Definition obtener_valor `{Runtime} (self : ReglasReprogramacion) : pyval :=
  match valor_numerico self with
  | Some n => VInt n
  | None =>
  match valor_decimal self with
  | Some d => VFloat (float_de_decimal d)
  | None =>
  match valor_booleano self with
  | Some b => VBool b
  | None =>
  match valor_texto self with
  | Some (String c t) =>
      match json_loads (String c t) with
      | Ok v => v
      | Raise _ => VStr (String c t)
      end
  | _ => VNone
  end end end end.

(** [order_by('prioridad')]: rows by ascending priority; rows of equal
    priority stay in the order of the table. *)
Fixpoint insertar (r : ReglasReprogramacion) (l : list ReglasReprogramacion)
  : list ReglasReprogramacion :=
  match l with
  | [] => [r]
  | x :: t => if prioridad r <=? prioridad x then r :: x :: t
              else x :: insertar r t
  end.

(** The order of [order_by('prioridad')]. *)
Definition por_prioridad (a b : ReglasReprogramacion) : Prop :=
  prioridad a <= prioridad b.

Definition order_by_prioridad (l : list ReglasReprogramacion)
  : list ReglasReprogramacion := fold_right insertar [] l.

Definition obtener_regla_activa (bd : BD) (tipo : string) (rol : string)
  : option ReglasReprogramacion :=
  let reglas :=
    order_by_prioridad
      (filter (fun r => (String.eqb (tipo_regla r) tipo && activa r)%bool)
              (reglas bd)) in
  find (fun regla => es_aplicable_a_rol regla rol) reglas.

Definition obtener_valor_regla `{Runtime} (bd : BD) (tipo rol : string)
  (default : pyval) : pyval :=
  match obtener_regla_activa bd tipo rol with
  | Some regla => obtener_valor regla
  | None => default
  end.

(** [clean]: at least one value, and a validity window that starts before
    it ends. *)
Definition vacio_texto (v : option string) : bool :=
  match v with Some (String _ _) => false | _ => true end.

Definition sin_valor {A} (v : option A) : bool :=
  match v with None => true | Some _ => false end.

Definition clean (self : ReglasReprogramacion) : res unit :=
  if (sin_valor (valor_numerico self) && sin_valor (valor_decimal self)
      && vacio_texto (valor_texto self) && sin_valor (valor_booleano self))%bool
  then Raise (ValidationError ["Debe definir al menos un valor para la regla."])
  else
    match fecha_inicio_vigencia self, fecha_fin_vigencia self with
    | Some i, Some f =>
        if dt_le f i
        then Raise (ValidationError
                      ["La fecha de inicio debe ser anterior a la fecha de fin."])
        else Ok tt
    | _, _ => Ok tt
    end.

End models.

(** ** The walk over the roles

    The loop that every rule category of the validator and of the serializer
    writes out:
    [for rol in roles: regla = obtener_regla_activa(tipo, rol);
     if regla: ...; break].
    It yields the first role that has a rule, with that rule. *)

Fixpoint primera_regla (bd : models.BD) (tipo : string) (rs : list string)
  : option (string * models.ReglasReprogramacion) :=
  match rs with
  | [] => None
  | rol :: t =>
      match models.obtener_regla_activa bd tipo rol with
      | Some regla => Some (rol, regla)
      | None => primera_regla bd tipo t
      end
  end.

(** The caller: its id and the names of its roles ([usuario.roles]). *)
Record Usuario : Type := {
  usuario_id : Z;
  roles_de : list string
}.

(** ** reservas/validators.py *)

Module validators.
Import models.

(** State of a validator object and of the clock it reads. *)
Record EstadoV : Type := {
  ticks : nat;                 (* readings of the clock taken so far *)
  errores : list string;       (* self.errores *)
  warnings : list string       (* self.warnings *)
}.

Definition M (A : Type) : Type := ST EstadoV A.

Definition errores_append (m : string) : M unit :=
  fun s => (Ok tt, {| ticks := ticks s; errores := (errores s ++ [m])%list;
                      warnings := warnings s |}).

(** [self.errores.clear(); self.warnings.clear()]. *)
Definition limpiar : M unit :=
  fun s => (Ok tt, {| ticks := ticks s; errores := []; warnings := [] |}).

Definition leer_errores : M (list string) := fun s => (Ok (errores s), s).
Definition leer_warnings : M (list string) := fun s => (Ok (warnings s), s).

(** The handler [except (ValueError, TypeError)]. *)
Definition es_ValueError_o_TypeError (e : exn) : bool :=
  match e with ValueError | TypeError => true | _ => false end.

(** [v > 0] for a number. *)
Definition mayor_que_cero (v : pyval) : bool :=
  match v with
  | VInt z => 0 <? z
  | VBool b => b
  | VFloat f => PrimFloat.ltb 0%float f
  | _ => false
  end.

Record Disponibilidad : Type := {
  disponible : bool;
  conflictos : nat;
  servicios_conflictivos : list string
}.

Record Penalizacion : Type := {
  aplica_penalizacion : bool;
  porcentaje : pyval;
  monto : pyval;
  total_con_penalizacion : float
}.

Record ReglaAplicada : Type := {
  ra_tipo : string;
  ra_rol : string;
  ra_nombre : string;
  ra_valor : pyval;
  ra_prioridad : Z
}.

Record Metadatos : Type := {
  usuario_roles : list string;
  fecha_validacion : datetime;
  numero_reglas_evaluadas : nat
}.

(** The verdict returned by [validar_reprogramacion_completa]. *)
Record Resultado : Type := {
  valida : bool;
  r_errores : list string;
  r_warnings : list string;
  disponibilidad : Disponibilidad;
  penalizacion : Penalizacion;
  reglas_aplicadas : list ReglaAplicada;
  metadatos : Metadatos
}.

Record Sugerencia : Type := {
  s_fecha : datetime;
  s_disponible : bool;
  s_conflictos : nat;
  s_penalizacion : Penalizacion;
  score : Z
}.

Definition nombres_dias : list string :=
  ["lunes"; "martes"; "miercoles"; "jueves"; "viernes"; "sabado"; "domingo"].

Definition estado_activo (e : Estado) : bool :=
  existsb (estado_eqb e) [PENDIENTE; PAGADA; REPROGRAMADA].

Section ValidadorReprogramacionDinamico.

Context `{RT : Runtime}.
Variable bd : BD.
Variable usuario : option Usuario.      (* self.usuario *)

Definition timezone_now : M datetime :=
  fun s => (Ok {| utc := reloj (ticks s); offset := 0 |},
            {| ticks := S (ticks s); errores := errores s;
               warnings := warnings s |}).

Definition _obtener_roles_usuario : list string :=
  match usuario with
  | None => ["ALL"]
  | Some u => (roles_de u ++ ["ALL"])%list
  end.

(** [self.roles], fixed when the validator is built. *)
Definition roles : list string := _obtener_roles_usuario.

Definition _validar_fecha_basica (nueva_fecha : datetime) : M unit :=
  ahora <- timezone_now ;;
  (if dt_le nueva_fecha ahora
   then errores_append "No se puede reprogramar a una fecha pasada."
   else ret tt) ;;
  td <- lift (timedelta_dias 730) ;;
  limite <- lift (dt_mas ahora td) ;;
  if dt_lt limite nueva_fecha
  then errores_append "No se puede reprogramar más de 2 años en el futuro."
  else ret tt.

Definition _validar_estado_reserva (reserva : Reserva) : M unit :=
  if existsb (estado_eqb (estado reserva)) [CANCELADA]
  then errores_append "No se puede reprogramar una reserva cancelada."
  else ret tt.

(** The first loop of [_aplicar_reglas_tiempo] (minimum lead time). *)
Definition _tiempo_minimo (ahora nueva_fecha : datetime) : M unit :=
  match primera_regla bd "TIEMPO_MINIMO" roles with
  | Some (_, regla) =>
      let valor := obtener_valor regla in
      if es_numero valor then
        td <- lift (timedelta_horas valor) ;;
        tiempo_requerido <- lift (dt_mas ahora td) ;;
        if dt_le nueva_fecha tiempo_requerido
        then errores_append
               (o_bien (mensaje_error regla)
                  ("Debe reprogramar con al menos " ++ str_de valor
                   ++ " horas de anticipación."))
        else ret tt
      else ret tt
  | None => ret tt
  end.

(** The second loop of [_aplicar_reglas_tiempo] (maximum lead time). *)
Definition _tiempo_maximo (ahora nueva_fecha : datetime) : M unit :=
  match primera_regla bd "TIEMPO_MAXIMO" roles with
  | Some (_, regla) =>
      let valor := obtener_valor regla in
      if es_numero valor then
        td <- lift (timedelta_horas valor) ;;
        tiempo_limite <- lift (dt_mas ahora td) ;;
        if dt_lt tiempo_limite nueva_fecha
        then errores_append
               (o_bien (mensaje_error regla)
                  ("No puede reprogramar más de " ++ fmt_dias valor
                   ++ " días en el futuro."))
        else ret tt
      else ret tt
  | None => ret tt
  end.

Definition _aplicar_reglas_tiempo (nueva_fecha : datetime) : M unit :=
  ahora <- timezone_now ;;
  _tiempo_minimo ahora nueva_fecha ;;
  _tiempo_maximo ahora nueva_fecha.

Definition _aplicar_reglas_limites (reserva : Reserva) : M unit :=
  (match primera_regla bd "LIMITE_REPROGRAMACIONES" roles with
   | Some (_, regla) =>
       let limite := obtener_valor regla in
       if es_numero limite then
         n <- lift (int_py limite) ;;
         if n <=? numero_reprogramaciones reserva
         then errores_append
                (o_bien (mensaje_error regla)
                   ("Ha alcanzado el límite de " ++ str_de limite
                    ++ " reprogramaciones."))
         else ret tt
       else ret tt
   | None => ret tt
   end) ;;
  match usuario with
  | None => ret tt
  | Some u =>
      match primera_regla bd "LIMITE_DIARIO" roles with
      | Some (_, regla) =>
          let limite := obtener_valor regla in
          if es_numero limite then
            ahora <- timezone_now ;;
            let hoy := date ahora in
            let reprogramaciones_hoy :=
              List.length
                (filter (fun h =>
                   (match h_reprogramado_por h with
                    | Some p => p =? usuario_id u
                    | None => false
                    end
                    && (date_en_zona zona_actual (created_at h) =? hoy))%bool)
                   (historial bd)) in
            n <- lift (int_py limite) ;;
            if n <=? Z.of_nat reprogramaciones_hoy
            then errores_append
                   (o_bien (mensaje_error regla)
                      ("Ha alcanzado el límite diario de " ++ str_de limite
                       ++ " reprogramaciones."))
            else ret tt
          else ret tt
      | None => ret tt
      end
  end.

(** The first loop of [_aplicar_reglas_limites] (limit per booking). *)
Definition _limite_por_reserva (reserva : Reserva) : M unit :=
  match primera_regla bd "LIMITE_REPROGRAMACIONES" roles with
  | Some (_, regla) =>
      let limite := obtener_valor regla in
      if es_numero limite then
        n <- lift (int_py limite) ;;
        if n <=? numero_reprogramaciones reserva
        then errores_append
               (o_bien (mensaje_error regla)
                  ("Ha alcanzado el límite de " ++ str_de limite
                   ++ " reprogramaciones."))
        else ret tt
      else ret tt
  | None => ret tt
  end.

(** Rows of [HistorialReprogramacion] made by [u] and created on the day
    [hoy]. *)
Definition reprogramaciones_hoy (u : Usuario) (hoy : Z)
  : list HistorialReprogramacion :=
  filter (fun h =>
            (match h_reprogramado_por h with
             | Some p => p =? usuario_id u
             | None => false
             end
             && (date_en_zona zona_actual (created_at h) =? hoy))%bool)
         (historial bd).

(** The second loop of [_aplicar_reglas_limites] (limit per user and day). *)
Definition _limite_diario : M unit :=
  match usuario with
  | None => ret tt
  | Some u =>
      match primera_regla bd "LIMITE_DIARIO" roles with
      | Some (_, regla) =>
          let limite := obtener_valor regla in
          if es_numero limite then
            ahora <- timezone_now ;;
            let hoy := date ahora in
            n <- lift (int_py limite) ;;
            if n <=? Z.of_nat (List.length (reprogramaciones_hoy u hoy))
            then errores_append
                   (o_bien (mensaje_error regla)
                      ("Ha alcanzado el límite diario de " ++ str_de limite
                       ++ " reprogramaciones."))
            else ret tt
          else ret tt
      | None => ret tt
      end
  end.

(** The first loop of [_aplicar_reglas_blackout] (weekdays). *)
Definition _dias_blackout (nueva_fecha : datetime) : M unit :=
  match primera_regla bd "DIAS_BLACKOUT" roles with
  | Some (_, regla) =>
      try_except es_ValueError_o_TypeError
        (match obtener_valor regla with
         | VList dias_blackout =>
             let dia_semana := weekday nueva_fecha in
             let nombre_dia := nth (Z.to_nat dia_semana) nombres_dias "" in
             bajos <- lift (lower_todos dias_blackout) ;;
             if en_lista nombre_dia bajos
             then errores_append
                    (o_bien (mensaje_error regla)
                       ("No se puede reprogramar en " ++ nombre_dia ++ "."))
             else ret tt
         | _ => ret tt
         end)
  | None => ret tt
  end.

(** The second loop of [_aplicar_reglas_blackout] (hours of the day). *)
Definition _horas_blackout (nueva_fecha : datetime) : M unit :=
  match primera_regla bd "HORAS_BLACKOUT" roles with
  | Some (_, regla) =>
      try_except es_ValueError_o_TypeError
        (match obtener_valor regla with
         | VList horas_blackout =>
             let hora_nueva := hour nueva_fecha in
             if existsb (py_eq_int hora_nueva) horas_blackout
             then errores_append
                    (o_bien (mensaje_error regla)
                       ("No se puede reprogramar a las "
                        ++ str_de (VInt hora_nueva) ++ ":00 horas."))
             else ret tt
         | _ => ret tt
         end)
  | None => ret tt
  end.

Definition _aplicar_reglas_blackout (nueva_fecha : datetime) : M unit :=
  _dias_blackout nueva_fecha ;;
  _horas_blackout nueva_fecha.

Definition _aplicar_reglas_servicios (reserva : Reserva) : M unit :=
  match primera_regla bd "SERVICIOS_RESTRINGIDOS" roles with
  | Some (_, regla) =>
      try_except es_ValueError_o_TypeError
        (match obtener_valor regla with
         | VList servicios_restringidos =>
             let servicios_reserva := map servicio_titulo (detalles reserva) in
             para_cada
               (fun servicio =>
                  if existsb (py_eq_str servicio) servicios_restringidos
                  then errores_append
                         (o_bien (mensaje_error regla)
                            ("El servicio '" ++ servicio
                             ++ "' tiene restricciones para reprogramar."))
                  else ret tt)
               servicios_reserva
         | _ => ret tt
         end)
  | None => ret tt
  end.

(** Rows of [Reserva] on the date of [nueva_fecha], in an active state,
    other than [reserva]. *)
Definition reservas_en_fecha (nueva_fecha : datetime) (reserva : Reserva)
  : list Reserva :=
  filter (fun r =>
            ((date_en_zona zona_actual (fecha_inicio r) =? date nueva_fecha)
             && estado_activo (estado r)
             && negb (id r =? id reserva))%bool)
         (reservas bd).

Definition _aplicar_reglas_capacidad (nueva_fecha : datetime) (reserva : Reserva)
  : M unit :=
  match primera_regla bd "CAPACIDAD_MAXIMA" roles with
  | Some (_, regla) =>
      try_except es_ValueError_o_TypeError
        (let capacidad_maxima := obtener_valor regla in
         if es_numero capacidad_maxima then
           let reservas_fecha :=
             List.length (reservas_en_fecha nueva_fecha reserva) in
           n <- lift (int_py capacidad_maxima) ;;
           if n <=? Z.of_nat reservas_fecha
           then errores_append
                  (o_bien (mensaje_error regla)
                     ("La fecha alcanzó la capacidad máxima de "
                      ++ str_de capacidad_maxima ++ " reservas."))
           else ret tt
         else ret tt)
  | None => ret tt
  end.

(** The join of the conflicting bookings with their detail lines on the
    services of [reserva]: one row per matching line. *)
Definition conflictos_de (nueva_fecha : datetime) (reserva : Reserva)
  : list ReservaServicio :=
  let servicios_ids := map servicio_id (detalles reserva) in
  flat_map (fun r =>
              filter (fun d => existsb (Z.eqb (servicio_id d)) servicios_ids)
                     (detalles r))
           (reservas_en_fecha nueva_fecha reserva).

Definition _verificar_disponibilidad (nueva_fecha : datetime) (reserva : Reserva)
  : Disponibilidad :=
  let conflictos := conflictos_de nueva_fecha reserva in
  {| disponible := match conflictos with [] => true | _ => false end;
     conflictos := List.length conflictos;
     servicios_conflictivos := map servicio_titulo conflictos |}.

(** [v / 100] for a number. *)
Definition entre_100 (v : pyval) : res float :=
  match v with
  | VInt z =>
      if Z.abs z <=? 2 ^ 53
      then Ok (PrimFloat.div (float_de_Z z) (float_de_Z 100))
      else truediv_grande z 100
  | VBool b => Ok (PrimFloat.div (float_de_Z (Z_de_bool b)) (float_de_Z 100))
  | VFloat f => Ok (PrimFloat.div f (float_de_Z 100))
  | _ => Raise TypeError
  end.

(** The percentage found by the loop of [_calcular_penalizacion]. *)
Definition penalizacion_pct_de : pyval :=
  match primera_regla bd "DESCUENTO_PENALIZACION" roles with
  | Some (_, regla) =>
      let valor := obtener_valor regla in
      if es_numero valor then valor else VInt 0
  | None => VInt 0
  end.

Definition _calcular_penalizacion (reserva : Reserva) : M Penalizacion :=
  let penalizacion_pct := penalizacion_pct_de in
  let total_f := float_de_decimal (total reserva) in
  if mayor_que_cero penalizacion_pct then
    q <- lift (entre_100 penalizacion_pct) ;;
    let penalizacion_monto := PrimFloat.mul total_f q in
    ret {| aplica_penalizacion := true;
           porcentaje := penalizacion_pct;
           monto := VFloat penalizacion_monto;
           total_con_penalizacion := PrimFloat.add total_f penalizacion_monto |}
  else
    ret {| aplica_penalizacion := false;
           porcentaje := penalizacion_pct;
           monto := VInt 0;
           total_con_penalizacion := PrimFloat.add total_f (float_de_Z 0) |}.

Definition tipos_reglas : list string :=
  ["TIEMPO_MINIMO"; "TIEMPO_MAXIMO"; "LIMITE_REPROGRAMACIONES";
   "LIMITE_DIARIO"; "DIAS_BLACKOUT"; "HORAS_BLACKOUT";
   "SERVICIOS_RESTRINGIDOS"; "CAPACIDAD_MAXIMA"; "DESCUENTO_PENALIZACION"].

Definition _obtener_reglas_aplicadas : list ReglaAplicada :=
  flat_map (fun tipo_regla =>
              match primera_regla bd tipo_regla roles with
              | Some (rol, regla) =>
                  [{| ra_tipo := tipo_regla; ra_rol := rol;
                      ra_nombre := nombre regla;
                      ra_valor := obtener_valor regla;
                      ra_prioridad := prioridad regla |}]
              | None => []
              end)
           tipos_reglas.

Definition validar_reprogramacion_completa (reserva : Reserva)
  (nueva_fecha : datetime) : M Resultado :=
  limpiar ;;
  _validar_fecha_basica nueva_fecha ;;
  _validar_estado_reserva reserva ;;
  _aplicar_reglas_tiempo nueva_fecha ;;
  _aplicar_reglas_limites reserva ;;
  _aplicar_reglas_blackout nueva_fecha ;;
  _aplicar_reglas_servicios reserva ;;
  _aplicar_reglas_capacidad nueva_fecha reserva ;;
  let disponibilidad := _verificar_disponibilidad nueva_fecha reserva in
  penalizacion <- _calcular_penalizacion reserva ;;
  errs <- leer_errores ;;
  warns <- leer_warnings ;;
  ahora <- timezone_now ;;
  ret {| valida := Nat.eqb (List.length errs) 0;
         r_errores := errs;
         r_warnings := warns;
         disponibilidad := disponibilidad;
         penalizacion := penalizacion;
         reglas_aplicadas := _obtener_reglas_aplicadas;
         metadatos :=
           {| usuario_roles := roles;
              fecha_validacion := ahora;
              numero_reglas_evaluadas :=
                List.length _obtener_reglas_aplicadas |} |}.

(** The two class methods that build a validator of their own and keep one
    field of its verdict. *)
Definition validar_rapido (reserva : Reserva) (nueva_fecha : datetime)
  : M bool :=
  limpiar ;;
  resultado <- validar_reprogramacion_completa reserva nueva_fecha ;;
  ret (valida resultado).

Definition obtener_errores_rapido (reserva : Reserva) (nueva_fecha : datetime)
  : M (list string) :=
  limpiar ;;
  resultado <- validar_reprogramacion_completa reserva nueva_fecha ;;
  ret (r_errores resultado).

(** *** GeneradorRecomendaciones *)

Definition _calcular_score (fecha_deseada fecha_candidata : datetime)
  (resultado_validacion : Resultado) : Z :=
  let diferencia_dias := Z.abs (dias_entre fecha_candidata fecha_deseada) in
  let score_cercania := Z.max 0 (10 - diferencia_dias) in
  let score_disponibilidad :=
    if disponible (disponibilidad resultado_validacion) then 5 else 0 in
  let score_penalizacion :=
    if aplica_penalizacion (penalizacion resultado_validacion) then -2 else 2 in
  score_cercania + score_disponibilidad + score_penalizacion.

(** [sort(key=score, reverse=True)]: descending, equal scores keep their
    order. *)
Fixpoint insertar_por_score (s : Sugerencia) (l : list Sugerencia)
  : list Sugerencia :=
  match l with
  | [] => [s]
  | x :: t => if score x <=? score s then s :: x :: t
              else x :: insertar_por_score s t
  end.

Definition ordenar_por_score (l : list Sugerencia) : list Sugerencia :=
  fold_right insertar_por_score [] l.

(** [l[:c]]; a negative [c] counts from the end. *)
Definition hasta {A} (c : Z) (l : list A) : list A :=
  if 0 <=? c then firstn (Z.to_nat c) l
  else firstn (List.length l - Z.to_nat (- c)) l.

(** [range(-7, 15)]. *)
Definition rango_dias : list Z := map (fun n => Z.of_nat n - 7) (seq 0 22).

Section Sugerir.

Variable reserva : Reserva.
Variable fecha_deseada : datetime.
Variable cantidad : Z.

(** The inner loop over the hour offsets; the result is the list of
    suggestions when the loop ends or breaks. *)
Fixpoint probar_horas (fecha_candidata : datetime) (horas : list Z)
  (sugerencias : list Sugerencia) : M (list Sugerencia) :=
  match horas with
  | [] => ret sugerencias
  | hora_offset :: resto =>
      td <- lift (timedelta_horas (VInt hora_offset)) ;;
      fecha_con_hora <- lift (dt_mas fecha_candidata td) ;;
      resultado <- validar_reprogramacion_completa reserva fecha_con_hora ;;
      if valida resultado then
        let sugerencias' :=
          (sugerencias ++
           [{| s_fecha := fecha_con_hora;
               s_disponible := disponible (disponibilidad resultado);
               s_conflictos := conflictos (disponibilidad resultado);
               s_penalizacion := penalizacion resultado;
               score :=
                 _calcular_score fecha_deseada fecha_con_hora resultado |}])%list
        in
        if cantidad <=? Z.of_nat (List.length sugerencias')
        then ret sugerencias'
        else probar_horas fecha_candidata resto sugerencias'
      else probar_horas fecha_candidata resto sugerencias
  end.

(** The outer loop over the day offsets. *)
Fixpoint probar_dias (dias : list Z) (sugerencias : list Sugerencia)
  : M (list Sugerencia) :=
  match dias with
  | [] => ret sugerencias
  | dias_offset :: resto =>
      if dias_offset =? 0 then probar_dias resto sugerencias
      else
        td <- lift (timedelta_dias dias_offset) ;;
        fecha_candidata <- lift (dt_mas fecha_deseada td) ;;
        sugerencias' <-
          probar_horas fecha_candidata [0; 1; -1; 2; -2] sugerencias ;;
        if cantidad <=? Z.of_nat (List.length sugerencias')
        then ret sugerencias'
        else probar_dias resto sugerencias'
  end.

Definition sugerir_fechas_alternativas : M (list Sugerencia) :=
  limpiar ;;                       (* a new validator: empty lists *)
  sugerencias <- probar_dias rango_dias [] ;;
  ret (hasta cantidad (ordenar_por_score sugerencias)).

End Sugerir.

End ValidadorReprogramacionDinamico.

(** *** Notions used to state the properties of the validator *)

(** The state with one more error message. *)
Definition agregar (m : string) (s : EstadoV) : EstadoV :=
  {| ticks := ticks s; errores := (errores s ++ [m])%list;
     warnings := warnings s |}.

(** The state of a validator whose lists were cleared. *)
Definition limpio (s : EstadoV) : EstadoV :=
  {| ticks := ticks s; errores := []; warnings := [] |}.

(** The state after one more reading of the clock. *)
Definition leido (s : EstadoV) : EstadoV :=
  {| ticks := S (ticks s); errores := errores s; warnings := warnings s |}.

(** The [k]-th reading of the clock, as [timezone.now()] returns it. *)
Definition lectura `{Runtime} (k : nat) : datetime :=
  {| utc := reloj k; offset := 0 |}.

(** A computation that leaves the messages already in [self.errores] in
    place and may only add messages after them. *)
Definition solo_agrega {A} (m : M A) : Prop :=
  forall s, exists d, errores (snd (m s)) = (errores s ++ d)%list.

(** A computation that leaves [self.warnings] as it is. *)
Definition guarda_warnings {A} (m : M A) : Prop :=
  forall s, warnings (snd (m s)) = warnings s.

(** Two states with the same lists whose clocks give the same readings from
    now on. *)
Definition mismo_reloj `{Runtime} (s1 s2 : EstadoV) : Prop :=
  errores s1 = errores s2 /\ warnings s1 = warnings s2 /\
  forall i : nat, reloj (ticks s1 + i) = reloj (ticks s2 + i).

(** A computation whose outcome depends on the state only through the lists
    and the readings of the clock. *)
Definition estable `{Runtime} {A} (m : M A) : Prop :=
  forall s1 s2, mismo_reloj s1 s2 ->
    fst (m s1) = fst (m s2) /\ mismo_reloj (snd (m s1)) (snd (m s2)).

(** A computation that takes readings of the clock and never gives one
    back. *)
Definition no_retrocede {A} (m : M A) : Prop :=
  forall s, (ticks s <= ticks (snd (m s)))%nat.

(** A suggestion that records a valid verdict found between the readings
    [desde] and [hasta] of the clock: the evaluation of its date that started
    at a reading [k] in between gave a valid verdict, and gives that verdict
    from every state of a validator whose clock shows, from then on, what the
    clock showed from the reading [k] on; and the suggestion carries the
    availability, the penalty and the score of that verdict. *)
Definition sugerencia_correcta `{Runtime} (bd : BD) (usuario : option Usuario)
  (reserva : Reserva) (fecha_deseada : datetime) (desde hasta : nat)
  (e : Sugerencia) : Prop :=
  exists (k : nat) (v : Resultado),
    (desde <= k < hasta)%nat /\
    (forall s2,
       (forall i : nat, reloj (ticks s2 + i) = reloj (k + i)) ->
       fst (validar_reprogramacion_completa bd usuario reserva (s_fecha e) s2)
       = Ok v) /\
    valida v = true /\
    s_disponible e = disponible (disponibilidad v) /\
    s_conflictos e = conflictos (disponibilidad v) /\
    s_penalizacion e = penalizacion v /\
    score e = _calcular_score fecha_deseada (s_fecha e) v.

(** The score as the sum of closeness, availability and penalty terms. *)
Definition formula_score (fecha_deseada : datetime) (e : Sugerencia) : Z :=
  Z.max 0 (10 - Z.abs (dias_entre (s_fecha e) fecha_deseada))
  + (if s_disponible e then 5 else 0)
  + (if aplica_penalizacion (s_penalizacion e) then -2 else 2).

(** Suggestions in non-increasing order of score. *)
Definition score_no_creciente (a b : Sugerencia) : Prop := score b <= score a.





End validators.

(** ** The state seen by an HTTP request: the tables and the clock *)

Record Mundo : Type := {
  m_bd : models.BD;
  m_ticks : nat
}.

Definition leer_bd : ST Mundo models.BD := fun w => (Ok (m_bd w), w).

Definition escribir_bd (bd : models.BD) : ST Mundo unit :=
  fun w => (Ok tt, {| m_bd := bd; m_ticks := m_ticks w |}).

Definition ahora_mundo `{Runtime} : ST Mundo datetime :=
  fun w => (Ok {| utc := reloj (m_ticks w); offset := 0 |},
            {| m_bd := m_bd w; m_ticks := S (m_ticks w) |}).

(** A computation of a request that leaves the tables as they are. *)
Definition conserva_bd {A} (m : ST Mundo A) : Prop :=
  forall w, m_bd (snd (m w)) = m_bd w.

(** Two tables whose rules are the same but for the rules of the types
    [tipos]. *)
Definition de_acuerdo_salvo (tipos : list string) (bd bd' : models.BD) : Prop :=
  filter (fun r => negb (en_lista (models.tipo_regla r) tipos))
         (models.reglas bd)
  = filter (fun r => negb (en_lista (models.tipo_regla r) tipos))
           (models.reglas bd').

(** Runs [m] and hands back the detail of a ValidationError instead of
    raising it; any other exception goes on. *)
Definition capturar {S A} (m : ST S A) : ST S (A + list string) :=
  fun s => match m s with
           | (Ok a, s') => (Ok (inl a), s')
           | (Raise (ValidationError d), s') => (Ok (inr d), s')
           | (Raise e, s') => (Raise e, s')
           end.

(** [request.user.roles] when the user is a [Usuario], else no role. *)
Definition roles_de_request (request_user : option Usuario) : list string :=
  match request_user with
  | Some u => roles_de u
  | None => []
  end.

(** ** reservas/serializers.py *)

Module serializers.
Import models.

(** The two fields of the request, as their field classes deliver them: the
    datetime as an aware value in the zone of the request (Django's current
    zone), the reason as a text. *)
Record Datos : Type := {
  nueva_fecha : datetime;
  d_motivo : option string
}.

Section ReprogramacionReservaSerializer.

Context `{RT : Runtime}.
Variable request_user : option Usuario.    (* context['request'].user *)
Variable ctx_reserva : option Reserva.     (* context['reserva'] *)

(** [roles[0] if roles else 'ALL']. *)
Definition primer_rol (roles : list string) : string :=
  match roles with
  | r :: _ => r
  | [] => "ALL"
  end.

(** [r.mensaje_error if r and r.mensaje_error else texto]. *)
Definition mensaje_de (regla_activa : option ReglasReprogramacion)
  (texto : string) : string :=
  match regla_activa with
  | Some r => o_bien (mensaje_error r) texto
  | None => texto
  end.

(** [None] replaced by a default. *)
Definition por_defecto (v : pyval) (d : pyval) : pyval :=
  match v with VNone => d | _ => v end.

Definition todo (_ : exn) : bool := true.

Definition validate_nueva_fecha (value : datetime) : ST Mundo datetime :=
  ahora <- ahora_mundo ;;
  (if dt_le value ahora
   then raise (ValidationError ["No se puede reprogramar a una fecha pasada."])
   else ret tt) ;;
  bd <- leer_bd ;;
  let roles := roles_de_request request_user in
  let tiempo_minimo :=
    match primera_regla bd "TIEMPO_MINIMO" (roles ++ ["ALL"])%list with
    | Some (_, regla) => obtener_valor regla
    | None => VNone
    end in
  let tiempo_minimo := por_defecto tiempo_minimo (VInt 24) in
  (if es_numero tiempo_minimo then
     td <- lift (timedelta_horas tiempo_minimo) ;;
     tiempo_requerido <- lift (dt_mas ahora td) ;;
     if dt_le value tiempo_requerido then
       let regla_activa :=
         obtener_regla_activa bd "TIEMPO_MINIMO" (primer_rol roles) in
       raise (ValidationError
                [mensaje_de regla_activa
                   ("La reprogramación debe hacerse con al menos "
                    ++ str_de tiempo_minimo ++ " horas de anticipación.")])
     else ret tt
   else ret tt) ;;
  let tiempo_maximo :=
    match primera_regla bd "TIEMPO_MAXIMO" (roles ++ ["ALL"])%list with
    | Some (_, regla) => obtener_valor regla
    | None => VNone
    end in
  let tiempo_maximo := por_defecto tiempo_maximo (VInt (365 * 24)) in
  (if es_numero tiempo_maximo then
     td <- lift (timedelta_horas tiempo_maximo) ;;
     tiempo_limite <- lift (dt_mas ahora td) ;;
     if dt_lt tiempo_limite value then
       let regla_activa :=
         obtener_regla_activa bd "TIEMPO_MAXIMO" (primer_rol roles) in
       raise (ValidationError
                [mensaje_de regla_activa
                   ("No se puede reprogramar más de " ++ fmt_dias tiempo_maximo
                    ++ " días en el futuro.")])
     else ret tt
   else ret tt) ;;
  para_cada
    (fun rol =>
       match obtener_regla_activa bd "DIAS_BLACKOUT" rol with
       | Some regla =>
           try_except todo
             (match obtener_valor regla with
              | VList dias_blackout =>
                  let nombre_dia :=
                    nth (Z.to_nat (weekday value))
                        ["lunes"; "martes"; "miercoles"; "jueves"; "viernes";
                         "sabado"; "domingo"] "" in
                  bajos <- lift (lower_todos dias_blackout) ;;
                  if en_lista nombre_dia bajos
                  then raise (ValidationError
                                [o_bien (mensaje_error regla)
                                   ("No se puede reprogramar en "
                                    ++ nombre_dia ++ ".")])
                  else ret tt
              | _ => ret tt
              end)
       | None => ret tt
       end)
    (roles ++ ["ALL"])%list ;;
  para_cada
    (fun rol =>
       match obtener_regla_activa bd "HORAS_BLACKOUT" rol with
       | Some regla =>
           try_except todo
             (match obtener_valor regla with
              | VList horas_blackout =>
                  let hora_nueva := hour value in
                  if existsb (py_eq_int hora_nueva) horas_blackout
                  then raise (ValidationError
                                [o_bien (mensaje_error regla)
                                   ("No se puede reprogramar a las "
                                    ++ str_de (VInt hora_nueva)
                                    ++ ":00 horas.")])
                  else ret tt
              | _ => ret tt
              end)
       | None => ret tt
       end)
    (roles ++ ["ALL"])%list ;;
  ret value.

Definition validate (attrs : Datos) : ST Mundo Datos :=
  match ctx_reserva with
  | Some reserva =>
      (if existsb (estado_eqb (estado reserva)) [CANCELADA]
       then raise (ValidationError
                     ["No se puede reprogramar una reserva cancelada."])
       else ret tt) ;;
      bd <- leer_bd ;;
      let roles := roles_de_request request_user in
      let limite_reprogramaciones :=
        match primera_regla bd "LIMITE_REPROGRAMACIONES"
                (roles ++ ["ALL"])%list with
        | Some (_, regla) => obtener_valor regla
        | None => VNone
        end in
      let limite_reprogramaciones :=
        por_defecto limite_reprogramaciones (VInt 3) in
      (if es_numero limite_reprogramaciones then
         n <- lift (int_py limite_reprogramaciones) ;;
         if n <=? numero_reprogramaciones reserva then
           let regla_activa :=
             obtener_regla_activa bd "LIMITE_REPROGRAMACIONES"
               (primer_rol roles) in
           raise (ValidationError
                    [mensaje_de regla_activa
                       ("Esta reserva ya ha sido reprogramada el máximo número de veces permitido ("
                        ++ str_de limite_reprogramaciones ++ ").")])
         else ret tt
       else ret tt) ;;
      (if date (nueva_fecha attrs) =? date (fecha_inicio reserva)
       then raise (ValidationError
                     ["La nueva fecha debe ser diferente a la fecha actual."])
       else ret tt) ;;
      para_cada
        (fun rol =>
           match obtener_regla_activa bd "SERVICIOS_RESTRINGIDOS" rol with
           | Some regla =>
               try_except todo
                 (match obtener_valor regla with
                  | VList servicios_restringidos =>
                      para_cada
                        (fun servicio =>
                           if existsb (py_eq_str servicio)
                                servicios_restringidos
                           then raise (ValidationError
                                         [o_bien (mensaje_error regla)
                                            ("El servicio '" ++ servicio
                                             ++ "' tiene restricciones para reprogramar.")])
                           else ret tt)
                        (map servicio_titulo (detalles reserva))
                  | _ => ret tt
                  end)
           | None => ret tt
           end)
        (roles ++ ["ALL"])%list ;;
      ret attrs
  | None => ret attrs
  end.

(** [is_valid(raise_exception=True)]: the fields in their order, their
    ValidationErrors gathered; then [validate] when no field failed. *)
Definition is_valid (data : Datos) : ST Mundo Datos :=
  r_fecha <- capturar (validate_nueva_fecha (nueva_fecha data)) ;;
  let e_motivo :=
    match d_motivo data with
    | Some m =>
        if Nat.ltb 500 (len m)
        then ["Ensure this field has no more than 500 characters."]
        else []
    | None => []
    end in
  match r_fecha, e_motivo with
  | inl value, [] =>
      validate {| nueva_fecha := value; d_motivo := d_motivo data |}
  | inl _, e => raise (ValidationError e)
  | inr e, e' => raise (ValidationError (e ++ e')%list)
  end.

End ReprogramacionReservaSerializer.

(** *** ReservaConHistorialSerializer *)

Module ReservaConHistorialSerializer.

Definition get_puede_reprogramar `{Runtime} (obj : Reserva) : ST Mundo bool :=
  if existsb (estado_eqb (estado obj)) [CANCELADA] then ret false
  else if 3 <=? numero_reprogramaciones obj then ret false
  else
    ahora <- ahora_mundo ;;
    td <- lift (timedelta_horas (VInt 24)) ;;
    limite <- lift (dt_mas ahora td) ;;
    if dt_le (fecha_inicio obj) limite then ret false else ret true.

End ReservaConHistorialSerializer.

(** *** ReglasReprogramacionSerializer *)

Module ReglasReprogramacionSerializer.

(** The keys of [attrs] that [validate] reads; [None] is a key that is
    absent or null, as [attrs.get] gives it. *)
Record Atributos : Type := {
  a_tipo_regla : option string;
  a_valor_numerico : option Z;
  a_valor_decimal : option Z;             (* hundredths *)
  a_valor_texto : option string;
  a_valor_booleano : option bool;
  a_fecha_inicio_vigencia : option datetime;
  a_fecha_fin_vigencia : option datetime
}.

(** [tipo_regla in tipos]. *)
Definition tipo_en (t : option string) (tipos : list string) : bool :=
  match t with
  | Some s => en_lista s tipos
  | None => false
  end.

(** The text of [tipo_regla] inside an f-string. *)
Definition texto_tipo `{Runtime} (t : option string) : string :=
  match t with
  | Some s => s
  | None => str_de VNone
  end.

(** [not v] for an optional integer. *)
Definition falso_entero (v : option Z) : bool :=
  match v with
  | Some n => n =? 0
  | None => true
  end.

(** [validate].  A detail that is a dict with one field is written as the
    list of the field and its message. *)
Definition validate `{Runtime} (attrs : Atributos) : res Atributos :=
  if (sin_valor (a_valor_numerico attrs) && sin_valor (a_valor_decimal attrs)
      && vacio_texto (a_valor_texto attrs)
      && sin_valor (a_valor_booleano attrs))%bool
  then Raise (ValidationError ["Debe definir al menos un valor para la regla."])
  else if match a_fecha_inicio_vigencia attrs, a_fecha_fin_vigencia attrs with
          | Some fecha_inicio, Some fecha_fin => dt_le fecha_fin fecha_inicio
          | _, _ => false
          end
  then Raise (ValidationError
                ["fecha_fin_vigencia";
                 "La fecha de fin debe ser posterior a la fecha de inicio."])
  else
    let tipo_regla := a_tipo_regla attrs in
    if (tipo_en tipo_regla ["TIEMPO_MINIMO"; "TIEMPO_MAXIMO"]
        && falso_entero (a_valor_numerico attrs))%bool
    then Raise (ValidationError
                  ["valor_numerico";
                   "El tipo de regla " ++ texto_tipo tipo_regla
                   ++ " requiere un valor numérico (horas)."])
    else if (tipo_en tipo_regla
               ["LIMITE_REPROGRAMACIONES"; "LIMITE_DIARIO"; "LIMITE_SEMANAL";
                "LIMITE_MENSUAL"]
             && match a_valor_numerico attrs with
                | Some valor => ((valor =? 0) || (valor <? 0))%bool
                | None => true
                end)%bool
    then Raise (ValidationError
                  ["valor_numerico";
                   "El tipo de regla " ++ texto_tipo tipo_regla
                   ++ " requiere un valor numérico positivo."])
    else if (tipo_en tipo_regla ["DESCUENTO_PENALIZACION"]
             && match a_valor_decimal attrs with
                | Some valor => ((valor <? 0) || (10000 <? valor))%bool
                | None => true
                end)%bool
    then Raise (ValidationError
                  ["valor_decimal";
                   "La penalización debe ser un porcentaje entre 0 y 100."])
    else if (tipo_en tipo_regla
               ["DIAS_BLACKOUT"; "HORAS_BLACKOUT"; "SERVICIOS_RESTRINGIDOS"]
             && vacio_texto (a_valor_texto attrs))%bool
    then Raise (ValidationError
                  ["valor_texto";
                   "El tipo de regla " ++ texto_tipo tipo_regla
                   ++ " requiere valores en formato texto/JSON."])
    else Ok attrs.

(** A row of the table holds the values and the window of [attrs]. *)
Definition fila_de (attrs : Atributos) (r : ReglasReprogramacion) : Prop :=
  valor_numerico r = a_valor_numerico attrs /\
  valor_decimal r = a_valor_decimal attrs /\
  valor_texto r = a_valor_texto attrs /\
  valor_booleano r = a_valor_booleano attrs /\
  fecha_inicio_vigencia r = a_fecha_inicio_vigencia attrs /\
  fecha_fin_vigencia r = a_fecha_fin_vigencia attrs.

End ReglasReprogramacionSerializer.

(** *** ValidadorReglasSerializer *)

Module ValidadorReglasSerializer.

(** The validated fields of the request. *)
Record Atributos : Type := {
  a_reserva_id : Z;
  a_nueva_fecha : datetime;
  a_motivo : option string
}.

(** [td.total_seconds()] of a timedelta of [us] microseconds: the quotient
    [us / 10**6] of two ints, as a float. *)
Definition total_seconds `{Runtime} (us : Z) : res float :=
  if Z.abs us <=? 2 ^ 53
  then Ok (PrimFloat.div (float_de_Z us) (float_de_Z 1000000))
  else truediv_grande us 1000000.

(** [h * 3600] for a number [h]. *)
Definition por_3600 (h : pyval) : res pyval :=
  match h with
  | VInt z => Ok (VInt (z * 3600))
  | VBool b => Ok (VInt (Z_de_bool b * 3600))
  | VFloat f => Ok (VFloat (PrimFloat.mul f (float_de_Z 3600)))
  | _ => Raise TypeError
  end.

(** [x < n] and [x > n] for a float [x] and an int [n]: Python compares
    the two exactly. *)
Definition float_lt_Z (x : float) (n : Z) : bool :=
  match Prim2SF x with
  | S754_nan => false
  | S754_infinity s => s
  | S754_zero _ => 0 <? n
  | S754_finite s m e =>
      let v := if s then - Z.pos m else Z.pos m in
      if 0 <=? e then v * 2 ^ e <? n else v <? n * 2 ^ (- e)
  end.

Definition float_gt_Z (x : float) (n : Z) : bool :=
  match Prim2SF x with
  | S754_nan => false
  | S754_infinity s => negb s
  | S754_zero _ => n <? 0
  | S754_finite s m e =>
      let v := if s then - Z.pos m else Z.pos m in
      if 0 <=? e then n <? v * 2 ^ e else n * 2 ^ (- e) <? v
  end.

(** [x < v] and [x > v] for a float [x] and a number [v]. *)
Definition menor_que (x : float) (v : pyval) : res bool :=
  match v with
  | VInt n => Ok (float_lt_Z x n)
  | VFloat g => Ok (PrimFloat.ltb x g)
  | _ => Raise TypeError
  end.

Definition mayor_que (x : float) (v : pyval) : res bool :=
  match v with
  | VInt n => Ok (float_gt_Z x n)
  | VFloat g => Ok (PrimFloat.ltb g x)
  | _ => Raise TypeError
  end.

Section Validate.

Context `{RT : Runtime}.
Variable request_user : option Usuario.

(** The five checks of the body of the loop over the roles.  [errores] is
    the list so far; each check returns the list with what it adds. *)
Definition revisar_minimo (bd : BD) (nueva_fecha : datetime) (rol : string)
  (errores : list string) : ST Mundo (list string) :=
  match obtener_regla_activa bd "TIEMPO_MINIMO" rol with
  | Some regla =>
      let horas_minimas := obtener_valor regla in
      if es_numero horas_minimas then
        ahora <- ahora_mundo ;;
        segundos <- lift (total_seconds (utc nueva_fecha - utc ahora)) ;;
        limite <- lift (por_3600 horas_minimas) ;;
        corto <- lift (menor_que segundos limite) ;;
        if (corto : bool)
        then ret (errores ++
                  [o_bien (mensaje_error regla)
                     ("Debe reprogramar con al menos "
                      ++ str_de horas_minimas
                      ++ " horas de anticipación.")])%list
        else ret errores
      else ret errores
  | None => ret errores
  end.

Definition revisar_maximo (bd : BD) (nueva_fecha : datetime) (rol : string)
  (errores : list string) : ST Mundo (list string) :=
  match obtener_regla_activa bd "TIEMPO_MAXIMO" rol with
  | Some regla =>
      let horas_maximas := obtener_valor regla in
      if es_numero horas_maximas then
        ahora <- ahora_mundo ;;
        segundos <- lift (total_seconds (utc nueva_fecha - utc ahora)) ;;
        limite <- lift (por_3600 horas_maximas) ;;
        largo <- lift (mayor_que segundos limite) ;;
        if (largo : bool)
        then ret (errores ++
                  [o_bien (mensaje_error regla)
                     ("No puede reprogramar con más de "
                      ++ str_de horas_maximas
                      ++ " horas de anticipación.")])%list
        else ret errores
      else ret errores
  | None => ret errores
  end.

Definition revisar_limite (bd : BD) (reserva : Reserva) (rol : string)
  (errores : list string) : ST Mundo (list string) :=
  match obtener_regla_activa bd "LIMITE_REPROGRAMACIONES" rol with
  | Some regla =>
      let limite := obtener_valor regla in
      if es_numero limite then
        n <- lift (int_py limite) ;;
        if n <=? numero_reprogramaciones reserva
        then ret (errores ++
                  [o_bien (mensaje_error regla)
                     ("Ha alcanzado el límite de " ++ str_de limite
                      ++ " reprogramaciones para esta reserva.")])%list
        else ret errores
      else ret errores
  | None => ret errores
  end.

(** The two checks inside [try: ... except: pass]: nothing that they raise
    goes on, and what they add is added and not raised. *)
Definition revisar_dias (bd : BD) (nueva_fecha : datetime) (rol : string)
  (errores : list string) : list string :=
  match obtener_regla_activa bd "DIAS_BLACKOUT" rol with
  | Some regla =>
      match obtener_valor regla with
      | VList dias_blackout =>
          let nombre_dia :=
            nth (Z.to_nat (weekday nueva_fecha))
                ["lunes"; "martes"; "miercoles"; "jueves"; "viernes";
                 "sabado"; "domingo"] "" in
          match lower_todos dias_blackout with
          | Ok bajos =>
              if en_lista nombre_dia bajos
              then (errores ++
                    [o_bien (mensaje_error regla)
                       ("No se puede reprogramar en " ++ nombre_dia
                        ++ ".")])%list
              else errores
          | Raise _ => errores
          end
      | _ => errores
      end
  | None => errores
  end.

Definition revisar_horas (bd : BD) (nueva_fecha : datetime) (rol : string)
  (errores : list string) : list string :=
  match obtener_regla_activa bd "HORAS_BLACKOUT" rol with
  | Some regla =>
      match obtener_valor regla with
      | VList horas_blackout =>
          let hora_nueva := hour nueva_fecha in
          if existsb (py_eq_int hora_nueva) horas_blackout
          then (errores ++
                [o_bien (mensaje_error regla)
                   ("No se puede reprogramar a las "
                    ++ str_de (VInt hora_nueva) ++ ":00 horas.")])%list
          else errores
      | _ => errores
      end
  | None => errores
  end.

(** The body of the loop over the roles. *)
Definition revisar_rol (reserva : Reserva) (nueva_fecha : datetime)
  (rol : string) (errores : list string) : ST Mundo (list string) :=
  bd <- leer_bd ;;
  errores <- revisar_minimo bd nueva_fecha rol errores ;;
  errores <- revisar_maximo bd nueva_fecha rol errores ;;
  errores <- revisar_limite bd reserva rol errores ;;
  let errores := revisar_dias bd nueva_fecha rol errores in
  let errores := revisar_horas bd nueva_fecha rol errores in
  ret errores.

(** [for rol in roles + ['ALL']: ...]. *)
Fixpoint recorrer_roles (reserva : Reserva) (nueva_fecha : datetime)
  (roles : list string) (errores : list string) : ST Mundo (list string) :=
  match roles with
  | [] => ret errores
  | rol :: resto =>
      errores' <- revisar_rol reserva nueva_fecha rol errores ;;
      recorrer_roles reserva nueva_fecha resto errores'
  end.

(** [validate], with the request in the context, as the view puts it.  A
    detail that is a dict with one field is written as the list of the field
    followed by its messages. *)
Definition validate (attrs : Atributos) : ST Mundo Atributos :=
  bd <- leer_bd ;;
  match find (fun r => id r =? a_reserva_id attrs) (reservas bd) with
  | None => raise (ValidationError ["reserva_id"; "Reserva no encontrada."])
  | Some reserva =>
      let roles := roles_de_request request_user in
      errores <-
        recorrer_roles reserva (a_nueva_fecha attrs) (roles ++ ["ALL"])%list
          [] ;;
      match errores with
      | [] => ret attrs
      | _ => raise (ValidationError ("reglas_violadas" :: errores))
      end
  end.

End Validate.

End ValidadorReglasSerializer.

(** *** ResumenReglasSerializer *)

Module ResumenReglasSerializer.

(** [ReglasReprogramacion.TIPOS_REGLA]. *)
Definition TIPOS_REGLA : list (string * string) :=
  [("TIEMPO_MINIMO", "Tiempo mínimo de anticipación");
   ("TIEMPO_MAXIMO", "Tiempo máximo para reprogramar");
   ("LIMITE_REPROGRAMACIONES", "Límite de reprogramaciones por reserva");
   ("LIMITE_DIARIO", "Límite de reprogramaciones por día");
   ("LIMITE_SEMANAL", "Límite de reprogramaciones por semana");
   ("LIMITE_MENSUAL", "Límite de reprogramaciones por mes");
   ("DIAS_BLACKOUT", "Días no permitidos para reprogramar");
   ("HORAS_BLACKOUT", "Horas no permitidas para reprogramar");
   ("CAPACIDAD_MAXIMA", "Capacidad máxima por fecha");
   ("DESCUENTO_PENALIZACION", "Penalización por reprogramar");
   ("SERVICIOS_RESTRINGIDOS", "Servicios con restricciones especiales");
   ("ROLES_EXCLUIDOS", "Roles excluidos de ciertas restricciones")].

Record Entrada : Type := {
  e_descripcion : string;
  e_valor : pyval;
  e_aplicable_a : string;
  e_mensaje : string;
  e_activa_desde : option datetime;
  e_activa_hasta : option datetime
}.

Record Resumen : Type := {
  reglas_activas : list (string * Entrada);     (* a dict, in key order *)
  total_reglas : nat;
  roles_usuario : list string
}.

Section ToRepresentation.

Context `{RT : Runtime}.
Variable request_user : option Usuario.

(** [roles = ['ALL']] extended with the roles of the user. *)
Definition roles : list string := "ALL" :: roles_de_request request_user.

(** The inner loop for one type: the entry of the first role with a rule. *)
Definition entrada_de (bd : BD) (tipo_regla descripcion : string)
  : list (string * Entrada) :=
  match primera_regla bd tipo_regla roles with
  | Some (_, regla) =>
      [(tipo_regla,
        {| e_descripcion := descripcion;
           e_valor := obtener_valor regla;
           e_aplicable_a := aplicable_a regla;
           e_mensaje := o_bien (mensaje_error regla)
                          ("Regla: " ++ descripcion);
           e_activa_desde := fecha_inicio_vigencia regla;
           e_activa_hasta := fecha_fin_vigencia regla |})]
  | None => []
  end.

Definition to_representation (bd : BD) : Resumen :=
  let resumen :=
    flat_map (fun t => entrada_de bd (fst t) (snd t)) TIPOS_REGLA in
  {| reglas_activas := resumen;
     total_reglas := List.length resumen;
     roles_usuario :=
       if Nat.ltb 1 (List.length roles) then tl roles
       else ["No autenticado"] |}.

End ToRepresentation.

End ResumenReglasSerializer.

End serializers.

(** ** reservas/views.py *)

Module views.
Import models.

Record CambioPrecio : Type := {
  cambio : bool;
  nuevo_total : Z
}.

Inductive Respuesta : Type :=
| Reprogramada (reserva : Reserva) (cliente soporte : bool)     (* 200 *)
| FechaNoDisponible.                                            (* 400 *)

Definition tiene_rol (roles : list string) (permitidos : list string) : bool :=
  existsb (fun r => en_lista r roles) permitidos.

(** The row of an object as the table keeps it and a later query returns
    it: the datetime columns give back their instants in UTC, whatever the
    zone of the value assigned to the object. *)
Definition fila_guardada (r : Reserva) : Reserva :=
  {| id := id r; usuario := usuario r;
     fecha_inicio := en_utc (fecha_inicio r);
     estado := estado r; total := total r;
     fecha_original := option_map en_utc (fecha_original r);
     fecha_reprogramacion := option_map en_utc (fecha_reprogramacion r);
     motivo_reprogramacion := motivo_reprogramacion r;
     numero_reprogramaciones := numero_reprogramaciones r;
     reprogramado_por := reprogramado_por r;
     detalles := detalles r |}.

Definition fila_historial (h : HistorialReprogramacion)
  : HistorialReprogramacion :=
  {| h_reserva := h_reserva h;
     fecha_anterior := en_utc (fecha_anterior h);
     fecha_nueva := en_utc (fecha_nueva h);
     motivo := motivo h;
     h_reprogramado_por := h_reprogramado_por h;
     notificacion_enviada := notificacion_enviada h;
     created_at := en_utc (created_at h) |}.

(** [reserva.save()]: the row of that id is replaced by the row of the
    object. *)
Definition guardar_reserva (r : Reserva) (bd : BD) : BD :=
  {| reglas := reglas bd;
     reservas := map (fun x => if id x =? id r then fila_guardada r else x)
                     (reservas bd);
     historial := historial bd |}.

(** [HistorialReprogramacion.objects.create(...)] followed by the
    [historial.save()] that records the notification flag.  The row's
    [created_at] is the reading of the clock taken when the row is created. *)
Definition crear_historial (h : HistorialReprogramacion) (bd : BD) : BD :=
  {| reglas := reglas bd;
     reservas := reservas bd;
     historial := (historial bd ++ [fila_historial h])%list |}.

(** The row with another [estado]. *)
Definition con_estado (e : Estado) (r : Reserva) : Reserva :=
  {| id := id r; usuario := usuario r; fecha_inicio := fecha_inicio r;
     estado := e; total := total r;
     fecha_original := fecha_original r;
     fecha_reprogramacion := fecha_reprogramacion r;
     motivo_reprogramacion := motivo_reprogramacion r;
     numero_reprogramaciones := numero_reprogramaciones r;
     reprogramado_por := reprogramado_por r;
     detalles := detalles r |}.

Section Vistas.

Context `{RT : Runtime}.

(** Parts of the views that consult the catalogue (packages and prices of
    the services) and the mail system, which are outside these sources. *)
Variable _is_fecha_disponible : BD -> datetime -> Reserva -> res bool.
Variable _verificar_disponibilidad_completa : BD -> datetime -> Reserva -> bool.
Variable _verificar_cambio_precio : BD -> datetime -> Reserva -> CambioPrecio.
Variable notificar_cliente : Reserva -> datetime -> string -> bool.
Variable notificar_administrador :
  Reserva -> datetime -> option Usuario -> string -> bool.

Variable request_user : option Usuario.

Definition get_user_roles : list string := roles_de_request request_user.

Definition es_del_usuario (r : Reserva) : bool :=
  match request_user with
  | Some u => usuario r =? usuario_id u
  | None => false
  end.

Definition get_queryset (bd : BD) : list Reserva :=
  let roles := get_user_roles in
  if (en_lista "ADMIN" roles || en_lista "OPERADOR" roles)%bool
  then reservas bd
  else if en_lista "CLIENTE" roles
  then filter es_del_usuario (reservas bd)
  else [].

Definition motivo_validado (d : serializers.Datos) : string :=
  match serializers.d_motivo d with
  | Some m => m
  | None => ""
  end.

(** [ReservaViewSet.cancelar]; the response carries the row saved. *)
Definition cancelar (pk : Z) : ST Mundo Reserva :=
  let roles := get_user_roles in
  (if negb (tiene_rol roles ["ADMIN"; "OPERADOR"; "CLIENTE"])
   then raise (PermissionDenied "No tienes permisos para cancelar reservas.")
   else ret tt) ;;
  bd <- leer_bd ;;
  match find (fun r => id r =? pk) (get_queryset bd) with
  | None => raise Http404
  | Some reserva =>
      (if (en_lista "CLIENTE" roles && negb (es_del_usuario reserva))%bool
       then raise (PermissionDenied
                     "No puedes cancelar una reserva que no es tuya.")
       else ret tt) ;;
      let reserva' := con_estado CANCELADA reserva in
      escribir_bd (guardar_reserva reserva' bd) ;;
      ret reserva'
  end.

(** [ReservaViewSet.pagar]. *)
Definition pagar (pk : Z) : ST Mundo Reserva :=
  let roles := get_user_roles in
  (if negb (tiene_rol roles ["ADMIN"; "OPERADOR"; "CLIENTE"])
   then raise (PermissionDenied "No tienes permisos para marcar como pagada.")
   else ret tt) ;;
  bd <- leer_bd ;;
  match find (fun r => id r =? pk) (get_queryset bd) with
  | None => raise Http404
  | Some reserva =>
      (if (en_lista "CLIENTE" roles && negb (es_del_usuario reserva))%bool
       then raise (PermissionDenied
                     "No puedes pagar una reserva que no es tuya.")
       else ret tt) ;;
      let reserva' := con_estado PAGADA reserva in
      escribir_bd (guardar_reserva reserva' bd) ;;
      ret reserva'
  end.

(** [ReservaViewSet.reprogramar]. *)
Definition reprogramar (pk : Z) (data : serializers.Datos)
  : ST Mundo Respuesta :=
  let roles := get_user_roles in
  (if negb (tiene_rol roles ["ADMIN"; "OPERADOR"; "CLIENTE"])
   then raise (PermissionDenied
                 "No tienes permisos para reprogramar reservas.")
   else ret tt) ;;
  bd <- leer_bd ;;
  match find (fun r => id r =? pk) (get_queryset bd) with
  | None => raise Http404
  | Some reserva =>
      (if (en_lista "CLIENTE" roles && negb (es_del_usuario reserva))%bool
       then raise (PermissionDenied
                     "No puedes reprogramar una reserva que no es tuya.")
       else ret tt) ;;
      validated <- serializers.is_valid request_user (Some reserva) data ;;
      let nueva_fecha := serializers.nueva_fecha validated in
      let motivo := motivo_validado validated in
      bd <- leer_bd ;;
      libre <- lift (_is_fecha_disponible bd nueva_fecha reserva) ;;
      if negb libre then ret FechaNoDisponible
      else
        let fecha_anterior := fecha_inicio reserva in
        ahora <- ahora_mundo ;;
        let reserva' :=
          {| id := id reserva;
             usuario := usuario reserva;
             fecha_inicio := nueva_fecha;
             estado := REPROGRAMADA;
             total := total reserva;
             fecha_original :=
               match fecha_original reserva with
               | None => Some fecha_anterior
               | Some f => Some f
               end;
             fecha_reprogramacion := Some ahora;
             motivo_reprogramacion := Some motivo;
             numero_reprogramaciones := numero_reprogramaciones reserva + 1;
             reprogramado_por := option_map usuario_id request_user;
             detalles := detalles reserva |} in
        creado <- ahora_mundo ;;
        let notificacion_cliente :=
          notificar_cliente reserva' fecha_anterior motivo in
        let notificacion_soporte :=
          notificar_administrador reserva' fecha_anterior request_user motivo in
        let h :=
          {| h_reserva := id reserva';
             fecha_anterior := fecha_anterior;
             fecha_nueva := nueva_fecha;
             motivo := Some motivo;
             h_reprogramado_por := option_map usuario_id request_user;
             notificacion_enviada :=
               (notificacion_cliente && notificacion_soporte)%bool;
             created_at := creado |} in
        escribir_bd (crear_historial h (guardar_reserva reserva' bd)) ;;
        ret (Reprogramada reserva' notificacion_cliente notificacion_soporte)
  end.

(** [GestionReprogramacionAPIView.post]. *)
Definition post (reserva_id : Z) (data : serializers.Datos)
  : ST Mundo Respuesta :=
  bd <- leer_bd ;;
  match find (fun r => id r =? reserva_id) (reservas bd) with
  | None => raise Http404
  | Some reserva =>
      let roles := get_user_roles in
      (if negb (tiene_rol roles ["ADMIN"; "OPERADOR"; "CLIENTE"])
       then raise (PermissionDenied
                     "No tienes permisos para reprogramar reservas.")
       else ret tt) ;;
      (if (en_lista "CLIENTE" roles && negb (es_del_usuario reserva))%bool
       then raise (PermissionDenied
                     "No puedes reprogramar una reserva que no es tuya.")
       else ret tt) ;;
      validated <- serializers.is_valid request_user (Some reserva) data ;;
      let nueva_fecha := serializers.nueva_fecha validated in
      let motivo := motivo_validado validated in
      bd <- leer_bd ;;
      if negb (_verificar_disponibilidad_completa bd nueva_fecha reserva)
      then ret FechaNoDisponible
      else
        let cambio_precio := _verificar_cambio_precio bd nueva_fecha reserva in
        let fecha_anterior := fecha_inicio reserva in
        ahora <- ahora_mundo ;;
        let reserva' :=
          {| id := id reserva;
             usuario := usuario reserva;
             fecha_inicio := nueva_fecha;
             estado := REPROGRAMADA;
             total := if cambio cambio_precio then nuevo_total cambio_precio
                      else total reserva;
             fecha_original :=
               match fecha_original reserva with
               | None => Some fecha_anterior
               | Some f => Some f
               end;
             fecha_reprogramacion := Some ahora;
             motivo_reprogramacion := Some motivo;
             numero_reprogramaciones := numero_reprogramaciones reserva + 1;
             reprogramado_por := option_map usuario_id request_user;
             detalles := detalles reserva |} in
        creado <- ahora_mundo ;;
        let notificacion_cliente :=
          notificar_cliente reserva' fecha_anterior motivo in
        let notificacion_soporte :=
          notificar_administrador reserva' fecha_anterior request_user motivo in
        let h :=
          {| h_reserva := id reserva';
             fecha_anterior := fecha_anterior;
             fecha_nueva := nueva_fecha;
             motivo := Some motivo;
             h_reprogramado_por := option_map usuario_id request_user;
             notificacion_enviada :=
               (notificacion_cliente && notificacion_soporte)%bool;
             created_at := creado |} in
        escribir_bd (crear_historial h (guardar_reserva reserva' bd)) ;;
        ret (Reprogramada reserva' notificacion_cliente notificacion_soporte)
  end.

End Vistas.

End views.

(** ** What a rescheduling writes

    The request of [request_user] for the booking [pk] turned the row
    [reserva] of the tables of [w] into the object [r'], with the
    notification flags [c] and [so], and left the tables of [w'], which keep
    the row of [r']. *)
Definition reprogramacion_escrita `{Runtime} (request_user : option Usuario)
  (pk : Z) (data : serializers.Datos) (w w' : Mundo)
  (reserva r' : models.Reserva) (c so : bool) : Prop :=
  In reserva (models.reservas (m_bd w)) /\ models.id reserva = pk /\
  (* the row saved *)
  models.id r' = pk /\
  models.usuario r' = models.usuario reserva /\
  models.detalles r' = models.detalles reserva /\
  models.fecha_inicio r' = serializers.nueva_fecha data /\
  models.estado r' = models.REPROGRAMADA /\
  models.numero_reprogramaciones r'
    = models.numero_reprogramaciones reserva + 1 /\
  models.reprogramado_por r' = option_map usuario_id request_user /\
  models.fecha_reprogramacion r'
    = Some {| utc := reloj (S (m_ticks w)); offset := 0 |} /\
  models.motivo_reprogramacion r' = Some (views.motivo_validado data) /\
  (* the tables *)
  models.reglas (m_bd w') = models.reglas (m_bd w) /\
  models.reservas (m_bd w')
    = map (fun x => if models.id x =? pk then views.fila_guardada r' else x)
          (models.reservas (m_bd w)) /\
  exists h,
    models.historial (m_bd w') = (models.historial (m_bd w) ++ [h])%list /\
    models.h_reserva h = pk /\
    models.fecha_anterior h = en_utc (models.fecha_inicio reserva) /\
    models.fecha_nueva h = en_utc (serializers.nueva_fecha data) /\
    models.motivo h = Some (views.motivo_validado data) /\
    models.h_reprogramado_por h = option_map usuario_id request_user /\
    models.notificacion_enviada h = (c && so)%bool.

(** Every booking of the tables counts as many reschedulings as the history
    has rows for it. *)
Definition cuenta_consistente (bd : models.BD) : Prop :=
  forall r, In r (models.reservas bd) ->
    models.numero_reprogramaciones r
    = Z.of_nat (List.length
                  (filter (fun h => models.h_reserva h =? models.id r)
                          (models.historial bd))).

(** ** A runtime and sample rows, for the examples *)

Module ejemplo.
Import models.

Definition texto_de_Z (z : Z) : string := NilZero.string_of_int (Z.to_int z).

Definition comilla : string := String (ascii_of_nat 34) EmptyString.

(** The JSON text of the list with the single string domingo. *)
Definition texto_domingo : string :=
  "[" ++ comilla ++ "domingo" ++ comilla ++ "]".

(** 2024-01-01T00:00:00Z, a Monday. *)
Definition t0 : Z := 1704067200000000.

(** A runtime that decodes three JSON texts, prints integers in decimal and
    whose clock advances by one microsecond per reading from [t0]. *)
Definition rt : Runtime :=
  {| json_loads := fun s =>
       if String.eqb s texto_domingo then Ok (VList [VStr "domingo"])
       else if String.eqb s "[22, 23]" then Ok (VList [VInt 22; VInt 23])
       else if String.eqb s "[6, 7]" then Ok (VList [VInt 6; VInt 7])
       else Raise ValueError;
     timedelta_horas_float := fun f =>
       res_bind (int_de_float (PrimFloat.mul f (float_de_Z us_por_hora)))
                timedelta_us;
     truediv_grande := fun a b =>
       Ok (PrimFloat.div (float_de_Z a) (float_de_Z b));
     str_de := fun v =>
       match v with
       | VInt z => texto_de_Z z
       | VStr s => s
       | VBool true => "True"
       | VBool false => "False"
       | _ => "?"
       end;
     fmt_dias := fun v =>
       match v with
       | VInt z => texto_de_Z (z / 24)
       | _ => "?"
       end;
     zona_actual := -4 * us_por_hora;
     reloj := fun k => t0 + Z.of_nat k |}.

(** The same runtime with a clock that shows [t0] at every reading. *)
Definition rt_parado : Runtime :=
  {| json_loads := @json_loads rt;
     timedelta_horas_float := @timedelta_horas_float rt;
     truediv_grande := @truediv_grande rt;
     str_de := @str_de rt;
     fmt_dias := @fmt_dias rt;
     zona_actual := @zona_actual rt;
     reloj := fun _ => t0 |}.

Definition regla (nombre tipo aplicable : string) (prioridad : Z)
  : ReglasReprogramacion :=
  {| nombre := nombre; tipo_regla := tipo; aplicable_a := aplicable;
     valor_numerico := None; valor_decimal := None; valor_texto := None;
     valor_booleano := None;
     fecha_inicio_vigencia := None; fecha_fin_vigencia := None;
     activa := true; prioridad := prioridad; mensaje_error := None |}.

Definition con_numero (n : Z) (r : ReglasReprogramacion) : ReglasReprogramacion :=
  {| nombre := nombre r; tipo_regla := tipo_regla r;
     aplicable_a := aplicable_a r;
     valor_numerico := Some n; valor_decimal := valor_decimal r;
     valor_texto := valor_texto r; valor_booleano := valor_booleano r;
     fecha_inicio_vigencia := fecha_inicio_vigencia r;
     fecha_fin_vigencia := fecha_fin_vigencia r;
     activa := activa r; prioridad := prioridad r;
     mensaje_error := mensaje_error r |}.

Definition con_decimal (d : Z) (r : ReglasReprogramacion) : ReglasReprogramacion :=
  {| nombre := nombre r; tipo_regla := tipo_regla r;
     aplicable_a := aplicable_a r;
     valor_numerico := valor_numerico r; valor_decimal := Some d;
     valor_texto := valor_texto r; valor_booleano := valor_booleano r;
     fecha_inicio_vigencia := fecha_inicio_vigencia r;
     fecha_fin_vigencia := fecha_fin_vigencia r;
     activa := activa r; prioridad := prioridad r;
     mensaje_error := mensaje_error r |}.

Definition con_texto (t : string) (r : ReglasReprogramacion) : ReglasReprogramacion :=
  {| nombre := nombre r; tipo_regla := tipo_regla r;
     aplicable_a := aplicable_a r;
     valor_numerico := valor_numerico r; valor_decimal := valor_decimal r;
     valor_texto := Some t; valor_booleano := valor_booleano r;
     fecha_inicio_vigencia := fecha_inicio_vigencia r;
     fecha_fin_vigencia := fecha_fin_vigencia r;
     activa := activa r; prioridad := prioridad r;
     mensaje_error := mensaje_error r |}.

(** Rules in the style of [configurar_reglas_reprogramacion]. *)
Definition minimo_todos : ReglasReprogramacion :=
  con_numero 24 (regla "Tiempo mínimo estándar" "TIEMPO_MINIMO" "ALL" 1).

Definition minimo_clientes : ReglasReprogramacion :=
  con_numero 48 (regla "Tiempo mínimo clientes" "TIEMPO_MINIMO" "CLIENTE" 2).

Definition minimo_admins : ReglasReprogramacion :=
  con_numero 2 (regla "Tiempo mínimo admins" "TIEMPO_MINIMO" "ADMIN" 1).

Definition minimo_operadores : ReglasReprogramacion :=
  con_numero 12
    (regla "Tiempo mínimo operadores" "TIEMPO_MINIMO" "OPERADOR_ADMIN" 3).

Definition sin_domingos : ReglasReprogramacion :=
  con_texto texto_domingo
    (regla "Sin reprogramaciones domingos" "DIAS_BLACKOUT" "ALL" 2).


Definition dias_mal_formados : ReglasReprogramacion :=
  con_texto "domingo, lunes"
    (regla "Sin reprogramaciones domingos" "DIAS_BLACKOUT" "ALL" 2).


Definition penalizacion_clientes : ReglasReprogramacion :=
  con_numero 5
    (regla "Penalización reprogramación" "DESCUENTO_PENALIZACION" "CLIENTE" 1).

Definition penalizacion_negativa : ReglasReprogramacion :=
  con_numero (-5)
    (regla "Penalización reprogramación" "DESCUENTO_PENALIZACION" "CLIENTE" 1).

Definition varios_valores : ReglasReprogramacion :=
  con_texto "texto" (con_decimal 250 (con_numero 1
    (regla "Varios valores" "TIEMPO_MINIMO" "ALL" 1))).

Definition tablas (rs : list ReglasReprogramacion) (bs : list Reserva) : BD :=
  {| reglas := rs; reservas := bs; historial := [] |}.

Definition cliente : Usuario := {| usuario_id := 7; roles_de := ["CLIENTE"] |}.

(** A pending booking of [cliente] that starts ten days after [t0], total
    1000.00. *)
Definition reserva1 : Reserva :=
  {| id := 1; usuario := 7;
     fecha_inicio := {| utc := t0 + 10 * us_por_dia; offset := 0 |};
     estado := PENDIENTE; total := 100000;
     fecha_original := None; fecha_reprogramacion := None;
     motivo_reprogramacion := None; numero_reprogramaciones := 0;
     reprogramado_por := None;
     detalles := [{| servicio_id := 3; servicio_titulo := "Salar de Uyuni";
                     cantidad := 2 |}] |}.

(** The instant [h] hours after [t0], in UTC. *)
Definition en_horas (h : Z) : datetime :=
  {| utc := t0 + h * us_por_hora; offset := 0 |}.

(** The tables of a request, before any reading of the clock. *)
Definition mundo (bd : BD) : Mundo := {| m_bd := bd; m_ticks := 0 |}.

(** Collaborators of the views that always agree: the date is free, the
    price is unchanged and both notifications are sent. *)
Definition siempre_disponible (_ : BD) (_ : datetime) (_ : Reserva) : res bool :=
  Ok true.

Definition disponibilidad_completa (_ : BD) (_ : datetime) (_ : Reserva) : bool :=
  true.

Definition sin_cambio_precio (_ : BD) (_ : datetime) (r : Reserva)
  : views.CambioPrecio :=
  {| views.cambio := false; views.nuevo_total := total r |}.

Definition notifica_cliente (_ : Reserva) (_ : datetime) (_ : string) : bool :=
  true.

Definition notifica_administrador (_ : Reserva) (_ : datetime)
  (_ : option Usuario) (_ : string) : bool := true.

(** A request for the instant [h] hours after [t0], with no reason given. *)
Definition pedido (h : Z) : serializers.Datos :=
  {| serializers.nueva_fecha := en_horas h; serializers.d_motivo := None |}.



Definition inicio : validators.EstadoV :=
  {| validators.ticks := 0; validators.errores := [];
     validators.warnings := [] |}.

End ejemplo.

(** ** More rows, for the properties of the single checks *)

Module casos.
Import models.

Definition con_reprogramaciones (n : Z) (r : Reserva) : Reserva :=
  {| id := id r; usuario := usuario r; fecha_inicio := fecha_inicio r;
     estado := estado r; total := total r;
     fecha_original := fecha_original r;
     fecha_reprogramacion := fecha_reprogramacion r;
     motivo_reprogramacion := motivo_reprogramacion r;
     numero_reprogramaciones := n;
     reprogramado_por := reprogramado_por r;
     detalles := detalles r |}.

Definition reserva_cancelada : Reserva :=
  views.con_estado CANCELADA ejemplo.reserva1.

(** A booking of another user, on the day of [ejemplo.en_horas 96] and on
    the same service as [ejemplo.reserva1]. *)
Definition reserva2 : Reserva :=
  {| id := 2; usuario := 8;
     fecha_inicio := ejemplo.en_horas 100;
     estado := PAGADA; total := 50000;
     fecha_original := None; fecha_reprogramacion := None;
     motivo_reprogramacion := None; numero_reprogramaciones := 0;
     reprogramado_por := None;
     detalles := [{| servicio_id := 3; servicio_titulo := "Salar de Uyuni";
                     cantidad := 1 |};
                  {| servicio_id := 4; servicio_titulo := "Isla Incahuasi";
                     cantidad := 1 |}] |}.

Definition limite_dos : ReglasReprogramacion :=
  ejemplo.con_numero 2
    (ejemplo.regla "Límite de reprogramaciones" "LIMITE_REPROGRAMACIONES"
       "ALL" 1).

Definition limite_diario_uno : ReglasReprogramacion :=
  ejemplo.con_numero 1
    (ejemplo.regla "Límite diario" "LIMITE_DIARIO" "ALL" 1).

Definition horas_nocturnas : ReglasReprogramacion :=
  ejemplo.con_texto "[22, 23]"
    (ejemplo.regla "Sin reprogramaciones nocturnas" "HORAS_BLACKOUT" "ALL" 1).

Definition capacidad_uno : ReglasReprogramacion :=
  ejemplo.con_numero 1
    (ejemplo.regla "Capacidad máxima" "CAPACIDAD_MAXIMA" "ALL" 1).

(** A row of the history made by [ejemplo.cliente] five hours after
    [ejemplo.t0]. *)
Definition cambio_de_hoy : HistorialReprogramacion :=
  {| h_reserva := 1;
     fecha_anterior := ejemplo.en_horas 240;
     fecha_nueva := ejemplo.en_horas 264;
     motivo := None; h_reprogramado_por := Some 7;
     notificacion_enviada := true;
     created_at := ejemplo.en_horas 5 |}.

(** The JSON text of the list with the single title Salar de Uyuni. *)
Definition texto_servicios : string :=
  "[" ++ ejemplo.comilla ++ "Salar de Uyuni" ++ ejemplo.comilla ++ "]".

(** The runtime of [ejemplo] with three more JSON texts decoded: the list of
    one title and the two float constants that [json.loads] accepts. *)
Definition rt : Runtime :=
  {| json_loads := fun s =>
       if String.eqb s texto_servicios then Ok (VList [VStr "Salar de Uyuni"])
       else if String.eqb s "NaN" then Ok (VFloat PrimFloat.nan)
       else if String.eqb s "Infinity" then Ok (VFloat PrimFloat.infinity)
       else @json_loads ejemplo.rt s;
     timedelta_horas_float := @timedelta_horas_float ejemplo.rt;
     truediv_grande := @truediv_grande ejemplo.rt;
     str_de := @str_de ejemplo.rt;
     fmt_dias := @fmt_dias ejemplo.rt;
     zona_actual := @zona_actual ejemplo.rt;
     reloj := @reloj ejemplo.rt |}.

Definition servicios_restringidos : ReglasReprogramacion :=
  ejemplo.con_texto texto_servicios
    (ejemplo.regla "Servicios restringidos" "SERVICIOS_RESTRINGIDOS" "ALL" 1).

Definition capacidad_nan : ReglasReprogramacion :=
  ejemplo.con_texto "NaN"
    (ejemplo.regla "Capacidad máxima" "CAPACIDAD_MAXIMA" "ALL" 1).

Definition capacidad_infinita : ReglasReprogramacion :=
  ejemplo.con_texto "Infinity"
    (ejemplo.regla "Capacidad máxima" "CAPACIDAD_MAXIMA" "ALL" 1).

Definition con_vigencia (i f : option datetime) (r : ReglasReprogramacion)
  : ReglasReprogramacion :=
  {| nombre := nombre r; tipo_regla := tipo_regla r;
     aplicable_a := aplicable_a r;
     valor_numerico := valor_numerico r; valor_decimal := valor_decimal r;
     valor_texto := valor_texto r; valor_booleano := valor_booleano r;
     fecha_inicio_vigencia := i; fecha_fin_vigencia := f;
     activa := activa r; prioridad := prioridad r;
     mensaje_error := mensaje_error r |}.

(** A validity window that ended a year before [ejemplo.t0]. *)
Definition vencida (r : ReglasReprogramacion) : ReglasReprogramacion :=
  con_vigencia (Some (ejemplo.en_horas (- 24 * 730)))
               (Some (ejemplo.en_horas (- 24 * 365))) r.

Definition con_reglas (rs : list ReglasReprogramacion) (bd : BD) : BD :=
  {| reglas := rs; reservas := reservas bd; historial := historial bd |}.

(** Another client, with no booking of their own in the examples. *)
Definition otro_cliente : Usuario :=
  {| usuario_id := 8; roles_de := ["CLIENTE"] |}.

(** The attributes sent to create a rule: a type and a number. *)
Definition atributos (tipo : string) (n : option Z) (d : option Z)
  : serializers.ReglasReprogramacionSerializer.Atributos :=
  {| serializers.ReglasReprogramacionSerializer.a_tipo_regla := Some tipo;
     serializers.ReglasReprogramacionSerializer.a_valor_numerico := n;
     serializers.ReglasReprogramacionSerializer.a_valor_decimal := d;
     serializers.ReglasReprogramacionSerializer.a_valor_texto := None;
     serializers.ReglasReprogramacionSerializer.a_valor_booleano := None;
     serializers.ReglasReprogramacionSerializer.a_fecha_inicio_vigencia :=
       None;
     serializers.ReglasReprogramacionSerializer.a_fecha_fin_vigencia :=
       None |}.

(** A penalty rule with the decimal 10.00 and the number 500. *)
Definition penalizacion_doble : ReglasReprogramacion :=
  ejemplo.con_decimal 1000 (ejemplo.con_numero 500
    (ejemplo.regla "Penalización" "DESCUENTO_PENALIZACION" "ALL" 1)).


(** The rule switched off. *)
Definition inactiva (r : ReglasReprogramacion) : ReglasReprogramacion :=
  {| nombre := nombre r; tipo_regla := tipo_regla r;
     aplicable_a := aplicable_a r;
     valor_numerico := valor_numerico r; valor_decimal := valor_decimal r;
     valor_texto := valor_texto r; valor_booleano := valor_booleano r;
     fecha_inicio_vigencia := fecha_inicio_vigencia r;
     fecha_fin_vigencia := fecha_fin_vigencia r;
     activa := false; prioridad := prioridad r;
     mensaje_error := mensaje_error r |}.

(** The booking without its detail lines. *)
Definition sin_detalles (r : Reserva) : Reserva :=
  {| id := id r; usuario := usuario r; fecha_inicio := fecha_inicio r;
     estado := estado r; total := total r;
     fecha_original := fecha_original r;
     fecha_reprogramacion := fecha_reprogramacion r;
     motivo_reprogramacion := motivo_reprogramacion r;
     numero_reprogramaciones := numero_reprogramaciones r;
     reprogramado_por := reprogramado_por r;
     detalles := [] |}.

(** A rule of 48 hours for clients that goes before the rules of priority 1. *)
Definition minimo_clientes_primero : ReglasReprogramacion :=
  ejemplo.con_numero 48
    (ejemplo.regla "Tiempo mínimo clientes" "TIEMPO_MINIMO" "CLIENTE" 0).

(** A reason of 251 characters that take 502 bytes. *)
Fixpoint repetir (n : nat) (s : string) : string :=
  match n with
  | O => EmptyString
  | S k => s ++ repetir k s
  end.

Definition motivo_largo : string := repetir 251 "ñ".

Definition con_historial (hs : list HistorialReprogramacion) (bd : BD) : BD :=
  {| reglas := reglas bd; reservas := reservas bd; historial := hs |}.

End casos.

(** * Properties *)

(** ** The resolver *)

Section Resolver.
Import models.

Lemma insertar_In (r x : ReglasReprogramacion) (l : list ReglasReprogramacion) :
  In x (insertar r l) <-> x = r \/ In x l.
Proof.
  induction l as [|y t IH]; simpl.
  - intuition.
  - destruct (prioridad r <=? prioridad y); simpl.
    + intuition.
    + rewrite IH. intuition.
Qed.

Lemma order_by_prioridad_In (x : ReglasReprogramacion) l :
  In x (order_by_prioridad l) <-> In x l.
Proof.
  induction l as [|y t IH]; simpl.
  - tauto.
  - unfold order_by_prioridad in *. simpl.
    rewrite insertar_In, IH. intuition.
Qed.

Lemma insertar_sorted r l :
  StronglySorted models.por_prioridad l ->
  StronglySorted models.por_prioridad (insertar r l).
Proof.
  induction 1 as [|y t Hs IH Hall]; simpl.
  - constructor; constructor.
  - destruct (prioridad r <=? prioridad y) eqn:E.
    + apply Z.leb_le in E. constructor.
      * constructor; assumption.
      * constructor; [exact E|].
        rewrite Forall_forall in *. intros z Hz.
        unfold models.por_prioridad in *. specialize (Hall z Hz). lia.
    + apply Z.leb_gt in E. constructor; [exact IH|].
      rewrite Forall_forall in *. intros z Hz.
      apply insertar_In in Hz. destruct Hz as [->|Hz].
      * unfold models.por_prioridad. lia.
      * auto.
Qed.

Lemma order_by_prioridad_sorted l :
  StronglySorted models.por_prioridad (order_by_prioridad l).
Proof.
  induction l as [|y t IH]; simpl.
  - constructor.
  - apply insertar_sorted. exact IH.
Qed.

(** In a list sorted by priority, the first row that satisfies a test has
    the least priority number among the rows that satisfy it. *)
Lemma find_sorted_min (p : ReglasReprogramacion -> bool) l r :
  StronglySorted models.por_prioridad l ->
  find p l = Some r ->
  forall x, In x l -> p x = true -> prioridad r <= prioridad x.
Proof.
  induction 1 as [|y t Hs IH Hall]; simpl; [discriminate|].
  destruct (p y) eqn:Ey.
  - intros [= <-] x [<-|Hx] _; [lia|].
    rewrite Forall_forall in Hall. exact (Hall x Hx).
  - intros Hf x [<-|Hx] Hp; [congruence|]. eauto.
Qed.

Lemma obtener_regla_activa_Some bd tipo rol regla :
  obtener_regla_activa bd tipo rol = Some regla ->
  In regla (reglas bd) /\ activa regla = true /\ tipo_regla regla = tipo /\
  es_aplicable_a_rol regla rol = true /\
  (forall r, In r (reglas bd) -> activa r = true -> tipo_regla r = tipo ->
             es_aplicable_a_rol r rol = true ->
             prioridad regla <= prioridad r).
Proof.
  unfold obtener_regla_activa. intros H.
  pose proof (find_some _ _ H) as [Hin Hap].
  apply order_by_prioridad_In, filter_In in Hin.
  destruct Hin as [Hin Hf]. apply andb_prop in Hf. destruct Hf as [Ht Ha].
  apply String.eqb_eq in Ht.
  repeat split; auto.
  intros r Hr Har Htr Hapr.
  eapply find_sorted_min; eauto using order_by_prioridad_sorted.
  apply order_by_prioridad_In, filter_In. split; [exact Hr|].
  rewrite Har, Htr, String.eqb_refl. reflexivity.
Qed.

Lemma obtener_regla_activa_None bd tipo rol :
  obtener_regla_activa bd tipo rol = None ->
  forall r, In r (reglas bd) -> activa r = true -> tipo_regla r = tipo ->
            es_aplicable_a_rol r rol = false.
Proof.
  unfold obtener_regla_activa. intros H r Hr Har Htr.
  eapply find_none in H; [exact H|].
  apply order_by_prioridad_In, filter_In. split; [exact Hr|].
  rewrite Har, Htr, String.eqb_refl. reflexivity.
Qed.

Lemma primera_regla_Some bd tipo rs rol regla :
  primera_regla bd tipo rs = Some (rol, regla) ->
  exists antes despues,
    rs = (antes ++ rol :: despues)%list /\
    (forall rol', In rol' antes -> obtener_regla_activa bd tipo rol' = None) /\
    obtener_regla_activa bd tipo rol = Some regla.
Proof.
  induction rs as [|r0 t IH]; simpl; [discriminate|].
  destruct (obtener_regla_activa bd tipo r0) as [reg|] eqn:E.
  - intros [= <- <-]. exists [], t. simpl. intuition.
  - intros H. destruct (IH H) as (a & d & -> & Hn & Hs).
    exists (r0 :: a), d. simpl. split; [reflexivity|]. split; [|exact Hs].
    intros rol' [<-|Hin]; auto.
Qed.

Lemma primera_regla_None bd tipo rs :
  primera_regla bd tipo rs = None ->
  forall rol, In rol rs -> obtener_regla_activa bd tipo rol = None.
Proof.
  induction rs as [|r0 t IH]; simpl; [tauto|].
  destruct (obtener_regla_activa bd tipo r0) as [reg|] eqn:E; [discriminate|].
  intros H rol [<-|Hin]; auto.
Qed.

End Resolver.

(** ** Computations: inversion and composition *)

Lemma bind_inv {S A B} (m : ST S A) (f : A -> ST S B) (s : S) (b : B) (s' : S) :
  bind m f s = (Ok b, s') ->
  exists a s1, m s = (Ok a, s1) /\ f a s1 = (Ok b, s').
Proof.
  unfold bind. destruct (m s) as [[a|e] s1]; [eauto | discriminate].
Qed.

Section SoloAgrega.
Import models validators.
Context `{RT : Runtime}.

Lemma sa_ret {A} (a : A) : solo_agrega (ret a).
Proof. intros s. exists []. simpl. now rewrite app_nil_r. Qed.

Lemma sa_lift {A} (r : res A) : solo_agrega (lift r).
Proof. intros s. exists []. simpl. now rewrite app_nil_r. Qed.

Lemma sa_append (m : string) : solo_agrega (errores_append m).
Proof. intros s. exists [m]. reflexivity. Qed.

Lemma sa_now : solo_agrega timezone_now.
Proof. intros s. exists []. simpl. now rewrite app_nil_r. Qed.

Lemma sa_bind {A B} (m : M A) (f : A -> M B) :
  solo_agrega m -> (forall a, solo_agrega (f a)) -> solo_agrega (bind m f).
Proof.
  intros Hm Hf s. unfold bind. destruct (Hm s) as [d Hd].
  destruct (m s) as [[a|e] s1]; simpl in *.
  - destruct (Hf a s1) as [d' Hd']. exists (d ++ d')%list.
    rewrite Hd', Hd, app_assoc. reflexivity.
  - exists d. exact Hd.
Qed.

Lemma sa_try (h : exn -> bool) (m : M unit) :
  solo_agrega m -> solo_agrega (try_except h m).
Proof.
  intros Hm s. unfold try_except. destruct (Hm s) as [d Hd].
  destruct (m s) as [[a|e] s1]; simpl in *; [eauto|].
  destruct (h e); simpl; eauto.
Qed.

Lemma sa_para_cada {A} (f : A -> M unit) (l : list A) :
  (forall a, solo_agrega (f a)) -> solo_agrega (para_cada f l).
Proof.
  intros Hf. induction l as [|x t IH]; simpl.
  - apply sa_ret.
  - apply sa_bind; auto.
Qed.

End SoloAgrega.

Ltac solo_agrega_paso :=
  first
    [ apply sa_ret | apply sa_lift | apply sa_append | apply sa_now
    | apply sa_bind; [|intro]
    | apply sa_try
    | apply sa_para_cada; intro
    | match goal with
      | |- validators.solo_agrega (match ?x with _ => _ end) => destruct x
      end ].

Ltac solo_agrega_tac := cbv zeta; repeat solo_agrega_paso.

(** ** C1: resolution of the governing rule *)

Section ResolucionDeReglas.
Import models.

(** C1 (as the code has it).  For every rule type and every list of caller
    roles, the walk over the caller's roles followed by ALL stops at the first
    role for which the resolver finds a rule.  For that role the resolver
    returns an active rule of the type whose target matches the role and whose
    priority number is the least among the active rules of the type that
    match the role; no earlier role has a matching active rule; and the walk
    finds nothing exactly when no active rule of the type matches any role of
    the list.  A rule whose target is ALL matches every role, so it competes
    by priority with the rules aimed at the role itself. *)
Theorem C1_primera_regla_por_prioridad (bd : BD) (tipo : string)
  (roles_usuario : list string) :
  (forall r rol, aplicable_a r = "ALL" -> es_aplicable_a_rol r rol = true) /\
  match primera_regla bd tipo (roles_usuario ++ ["ALL"])%list with
  | Some (rol, regla) =>
      exists antes despues,
        (roles_usuario ++ ["ALL"])%list = (antes ++ rol :: despues)%list /\
        (forall rol' r, In rol' antes -> In r (reglas bd) -> activa r = true ->
                        tipo_regla r = tipo ->
                        es_aplicable_a_rol r rol' = false) /\
        In regla (reglas bd) /\ activa regla = true /\
        tipo_regla regla = tipo /\ es_aplicable_a_rol regla rol = true /\
        (forall r, In r (reglas bd) -> activa r = true -> tipo_regla r = tipo ->
                   es_aplicable_a_rol r rol = true ->
                   prioridad regla <= prioridad r)
  | None =>
      forall rol r, In rol (roles_usuario ++ ["ALL"])%list ->
                    In r (reglas bd) -> activa r = true ->
                    tipo_regla r = tipo -> es_aplicable_a_rol r rol = false
  end.
Proof.
  split.
  - intros r rol H. unfold es_aplicable_a_rol. rewrite H. reflexivity.
  - destruct (primera_regla bd tipo (roles_usuario ++ ["ALL"])%list)
      as [[rol regla]|] eqn:E.
    + destruct (primera_regla_Some _ _ _ _ _ E) as (a & d & Hr & Hn & Hs).
      exists a, d. split; [exact Hr|]. split.
      * intros rol' r Hin. apply obtener_regla_activa_None. auto.
      * apply obtener_regla_activa_Some in Hs. tauto.
    + intros rol r Hin. apply obtener_regla_activa_None.
      eapply primera_regla_None; eauto.
Qed.

(** C1 at sample rows: for a caller with the roles OPERADOR and ADMIN, with
    rules for ADMIN (priority 1), for OPERADOR_ADMIN (priority 3) and for
    CLIENTE (priority 2), the walk stops at OPERADOR, its first role, where
    only the OPERADOR_ADMIN rule matches; for a caller with the role ADMIN
    alone it selects the ADMIN rule, of the least priority number. *)
Lemma C1_testigo :
  let bd :=
    ejemplo.tablas
      [ejemplo.minimo_operadores; ejemplo.minimo_clientes;
       ejemplo.minimo_admins] [] in
  primera_regla bd "TIEMPO_MINIMO" (["OPERADOR"; "ADMIN"] ++ ["ALL"])%list
    = Some ("OPERADOR", ejemplo.minimo_operadores) /\
  primera_regla bd "TIEMPO_MINIMO" (["ADMIN"] ++ ["ALL"])%list
    = Some ("ADMIN", ejemplo.minimo_admins) /\
  (forall r, In r (reglas bd) -> activa r = true ->
             tipo_regla r = "TIEMPO_MINIMO" ->
             es_aplicable_a_rol r "ADMIN" = true ->
             prioridad ejemplo.minimo_admins <= prioridad r).
Proof.
  intros bd. split; [reflexivity|]. split; [reflexivity|].
  destruct (C1_primera_regla_por_prioridad bd "TIEMPO_MINIMO" ["ADMIN"])
    as [_ H].
  change (primera_regla bd "TIEMPO_MINIMO" (["ADMIN"] ++ ["ALL"])%list)
    with (Some ("ADMIN", ejemplo.minimo_admins)) in H.
  destruct H as (antes & despues & _ & _ & _ & _ & _ & _ & Hmin).
  exact Hmin.
Defined.

(** C1, as stated, fails: with an active ALL rule of priority 1 and an active
    CLIENTE rule of priority 2 of the same type, the walk for a CLIENTE caller
    stops at the role CLIENTE and selects the rule aimed at ALL. *)
Lemma C1_contraejemplo_regla_ALL_gana :
  let bd := ejemplo.tablas [ejemplo.minimo_clientes; ejemplo.minimo_todos] [] in
  In ejemplo.minimo_clientes (reglas bd) /\
  activa ejemplo.minimo_clientes = true /\
  tipo_regla ejemplo.minimo_clientes = "TIEMPO_MINIMO" /\
  aplicable_a ejemplo.minimo_clientes = "CLIENTE" /\
  primera_regla bd "TIEMPO_MINIMO" (["CLIENTE"] ++ ["ALL"])%list
    = Some ("CLIENTE", ejemplo.minimo_todos) /\
  aplicable_a ejemplo.minimo_todos = "ALL".
Proof.
  cbv zeta. repeat split; try reflexivity. simpl. auto.
Qed.

End ResolucionDeReglas.

(** ** C9: the value of a rule *)

Section ValorDeRegla.
Import models.
Context `{RT : Runtime}.

(** C9.  [obtener_valor] chooses among the four value fields by a fixed
    precedence: the integer field when it is set, whatever the others hold;
    else the decimal field, as a float; else the boolean field; else the
    text field when it is not empty, decoded as JSON when it decodes and as
    the raw text otherwise; and None when no field is set.  Nothing at read
    time requires that exactly one field be set: a rule with several fields
    set passes [clean] and reads as its integer. *)
Theorem C9_obtener_valor_precedencia (r : ReglasReprogramacion) :
  (forall n, valor_numerico r = Some n -> obtener_valor r = VInt n) /\
  (forall d, valor_numerico r = None -> valor_decimal r = Some d ->
             obtener_valor r = VFloat (float_de_decimal d)) /\
  (forall b, valor_numerico r = None -> valor_decimal r = None ->
             valor_booleano r = Some b -> obtener_valor r = VBool b) /\
  (forall t, valor_numerico r = None -> valor_decimal r = None ->
             valor_booleano r = None -> valor_texto r = Some t -> t <> "" ->
             obtener_valor r = match json_loads t with
                               | Ok v => v
                               | Raise _ => VStr t
                               end) /\
  (valor_numerico r = None -> valor_decimal r = None ->
   valor_booleano r = None -> vacio_texto (valor_texto r) = true ->
   obtener_valor r = VNone) /\
  (exists r', valor_numerico r' = Some 1 /\ valor_decimal r' = Some 250 /\
              valor_texto r' = Some "texto" /\ clean r' = Ok tt /\
              obtener_valor r' = VInt 1).
Proof.
  unfold obtener_valor. repeat split.
  - intros n ->. reflexivity.
  - intros d -> ->. reflexivity.
  - intros b -> -> ->. reflexivity.
  - intros t -> -> -> -> Ht. destruct t; [congruence|reflexivity].
  - intros -> -> ->. destruct (valor_texto r) as [[|c t]|]; simpl;
      intros; congruence.
  - exists ejemplo.varios_valores. repeat split.
Qed.

End ValorDeRegla.

(** C9 at a rule whose only value is a text that is not JSON: the raw text. *)
Lemma C9_testigo :
  @models.obtener_valor ejemplo.rt ejemplo.dias_mal_formados
    = VStr "domingo, lunes".
Proof.
  destruct (@C9_obtener_valor_precedencia ejemplo.rt ejemplo.dias_mal_formados)
    as (_ & _ & _ & H & _).
  rewrite (H "domingo, lunes"); try reflexivity. discriminate.
Defined.

(** ** The steps of the validator *)

Section PasosDelValidador.
Import models validators.
Context `{RT : Runtime}.
Variable bd : BD.
Variable usuario : option Usuario.

Lemma sa_fecha_basica nf : solo_agrega (_validar_fecha_basica nf).
Proof. unfold _validar_fecha_basica. solo_agrega_tac. Qed.

Lemma sa_estado_reserva r : solo_agrega (_validar_estado_reserva r).
Proof. unfold _validar_estado_reserva. solo_agrega_tac. Qed.

Lemma sa_tiempo_minimo ahora nf :
  solo_agrega (_tiempo_minimo bd usuario ahora nf).
Proof. unfold _tiempo_minimo. solo_agrega_tac. Qed.

Lemma sa_tiempo_maximo ahora nf :
  solo_agrega (_tiempo_maximo bd usuario ahora nf).
Proof. unfold _tiempo_maximo. solo_agrega_tac. Qed.

Lemma sa_reglas_tiempo nf : solo_agrega (_aplicar_reglas_tiempo bd usuario nf).
Proof.
  unfold _aplicar_reglas_tiempo.
  apply sa_bind; [apply sa_now|intro].
  apply sa_bind; [apply sa_tiempo_minimo|intro]. apply sa_tiempo_maximo.
Qed.

Lemma sa_reglas_limites r : solo_agrega (_aplicar_reglas_limites bd usuario r).
Proof. unfold _aplicar_reglas_limites. solo_agrega_tac. Qed.

Lemma sa_dias_blackout nf : solo_agrega (_dias_blackout bd usuario nf).
Proof. unfold _dias_blackout. solo_agrega_tac. Qed.

Lemma sa_horas_blackout nf : solo_agrega (_horas_blackout bd usuario nf).
Proof. unfold _horas_blackout. solo_agrega_tac. Qed.

Lemma sa_reglas_blackout nf :
  solo_agrega (_aplicar_reglas_blackout bd usuario nf).
Proof.
  unfold _aplicar_reglas_blackout.
  apply sa_bind; [apply sa_dias_blackout|intro]. apply sa_horas_blackout.
Qed.

Lemma sa_reglas_servicios r :
  solo_agrega (_aplicar_reglas_servicios bd usuario r).
Proof. unfold _aplicar_reglas_servicios. solo_agrega_tac. Qed.

Lemma sa_reglas_capacidad nf r :
  solo_agrega (_aplicar_reglas_capacidad bd usuario nf r).
Proof. unfold _aplicar_reglas_capacidad. solo_agrega_tac. Qed.

Lemma sa_Ok {A} (m : M A) s a s' :
  solo_agrega m -> m s = (Ok a, s') ->
  forall x, In x (errores s) -> In x (errores s').
Proof.
  intros H E x Hx. destruct (H s) as [d Hd]. rewrite E in Hd. simpl in Hd.
  rewrite Hd. apply in_or_app. now left.
Qed.

Lemma calcular_penalizacion_estado r s x s' :
  _calcular_penalizacion bd usuario r s = (x, s') -> s' = s.
Proof.
  unfold _calcular_penalizacion. cbv zeta.
  destruct (mayor_que_cero _); unfold bind, lift, ret.
  - destruct (entre_100 _); intros [= _ <-]; reflexivity.
  - intros [= _ <-]; reflexivity.
Qed.

Lemma calcular_penalizacion_indep r s x s' s1 :
  _calcular_penalizacion bd usuario r s = (Ok x, s') ->
  _calcular_penalizacion bd usuario r s1 = (Ok x, s1).
Proof.
  unfold _calcular_penalizacion. cbv zeta.
  destruct (mayor_que_cero _); unfold bind, lift, ret.
  - destruct (entre_100 _); [|discriminate]. intros [= <- _]. reflexivity.
  - intros [= <- _]. reflexivity.
Qed.

Lemma fecha_basica_ticks nf s s1 :
  _validar_fecha_basica nf s = (Ok tt, s1) -> ticks s1 = S (ticks s).
Proof.
  unfold _validar_fecha_basica, bind, timezone_now, lift, ret, errores_append.
  simpl.
  destruct (dt_le nf _); simpl;
    destruct (timedelta_dias 730); try discriminate;
    destruct (dt_mas _ _); try discriminate;
    destruct (dt_lt _ _); intros [= <-]; reflexivity.
Qed.

Lemma estado_reserva_ticks r s s1 :
  _validar_estado_reserva r s = (Ok tt, s1) -> ticks s1 = ticks s.
Proof.
  unfold _validar_estado_reserva.
  destruct (existsb _ _); intros [= <-]; reflexivity.
Qed.

(** What a verdict is made of: the states that the evaluation goes through. *)
Lemma validar_inv reserva nf s v s' :
  validar_reprogramacion_completa bd usuario reserva nf s = (Ok v, s') ->
  exists s1 s2 s3 s4 s5 s6 s7,
    _validar_fecha_basica nf (limpio s) = (Ok tt, s1) /\
    _validar_estado_reserva reserva s1 = (Ok tt, s2) /\
    _aplicar_reglas_tiempo bd usuario nf s2 = (Ok tt, s3) /\
    _aplicar_reglas_limites bd usuario reserva s3 = (Ok tt, s4) /\
    _aplicar_reglas_blackout bd usuario nf s4 = (Ok tt, s5) /\
    _aplicar_reglas_servicios bd usuario reserva s5 = (Ok tt, s6) /\
    _aplicar_reglas_capacidad bd usuario nf reserva s6 = (Ok tt, s7) /\
    _calcular_penalizacion bd usuario reserva s7 = (Ok (penalizacion v), s7) /\
    r_errores v = errores s7 /\
    valida v = Nat.eqb (List.length (errores s7)) 0 /\
    disponibilidad v = _verificar_disponibilidad bd nf reserva /\
    s' = leido s7.
Proof.
  unfold validar_reprogramacion_completa. intros H.
  apply bind_inv in H. destruct H as ([] & s0 & H0 & H).
  injection H0 as <-.
  apply bind_inv in H. destruct H as ([] & s1 & H1 & H).
  apply bind_inv in H. destruct H as ([] & s2 & H2 & H).
  apply bind_inv in H. destruct H as ([] & s3 & H3 & H).
  apply bind_inv in H. destruct H as ([] & s4 & H4 & H).
  apply bind_inv in H. destruct H as ([] & s5 & H5 & H).
  apply bind_inv in H. destruct H as ([] & s6 & H6 & H).
  apply bind_inv in H. destruct H as ([] & s7 & H7 & H).
  cbv zeta in H.
  apply bind_inv in H. destruct H as (pen & s8 & H8 & H).
  pose proof (calcular_penalizacion_estado _ _ _ _ H8) as ->.
  unfold bind, leer_errores, leer_warnings, timezone_now, ret in H.
  injection H as <- <-.
  exists s1, s2, s3, s4, s5, s6, s7. simpl. repeat split; assumption.
Qed.

(** A message present after some step is in the verdict, which is then not
    valid. *)
Lemma valida_false_de_In (l : list string) (x : string) :
  In x l -> Nat.eqb (List.length l) 0 = false.
Proof. destruct l; simpl; [tauto|reflexivity]. Qed.

End PasosDelValidador.

(** ** C3: the minimum lead time *)

Section TiempoMinimo.
Import models validators.
Context `{RT : Runtime}.
Variable bd : BD.
Variable usuario : option Usuario.

Lemma timedelta_us_Ok us td : timedelta_us us = Ok td -> td = us.
Proof.
  unfold timedelta_us. destruct (_ <=? _); [intros [= <-]; reflexivity|discriminate].
Qed.

Lemma dt_mas_Ok d td l : dt_mas d td = Ok l -> utc l = utc d + td.
Proof.
  unfold dt_mas. cbv zeta. destruct (_ && _)%bool; [|discriminate].
  intros [= <-]. reflexivity.
Qed.



End TiempoMinimo.


(** ** C4: blackout days and hours *)

Section Blackout.
Import models validators.
Context `{RT : Runtime}.
Variable bd : BD.
Variable usuario : option Usuario.




















End Blackout.



(** ** C8: the penalty *)

Section PenalizacionDelVeredicto.
Import models validators.
Context `{RT : Runtime}.
Variable bd : BD.
Variable usuario : option Usuario.

(** C8 (as the code has it).  The percentage is the value of the rule that
    governs DESCUENTO_PENALIZACION for the caller when that value is a
    number, and 0 otherwise (no rule, or a value that is not a number).  The
    penalty applies exactly when the percentage is greater than 0; then the
    amount is total * (percentage / 100) and the total with penalty is
    total + amount; when the percentage is not greater than 0 the amount is 0
    and the total with penalty is the total.  The verdict carries this
    penalty. *)
Theorem C8_penalizacion (reserva : Reserva) (nueva_fecha : datetime)
  (s : EstadoV) :
  let pct := penalizacion_pct_de bd usuario in
  let total_f := float_de_decimal (total reserva) in
  (primera_regla bd "DESCUENTO_PENALIZACION" (roles usuario) = None ->
   pct = VInt 0) /\
  (forall rol regla,
     primera_regla bd "DESCUENTO_PENALIZACION" (roles usuario)
       = Some (rol, regla) ->
     pct = if es_numero (obtener_valor regla) then obtener_valor regla
           else VInt 0) /\
  (forall q, mayor_que_cero pct = true -> entre_100 pct = Ok q ->
     _calcular_penalizacion bd usuario reserva s =
       (Ok {| aplica_penalizacion := true;
              porcentaje := pct;
              monto := VFloat (PrimFloat.mul total_f q);
              total_con_penalizacion :=
                PrimFloat.add total_f (PrimFloat.mul total_f q) |}, s)) /\
  (mayor_que_cero pct = false ->
     _calcular_penalizacion bd usuario reserva s =
       (Ok {| aplica_penalizacion := false;
              porcentaje := pct;
              monto := VInt 0;
              total_con_penalizacion :=
                PrimFloat.add total_f (float_de_Z 0) |}, s)) /\
  (forall v s',
     validar_reprogramacion_completa bd usuario reserva nueva_fecha s
       = (Ok v, s') ->
     aplica_penalizacion (penalizacion v) = mayor_que_cero pct /\
     porcentaje (penalizacion v) = pct /\
     forall s1,
       _calcular_penalizacion bd usuario reserva s1 = (Ok (penalizacion v), s1)).
Proof.
  intros pct total_f. unfold pct, penalizacion_pct_de.
  split; [|split; [|split; [|split]]].
  - intros ->. reflexivity.
  - intros rol regla ->. reflexivity.
  - intros q Hm Hq. unfold _calcular_penalizacion. cbv zeta.
    unfold penalizacion_pct_de. rewrite Hm. unfold bind, lift. rewrite Hq.
    reflexivity.
  - intros Hm. unfold _calcular_penalizacion. cbv zeta.
    unfold penalizacion_pct_de. rewrite Hm. reflexivity.
  - intros v s' Hv.
    destruct (validar_inv _ _ _ _ _ _ _ Hv)
      as (s1 & s2 & s3 & s4 & s5 & s6 & s7 & _ & _ & _ & _ & _ & _ & _ & Hp & _).
    split; [|split].
    + revert Hp. unfold _calcular_penalizacion. cbv zeta.
      unfold penalizacion_pct_de.
      destruct (mayor_que_cero _); unfold bind, lift, ret.
      * destruct (entre_100 _); [|discriminate]. intros [= <-]. reflexivity.
      * intros [= <-]. reflexivity.
    + revert Hp. unfold _calcular_penalizacion. cbv zeta.
      unfold penalizacion_pct_de.
      destruct (mayor_que_cero _); unfold bind, lift, ret.
      * destruct (entre_100 _); [|discriminate]. intros [= <-]. reflexivity.
      * intros [= <-]. reflexivity.
    + intros s0. eapply calcular_penalizacion_indep; eauto.
Qed.

End PenalizacionDelVeredicto.

(** C8 at the scenario of the specification: total 1000.00 and a
    DESCUENTO_PENALIZACION rule of 5 for CLIENTE, a CLIENTE caller.  The
    penalty of the verdict applies, with percentage 5, amount 50 and total
    with penalty 1050. *)
Lemma C8_testigo :
  let bd := ejemplo.tablas [ejemplo.penalizacion_clientes] [ejemplo.reserva1] in
  let u := Some ejemplo.cliente in
  @validators.penalizacion_pct_de ejemplo.rt bd u = VInt 5 /\
  @validators._calcular_penalizacion ejemplo.rt bd u ejemplo.reserva1
    ejemplo.inicio
    = (Ok {| validators.aplica_penalizacion := true;
             validators.porcentaje := VInt 5;
             validators.monto := VFloat 50%float;
             validators.total_con_penalizacion := 1050%float |},
       ejemplo.inicio) /\
  (exists v s',
     @validators.validar_reprogramacion_completa ejemplo.rt bd u
       ejemplo.reserva1 (ejemplo.en_horas 48) ejemplo.inicio = (Ok v, s') /\
     validators.penalizacion v
       = {| validators.aplica_penalizacion := true;
            validators.porcentaje := VInt 5;
            validators.monto := VFloat 50%float;
            validators.total_con_penalizacion := 1050%float |}).
Proof.
  intros bd u. split; [reflexivity|].
  destruct (@C8_penalizacion ejemplo.rt bd u ejemplo.reserva1
              (ejemplo.en_horas 48) ejemplo.inicio) as (_ & _ & H & _ & _).
  split.
  - etransitivity;
      [exact (H (PrimFloat.div (float_de_Z 5) (float_de_Z 100))
                eq_refl eq_refl)|].
    vm_compute. reflexivity.
  - destruct (@validators.validar_reprogramacion_completa ejemplo.rt bd u
                ejemplo.reserva1 (ejemplo.en_horas 48) ejemplo.inicio)
      as [[v|e] s'] eqn:E.
    + exists v, s'. split; [reflexivity|].
      vm_compute in E. injection E as <- <-. reflexivity.
    + vm_compute in E. discriminate.
Defined.

(** C8, as stated, fails for a percentage below 0: with total 1000.00 and a
    rule of -5 the verdict has amount 0 and total with penalty 1000, where
    total * pct / 100 is -50 and total + that amount is 950. *)
Lemma C8_contraejemplo_porcentaje_negativo :
  let bd := ejemplo.tablas [ejemplo.penalizacion_negativa] [ejemplo.reserva1] in
  let u := Some ejemplo.cliente in
  exists v s',
    @validators.validar_reprogramacion_completa ejemplo.rt bd u
      ejemplo.reserva1 (ejemplo.en_horas 48) ejemplo.inicio = (Ok v, s') /\
    validators.porcentaje (validators.penalizacion v) = VInt (-5) /\
    validators.monto (validators.penalizacion v) = VInt 0 /\
    validators.total_con_penalizacion (validators.penalizacion v)
      = 1000%float /\
    PrimFloat.mul (float_de_decimal (models.total ejemplo.reserva1))
      (PrimFloat.div (float_de_Z (-5)) (float_de_Z 100))
      = PrimFloat.opp 50%float /\
    PrimFloat.add (float_de_decimal (models.total ejemplo.reserva1))
      (PrimFloat.opp 50%float) = 950%float /\
    PrimFloat.eqb 1000%float 950%float = false.
Proof.
  intros bd u.
  destruct (@validators.validar_reprogramacion_completa ejemplo.rt bd u
              ejemplo.reserva1 (ejemplo.en_horas 48) ejemplo.inicio)
    as [[v|e] s'] eqn:E.
  - exists v, s'. split; [reflexivity|].
    vm_compute in E. injection E as <- <-.
    repeat split; vm_compute; reflexivity.
  - vm_compute in E. discriminate.
Qed.

(** ** C2: lead times when no rule is configured *)

Section TiemposPorDefecto.
Import models validators serializers.
Context `{RT : Runtime}.

Lemma tiempo_minimo_sin_regla bd usuario ahora nf s :
  primera_regla bd "TIEMPO_MINIMO" (roles usuario) = None ->
  _tiempo_minimo bd usuario ahora nf s = (Ok tt, s).
Proof. intros H. unfold _tiempo_minimo. rewrite H. reflexivity. Qed.

Lemma tiempo_maximo_sin_regla bd usuario ahora nf s :
  primera_regla bd "TIEMPO_MAXIMO" (roles usuario) = None ->
  _tiempo_maximo bd usuario ahora nf s = (Ok tt, s).
Proof. intros H. unfold _tiempo_maximo. rewrite H. reflexivity. Qed.

Lemma validate_nueva_fecha_minimo_por_defecto request_user value w l :
  primera_regla (m_bd w) "TIEMPO_MINIMO"
    (roles_de_request request_user ++ ["ALL"])%list = None ->
  dt_mas {| utc := reloj (m_ticks w); offset := 0 |} (24 * us_por_hora) = Ok l ->
  utc value <= reloj (m_ticks w) + 24 * us_por_hora ->
  exists d,
    fst (validate_nueva_fecha request_user value w) = Raise (ValidationError d).
Proof.
  intros Hn Hl Hle. unfold validate_nueva_fecha.
  cbn [bind ahora_mundo leer_bd raise ret lift fst snd m_bd m_ticks].
  destruct (dt_le value _) eqn:E1.
  - cbn [bind raise fst]. eauto.
  - cbn [bind ahora_mundo leer_bd raise ret lift fst snd m_bd m_ticks].
    rewrite Hn. cbn [por_defecto es_numero].
    change (timedelta_horas (VInt 24)) with (Ok (A := Z) (24 * us_por_hora)).
    cbv beta iota delta [bind lift]. rewrite Hl.
    assert (Hd : dt_le value l = true).
    { unfold dt_le. apply Z.leb_le. rewrite (dt_mas_Ok _ _ _ Hl). exact Hle. }
    rewrite Hd. cbv beta iota delta [bind raise fst]. eauto.
Qed.

Lemma validate_nueva_fecha_maximo_por_defecto request_user value w :
  primera_regla (m_bd w) "TIEMPO_MAXIMO"
    (roles_de_request request_user ++ ["ALL"])%list = None ->
  reloj (m_ticks w) + 365 * 24 * us_por_hora < utc value ->
  exists e, fst (validate_nueva_fecha request_user value w) = Raise e.
Proof.
  intros Hn Hlt.
  destruct (validate_nueva_fecha request_user value w) as [[v|e] w'] eqn:H;
    [exfalso|simpl; eauto].
  unfold validate_nueva_fecha in H.
  apply bind_inv in H. destruct H as (ahora & w1 & Ha & H).
  unfold ahora_mundo in Ha. injection Ha as <- <-.
  apply bind_inv in H. destruct H as ([] & w2 & H2 & H).
  assert (w2 = {| m_bd := m_bd w; m_ticks := S (m_ticks w) |}) as ->.
  { destruct (dt_le value _); unfold raise, ret in H2;
      [discriminate|injection H2 as <-; reflexivity]. }
  apply bind_inv in H. destruct H as (bd & w3 & Hb & H).
  unfold leer_bd in Hb. injection Hb as <- <-.
  cbv zeta in H.
  apply bind_inv in H. destruct H as ([] & w4 & _ & H).
  apply bind_inv in H. destruct H as ([] & w5 & Hmax & _).
  simpl m_bd in Hmax. rewrite Hn in Hmax.
  cbn [por_defecto es_numero] in Hmax.
  change (timedelta_horas (VInt (365 * 24)))
    with (Ok (A := Z) (365 * 24 * us_por_hora)) in Hmax.
  cbv beta iota delta [bind lift] in Hmax.
  destruct (dt_mas _ _) as [l|] eqn:Hl; try discriminate.
  apply dt_mas_Ok in Hl. simpl in Hl.
  assert (Hd : dt_lt l value = true)
    by (unfold dt_lt; apply Z.ltb_lt; rewrite Hl; exact Hlt).
  rewrite Hd in Hmax. discriminate.
Qed.

(** C2 (as the code has it).  In the validator, when the walk over the
    caller's roles finds no TIEMPO_MINIMO rule (respectively no TIEMPO_MAXIMO
    rule), the lead-time step adds no message for it: no default is applied
    there.  The defaults belong to [validate_nueva_fecha], the field check of
    the reschedule request: with no TIEMPO_MINIMO rule for the caller a
    candidate at or before now + 24 hours raises a ValidationError, and with no
    TIEMPO_MAXIMO rule a candidate after now + 365 * 24 hours is never
    returned as valid. *)
Theorem C2_tiempos_por_defecto_solo_en_el_serializador
  (bd : BD) (usuario request_user : option Usuario) (w : Mundo)
  (nueva_fecha : datetime) :
  (primera_regla bd "TIEMPO_MINIMO" (roles usuario) = None ->
   forall ahora s,
     _tiempo_minimo bd usuario ahora nueva_fecha s = (Ok tt, s)) /\
  (primera_regla bd "TIEMPO_MAXIMO" (roles usuario) = None ->
   forall ahora s,
     _tiempo_maximo bd usuario ahora nueva_fecha s = (Ok tt, s)) /\
  (primera_regla (m_bd w) "TIEMPO_MINIMO"
     (roles_de_request request_user ++ ["ALL"])%list = None ->
   (exists l, dt_mas {| utc := reloj (m_ticks w); offset := 0 |}
                (24 * us_por_hora) = Ok l) ->
   utc nueva_fecha <= reloj (m_ticks w) + 24 * us_por_hora ->
   exists d,
     fst (validate_nueva_fecha request_user nueva_fecha w)
       = Raise (ValidationError d)) /\
  (primera_regla (m_bd w) "TIEMPO_MAXIMO"
     (roles_de_request request_user ++ ["ALL"])%list = None ->
   reloj (m_ticks w) + 365 * 24 * us_por_hora < utc nueva_fecha ->
   exists e, fst (validate_nueva_fecha request_user nueva_fecha w) = Raise e).
Proof.
  split; [|split; [|split]].
  - intros H ahora s. now apply tiempo_minimo_sin_regla.
  - intros H ahora s. now apply tiempo_maximo_sin_regla.
  - intros Hn [l Hl] Hle.
    eapply validate_nueva_fecha_minimo_por_defecto; eauto.
  - intros Hn Hlt. now apply validate_nueva_fecha_maximo_por_defecto.
Qed.

End TiemposPorDefecto.

(** C2 at sample rows with no rule at all and a CLIENTE caller: in the
    validator the lead-time steps add nothing for a candidate one hour ahead;
    the field check of the request raises a ValidationError for that
    candidate, and does not accept a candidate 400 days ahead. *)
Lemma C2_testigo :
  let bd := ejemplo.tablas [] [ejemplo.reserva1] in
  let u := Some ejemplo.cliente in
  let ahora := @validators.lectura ejemplo.rt 1 in
  @validators._tiempo_minimo ejemplo.rt bd u ahora (ejemplo.en_horas 1)
    ejemplo.inicio = (Ok tt, ejemplo.inicio) /\
  @validators._tiempo_maximo ejemplo.rt bd u ahora (ejemplo.en_horas (400 * 24))
    ejemplo.inicio = (Ok tt, ejemplo.inicio) /\
  (exists d,
     fst (@serializers.validate_nueva_fecha ejemplo.rt u (ejemplo.en_horas 1)
            (ejemplo.mundo bd)) = Raise (ValidationError d)) /\
  (exists e,
     fst (@serializers.validate_nueva_fecha ejemplo.rt u
            (ejemplo.en_horas (400 * 24)) (ejemplo.mundo bd)) = Raise e).
Proof.
  intros bd u ahora.
  destruct (@C2_tiempos_por_defecto_solo_en_el_serializador ejemplo.rt bd u u
              (ejemplo.mundo bd) (ejemplo.en_horas 1)) as (H1 & _ & H3 & _).
  destruct (@C2_tiempos_por_defecto_solo_en_el_serializador ejemplo.rt bd u u
              (ejemplo.mundo bd) (ejemplo.en_horas (400 * 24)))
    as (_ & H2 & _ & H4).
  split; [exact (H1 eq_refl ahora ejemplo.inicio)|].
  split; [exact (H2 eq_refl ahora ejemplo.inicio)|].
  split.
  - apply H3; [reflexivity|eexists; reflexivity|vm_compute; discriminate].
  - apply H4; [reflexivity|vm_compute; reflexivity].
Defined.

(** C2, as stated, fails in the validator: with no TIEMPO_MINIMO and no
    TIEMPO_MAXIMO rule, a candidate one hour after now, and a candidate 400
    days after now, both get a valid verdict with no error. *)
Lemma C2_contraejemplo_validador_sin_valores_por_defecto :
  let bd := ejemplo.tablas [] [ejemplo.reserva1] in
  let u := Some ejemplo.cliente in
  primera_regla bd "TIEMPO_MINIMO" (validators.roles u) = None /\
  primera_regla bd "TIEMPO_MAXIMO" (validators.roles u) = None /\
  utc (ejemplo.en_horas 1)
    <= @reloj ejemplo.rt 1 + 24 * us_por_hora /\
  @reloj ejemplo.rt 1 + 365 * 24 * us_por_hora
    < utc (ejemplo.en_horas (400 * 24)) /\
  (exists v s',
     @validators.validar_reprogramacion_completa ejemplo.rt bd u
       ejemplo.reserva1 (ejemplo.en_horas 1) ejemplo.inicio = (Ok v, s') /\
     validators.valida v = true /\ validators.r_errores v = []) /\
  (exists v s',
     @validators.validar_reprogramacion_completa ejemplo.rt bd u
       ejemplo.reserva1 (ejemplo.en_horas (400 * 24)) ejemplo.inicio
       = (Ok v, s') /\
     validators.valida v = true /\ validators.r_errores v = []).
Proof.
  intros bd u.
  split; [reflexivity|]. split; [reflexivity|].
  split; [vm_compute; discriminate|]. split; [vm_compute; reflexivity|].
  split.
  - destruct (@validators.validar_reprogramacion_completa ejemplo.rt bd u
                ejemplo.reserva1 (ejemplo.en_horas 1) ejemplo.inicio)
      as [[v|e] s'] eqn:E.
    + exists v, s'. split; [reflexivity|].
      vm_compute in E. injection E as <- <-. split; reflexivity.
    + vm_compute in E. discriminate.
  - destruct (@validators.validar_reprogramacion_completa ejemplo.rt bd u
                ejemplo.reserva1 (ejemplo.en_horas (400 * 24)) ejemplo.inicio)
      as [[v|e] s'] eqn:E.
    + exists v, s'. split; [reflexivity|].
      vm_compute in E. injection E as <- <-. split; reflexivity.
    + vm_compute in E. discriminate.
Qed.

(** ** C7: what a verdict depends on *)

Section Estable.
Import models validators.
Context `{RT : Runtime}.

Lemma est_ret {A} (a : A) : estable (ret a).
Proof. intros s1 s2 H. split; [reflexivity|exact H]. Qed.

Lemma est_lift {A} (r : res A) : estable (lift r).
Proof. intros s1 s2 H. split; [reflexivity|exact H]. Qed.

Lemma est_append (m : string) : estable (errores_append m).
Proof.
  intros s1 s2 (He & Hw & Hr). split; [reflexivity|].
  repeat split; simpl; [rewrite He; reflexivity|exact Hw|exact Hr].
Qed.

Lemma est_leer_errores : estable leer_errores.
Proof.
  intros s1 s2 H. split; [|exact H]. simpl. destruct H as (-> & _). reflexivity.
Qed.

Lemma est_leer_warnings : estable leer_warnings.
Proof.
  intros s1 s2 H. split; [|exact H]. simpl. destruct H as (_ & -> & _).
  reflexivity.
Qed.

Lemma est_now : estable timezone_now.
Proof.
  intros s1 s2 (He & Hw & Hr). split; simpl.
  - specialize (Hr 0%nat). rewrite !Nat.add_0_r in Hr. rewrite Hr. reflexivity.
  - repeat split; simpl; auto. intros i. specialize (Hr (S i)).
    rewrite !Nat.add_succ_r in Hr. exact Hr.
Qed.

Lemma est_bind {A B} (m : M A) (f : A -> M B) :
  estable m -> (forall a, estable (f a)) -> estable (bind m f).
Proof.
  intros Hm Hf s1 s2 H. unfold bind. destruct (Hm s1 s2 H) as [E R].
  destruct (m s1) as [[a1|e1] t1], (m s2) as [[a2|e2] t2];
    cbn [fst snd] in *; try discriminate.
  - injection E as <-. apply Hf. exact R.
  - injection E as <-. split; [reflexivity|exact R].
Qed.

Lemma est_try (h : exn -> bool) (m : M unit) :
  estable m -> estable (try_except h m).
Proof.
  intros Hm s1 s2 H. unfold try_except. destruct (Hm s1 s2 H) as [E R].
  destruct (m s1) as [[a1|e1] t1], (m s2) as [[a2|e2] t2];
    cbn [fst snd] in *; try discriminate.
  - injection E as <-. split; [reflexivity|exact R].
  - injection E as <-. destruct (h e1); cbn [fst snd]; split; auto.
Qed.

Lemma est_para_cada {A} (f : A -> M unit) (l : list A) :
  (forall a, estable (f a)) -> estable (para_cada f l).
Proof.
  intros Hf. induction l as [|x t IH]; simpl.
  - apply est_ret.
  - apply est_bind; auto.
Qed.

End Estable.

Ltac estable_paso :=
  first
    [ apply est_ret | apply est_lift | apply est_append | apply est_now
    | apply est_leer_errores | apply est_leer_warnings
    | apply est_bind; [|intro]
    | apply est_try
    | apply est_para_cada; intro
    | match goal with
      | |- validators.estable (match ?x with _ => _ end) => destruct x
      end ].

Ltac estable_tac := cbv zeta; repeat estable_paso.

Section VeredictoYReloj.
Import models validators.
Context `{RT : Runtime}.
Variable bd : BD.
Variable usuario : option Usuario.

(** The evaluation after the two lists were cleared. *)
Lemma est_evaluacion reserva nf :
  estable
    (_validar_fecha_basica nf ;;
     _validar_estado_reserva reserva ;;
     _aplicar_reglas_tiempo bd usuario nf ;;
     _aplicar_reglas_limites bd usuario reserva ;;
     _aplicar_reglas_blackout bd usuario nf ;;
     _aplicar_reglas_servicios bd usuario reserva ;;
     _aplicar_reglas_capacidad bd usuario nf reserva ;;
     penalizacion <- _calcular_penalizacion bd usuario reserva ;;
     errs <- leer_errores ;;
     warns <- leer_warnings ;;
     ahora <- timezone_now ;;
     ret {| valida := Nat.eqb (List.length errs) 0;
            r_errores := errs;
            r_warnings := warns;
            disponibilidad := _verificar_disponibilidad bd nf reserva;
            penalizacion := penalizacion;
            reglas_aplicadas := _obtener_reglas_aplicadas bd usuario;
            metadatos :=
              {| usuario_roles := roles usuario;
                 fecha_validacion := ahora;
                 numero_reglas_evaluadas :=
                   List.length (_obtener_reglas_aplicadas bd usuario) |} |}).
Proof.
  unfold _validar_fecha_basica, _validar_estado_reserva,
    _aplicar_reglas_tiempo, _tiempo_minimo, _tiempo_maximo,
    _aplicar_reglas_limites, _aplicar_reglas_blackout, _dias_blackout,
    _horas_blackout, _aplicar_reglas_servicios, _aplicar_reglas_capacidad,
    _calcular_penalizacion.
  estable_tac.
Qed.

Lemma validar_mismo_reloj reserva nf (s1 s2 : EstadoV) :
  (forall i : nat, reloj (ticks s1 + i) = reloj (ticks s2 + i)) ->
  fst (validar_reprogramacion_completa bd usuario reserva nf s1)
    = fst (validar_reprogramacion_completa bd usuario reserva nf s2).
Proof.
  intros Hr. unfold validar_reprogramacion_completa.
  unfold bind at 1. unfold bind at 13. unfold limpiar.
  apply est_evaluacion. repeat split; simpl; auto.
Qed.

(** C7 (as the code has it).  A verdict is a function of the booking, the
    candidate, the caller, the tables and the readings of the clock that the
    evaluation takes: two evaluations with the same inputs and tables, started
    from validator states whose clocks give the same readings, end in the same
    outcome (the same verdict, or the same exception), whatever the lists of
    the validator held before; and the messages of the verdict are those left
    in the validator's list.  The tables are arguments of the evaluation and
    are not returned: it writes nothing to them. *)
Theorem C7_veredicto_funcion_de_entradas_y_reloj (reserva : Reserva)
  (nueva_fecha : datetime) (s1 s2 : EstadoV) :
  (forall i : nat, reloj (ticks s1 + i) = reloj (ticks s2 + i)) ->
  fst (validar_reprogramacion_completa bd usuario reserva nueva_fecha s1)
    = fst (validar_reprogramacion_completa bd usuario reserva nueva_fecha s2) /\
  (forall v s',
     validar_reprogramacion_completa bd usuario reserva nueva_fecha s1
       = (Ok v, s') ->
     errores s' = r_errores v /\ warnings s' = r_warnings v).
Proof.
  intros Hr. split.
  - now apply validar_mismo_reloj.
  - intros v s' Hv. unfold validar_reprogramacion_completa in Hv.
    repeat (apply bind_inv in Hv; destruct Hv as (? & ? & ? & Hv)).
    cbv zeta in Hv.
    repeat (apply bind_inv in Hv; destruct Hv as (? & ? & ? & Hv)).
    unfold ret in Hv. injection Hv as <- <-.
    unfold leer_errores, leer_warnings, timezone_now in *.
    repeat match goal with
           | H : (Ok _, _) = (Ok _, _) |- _ => injection H as <- <-
           end.
    simpl. split; reflexivity.
Qed.

End VeredictoYReloj.

(** C7 at sample rows.  With a clock that shows the same time at every
    reading, a second evaluation by the same validator gives the verdict of
    the first; and, with the clock of [ejemplo.rt], a validator whose list
    holds a message from an earlier call gives, at the same readings, the
    outcome of a fresh validator. *)
Lemma C7_testigo :
  let bd := ejemplo.tablas [ejemplo.minimo_todos] [ejemplo.reserva1] in
  let u := Some ejemplo.cliente in
  let usado :=
    {| validators.ticks := 0;
       validators.errores := ["No se puede reprogramar a una fecha pasada."];
       validators.warnings := [] |} in
  (exists v s1 s2,
     @validators.validar_reprogramacion_completa ejemplo.rt_parado bd u
       ejemplo.reserva1 (ejemplo.en_horas 48) ejemplo.inicio = (Ok v, s1) /\
     @validators.validar_reprogramacion_completa ejemplo.rt_parado bd u
       ejemplo.reserva1 (ejemplo.en_horas 48) s1 = (Ok v, s2)) /\
  fst (@validators.validar_reprogramacion_completa ejemplo.rt bd u
         ejemplo.reserva1 (ejemplo.en_horas 48) ejemplo.inicio)
  = fst (@validators.validar_reprogramacion_completa ejemplo.rt bd u
           ejemplo.reserva1 (ejemplo.en_horas 48) usado).
Proof.
  intros bd u usado. split.
  - destruct (@validators.validar_reprogramacion_completa ejemplo.rt_parado
                bd u ejemplo.reserva1 (ejemplo.en_horas 48) ejemplo.inicio)
      as [[v|e] s1] eqn:E1.
    + destruct (@C7_veredicto_funcion_de_entradas_y_reloj ejemplo.rt_parado
                  bd u ejemplo.reserva1 (ejemplo.en_horas 48) ejemplo.inicio
                  s1 (fun i => eq_refl)) as [H _].
      rewrite E1 in H. cbn [fst] in H.
      destruct (@validators.validar_reprogramacion_completa
                  ejemplo.rt_parado bd u ejemplo.reserva1
                  (ejemplo.en_horas 48) s1) as [[v2|e2] s2] eqn:E2;
        cbn [fst] in H; [|discriminate].
      injection H as <-. exists v, s1, s2. split; [reflexivity|exact E2].
    + vm_compute in E1. discriminate.
  - apply (@C7_veredicto_funcion_de_entradas_y_reloj ejemplo.rt bd u
             ejemplo.reserva1 (ejemplo.en_horas 48) ejemplo.inicio usado).
    intros i. reflexivity.
Defined.

(** C7, as stated, fails: the verdict also depends on the clock.  With no
    rule at all and a candidate two microseconds after the first reading, a
    first evaluation gives a valid verdict; a second evaluation with the same
    booking, candidate, caller and tables, run by the same validator once the
    first has returned, reads a later time and gives a verdict that is not
    valid. *)
Lemma C7_contraejemplo_el_reloj_cambia_el_veredicto :
  let bd := ejemplo.tablas [] [ejemplo.reserva1] in
  let u := Some ejemplo.cliente in
  let candidata := {| utc := ejemplo.t0 + 2; offset := 0 |} in
  exists v1 s1 v2 s2,
    @validators.validar_reprogramacion_completa ejemplo.rt bd u
      ejemplo.reserva1 candidata ejemplo.inicio = (Ok v1, s1) /\
    @validators.validar_reprogramacion_completa ejemplo.rt bd u
      ejemplo.reserva1 candidata s1 = (Ok v2, s2) /\
    validators.valida v1 = true /\
    validators.valida v2 = false /\
    v1 <> v2.
Proof.
  intros bd u candidata.
  destruct (@validators.validar_reprogramacion_completa ejemplo.rt bd u
              ejemplo.reserva1 candidata ejemplo.inicio)
    as [[v1|e1] s1] eqn:E1; [|vm_compute in E1; discriminate].
  destruct (@validators.validar_reprogramacion_completa ejemplo.rt bd u
              ejemplo.reserva1 candidata s1)
    as [[v2|e2] s2] eqn:E2.
  - exists v1, s1, v2, s2. split; [reflexivity|]. split; [exact E2|].
    vm_compute in E1. injection E1 as <- <-.
    vm_compute in E2. injection E2 as <- <-.
    split; [reflexivity|]. split; [reflexivity|]. intros H.
    apply (f_equal validators.valida) in H. discriminate.
  - vm_compute in E1. injection E1 as <- <-.
    vm_compute in E2. discriminate.
Qed.

(** ** C5: suggested dates *)

Section Sugerencias.
Import models validators.
Context `{RT : Runtime}.
Variable bd : BD.
Variable usuario : option Usuario.
Variable reserva : Reserva.
Variable fecha_deseada : datetime.
Variable cantidad : Z.

Lemma insertar_por_score_In s x l :
  In x (insertar_por_score s l) <-> x = s \/ In x l.
Proof.
  induction l as [|y t IH]; simpl.
  - intuition.
  - destruct (score y <=? score s); simpl.
    + intuition.
    + rewrite IH. intuition.
Qed.

Lemma ordenar_por_score_In x l : In x (ordenar_por_score l) <-> In x l.
Proof.
  induction l as [|y t IH]; simpl.
  - tauto.
  - unfold ordenar_por_score in *. simpl.
    rewrite insertar_por_score_In, IH. intuition.
Qed.

Lemma insertar_por_score_length s l :
  List.length (insertar_por_score s l) = S (List.length l).
Proof.
  induction l as [|y t IH]; simpl; [reflexivity|].
  destruct (score y <=? score s); simpl; [reflexivity|]. now rewrite IH.
Qed.

Lemma ordenar_por_score_length l :
  List.length (ordenar_por_score l) = List.length l.
Proof.
  induction l as [|y t IH]; simpl; [reflexivity|].
  unfold ordenar_por_score in *. simpl.
  now rewrite insertar_por_score_length, IH.
Qed.

Lemma insertar_por_score_sorted s l :
  StronglySorted score_no_creciente l ->
  StronglySorted score_no_creciente (insertar_por_score s l).
Proof.
  induction 1 as [|y t Hs IH Hall]; simpl.
  - constructor; constructor.
  - destruct (score y <=? score s) eqn:E.
    + apply Z.leb_le in E. constructor.
      * constructor; assumption.
      * constructor; [exact E|].
        rewrite Forall_forall in *. intros z Hz.
        unfold score_no_creciente in *. specialize (Hall z Hz). lia.
    + apply Z.leb_gt in E. constructor; [exact IH|].
      rewrite Forall_forall in *. intros z Hz.
      apply insertar_por_score_In in Hz. destruct Hz as [->|Hz].
      * unfold score_no_creciente. lia.
      * auto.
Qed.

Lemma ordenar_por_score_sorted l :
  StronglySorted score_no_creciente (ordenar_por_score l).
Proof.
  induction l as [|y t IH]; simpl.
  - constructor.
  - apply insertar_por_score_sorted. exact IH.
Qed.

Lemma firstn_In_orig {A} (n : nat) (l : list A) x :
  In x (firstn n l) -> In x l.
Proof.
  intros H. rewrite <- (firstn_skipn n l). apply in_or_app. now left.
Qed.

Lemma firstn_sorted {A} (R : A -> A -> Prop) (n : nat) (l : list A) :
  StronglySorted R l -> StronglySorted R (firstn n l).
Proof.
  intros H. revert n. induction H as [|y t Hs IH Hall]; intros [|n]; simpl;
    try constructor.
  - apply IH.
  - rewrite Forall_forall in *. intros z Hz. apply Hall.
    eapply firstn_In_orig; eauto.
Qed.

Lemma hasta_In {A} (c : Z) (l : list A) x : In x (hasta c l) -> In x l.
Proof.
  unfold hasta. destruct (0 <=? c); apply firstn_In_orig.
Qed.

Lemma hasta_sorted {A} (R : A -> A -> Prop) (c : Z) (l : list A) :
  StronglySorted R l -> StronglySorted R (hasta c l).
Proof.
  unfold hasta. destruct (0 <=? c); apply firstn_sorted.
Qed.

Lemma hasta_length {A} (c : Z) (l : list A) :
  Z.of_nat (List.length l) <= Z.max 1 c ->
  (List.length (hasta c l) <= Z.to_nat c)%nat.
Proof.
  intros H. unfold hasta. destruct (0 <=? c) eqn:E.
  - apply firstn_le_length.
  - apply Z.leb_gt in E.
    replace (List.length l - Z.to_nat (- c))%nat with 0%nat by lia.
    simpl. lia.
Qed.

(** The readings of the clock only go forward. *)
Lemma nr_ret {A} (a : A) : no_retrocede (ret a).
Proof. intros s. apply Nat.le_refl. Qed.

Lemma nr_lift {A} (r : res A) : no_retrocede (lift r).
Proof. intros s. apply Nat.le_refl. Qed.

Lemma nr_append (m : string) : no_retrocede (errores_append m).
Proof. intros s. apply Nat.le_refl. Qed.

Lemma nr_limpiar : no_retrocede limpiar.
Proof. intros s. apply Nat.le_refl. Qed.

Lemma nr_leer_errores : no_retrocede leer_errores.
Proof. intros s. apply Nat.le_refl. Qed.

Lemma nr_leer_warnings : no_retrocede leer_warnings.
Proof. intros s. apply Nat.le_refl. Qed.

Lemma nr_now : no_retrocede timezone_now.
Proof. intros s. simpl. apply Nat.le_succ_diag_r. Qed.

Lemma nr_bind {A B} (m : M A) (f : A -> M B) :
  no_retrocede m -> (forall a, no_retrocede (f a)) -> no_retrocede (bind m f).
Proof.
  intros Hm Hf s. unfold bind. specialize (Hm s).
  destruct (m s) as [[a|e] s1]; simpl in *; [|exact Hm].
  eapply Nat.le_trans; [exact Hm|apply Hf].
Qed.

Lemma nr_try (h : exn -> bool) (m : M unit) :
  no_retrocede m -> no_retrocede (try_except h m).
Proof.
  intros Hm s. unfold try_except. specialize (Hm s).
  destruct (m s) as [[a|e] s1]; simpl in *; [exact Hm|].
  destruct (h e); exact Hm.
Qed.

Lemma nr_para_cada {A} (f : A -> M unit) (l : list A) :
  (forall a, no_retrocede (f a)) -> no_retrocede (para_cada f l).
Proof.
  intros Hf. induction l as [|x t IH]; simpl.
  - apply nr_ret.
  - apply nr_bind; auto.
Qed.

Lemma nr_validar nf :
  no_retrocede (validar_reprogramacion_completa bd usuario reserva nf).
Proof.
  unfold validar_reprogramacion_completa, _validar_fecha_basica,
    _validar_estado_reserva, _aplicar_reglas_tiempo, _tiempo_minimo,
    _tiempo_maximo, _aplicar_reglas_limites, _aplicar_reglas_blackout,
    _dias_blackout, _horas_blackout, _aplicar_reglas_servicios,
    _aplicar_reglas_capacidad, _calcular_penalizacion.
  cbv zeta.
  repeat first
    [ apply nr_ret | apply nr_lift | apply nr_append | apply nr_now
    | apply nr_limpiar | apply nr_leer_errores | apply nr_leer_warnings
    | apply nr_bind; [|intro]
    | apply nr_try
    | apply nr_para_cada; intro
    | match goal with
      | |- no_retrocede (match ?x with _ => _ end) => destruct x
      end ].
Qed.

(** An evaluation that returns has read the clock. *)
Lemma validar_avanza nf s v s' :
  validar_reprogramacion_completa bd usuario reserva nf s = (Ok v, s') ->
  (ticks s < ticks s')%nat.
Proof.
  intros H. unfold validar_reprogramacion_completa in H.
  apply bind_inv in H. destruct H as ([] & s0 & H0 & H).
  injection H0 as <-.
  apply bind_inv in H. destruct H as ([] & s1 & H1 & H).
  apply fecha_basica_ticks in H1. cbn [ticks] in H1.
  match type of H with
  | ?m s1 = _ =>
      assert (Hnr : no_retrocede m)
  end.
  { unfold _validar_estado_reserva, _aplicar_reglas_tiempo, _tiempo_minimo,
      _tiempo_maximo, _aplicar_reglas_limites, _aplicar_reglas_blackout,
      _dias_blackout, _horas_blackout, _aplicar_reglas_servicios,
      _aplicar_reglas_capacidad, _calcular_penalizacion.
    cbv zeta.
    repeat first
      [ apply nr_ret | apply nr_lift | apply nr_append | apply nr_now
      | apply nr_limpiar | apply nr_leer_errores | apply nr_leer_warnings
      | apply nr_bind; [|intro]
      | apply nr_try
      | apply nr_para_cada; intro
      | match goal with
        | |- no_retrocede (match ?x with _ => _ end) => destruct x
        end ]. }
  specialize (Hnr s1). rewrite H in Hnr. simpl in Hnr. lia.
Qed.

Lemma sugerencia_correcta_mono desde desde' hasta hasta' e :
  (desde' <= desde)%nat -> (hasta <= hasta')%nat ->
  sugerencia_correcta bd usuario reserva fecha_deseada desde hasta e ->
  sugerencia_correcta bd usuario reserva fecha_deseada desde' hasta' e.
Proof.
  intros Hd Hh (k & v & Hk & H). exists k, v. split; [lia|exact H].
Qed.

(** The inner loop keeps the suggestions correct and, entered with no
    suggestion or with fewer than [cantidad], leaves at most
    [max 1 cantidad]. *)
Lemma probar_horas_spec desde fc horas :
  forall sug s l s',
    Forall (sugerencia_correcta bd usuario reserva fecha_deseada desde
              (ticks s)) sug ->
    (sug = [] \/ Z.of_nat (List.length sug) < cantidad) ->
    (desde <= ticks s)%nat ->
    probar_horas bd usuario reserva fecha_deseada cantidad fc horas sug s
      = (Ok l, s') ->
    Forall (sugerencia_correcta bd usuario reserva fecha_deseada desde
              (ticks s')) l /\
    Z.of_nat (List.length l) <= Z.max 1 cantidad /\
    (ticks s <= ticks s')%nat.
Proof.
  induction horas as [|h resto IH]; intros sug s l s' Hc Hp Hds H;
    cbn [probar_horas] in H.
  - unfold ret in H. injection H as <- <-. split; [exact Hc|].
    split; [|apply Nat.le_refl].
    destruct Hp as [->|Hp]; simpl; lia.
  - apply bind_inv in H. destruct H as (td & s1 & H1 & H).
    unfold lift in H1. injection H1 as _ <-.
    apply bind_inv in H. destruct H as (fch & s2 & H2 & H).
    unfold lift in H2. injection H2 as _ <-.
    apply bind_inv in H. destruct H as (resultado & s3 & Hv & H).
    pose proof (validar_avanza _ _ _ _ Hv) as Hav.
    assert (Hc3 : Forall (sugerencia_correcta bd usuario reserva fecha_deseada
                            desde (ticks s3)) sug).
    { eapply Forall_impl; [|exact Hc]. intros e He.
      eapply sugerencia_correcta_mono; [| |exact He]; lia. }
    destruct (valida resultado) eqn:Eval.
    + cbv zeta in H.
      match type of H with
      | context [(sug ++ [?e])%list] => set (nueva := e) in *
      end.
      assert (Hc' : Forall (sugerencia_correcta bd usuario reserva fecha_deseada
                              desde (ticks s3))
                      (sug ++ [nueva])%list).
      { apply Forall_app. split; [exact Hc3|]. constructor; [|constructor].
        exists (ticks s), resultado. split; [lia|].
        split; [|repeat split; auto].
        intros s2 Hr. simpl s_fecha.
        rewrite (validar_mismo_reloj bd usuario reserva fch s2 s Hr).
        rewrite Hv. reflexivity. }
      assert (Hlen : List.length (sug ++ [nueva])%list
                     = S (List.length sug))
        by (rewrite length_app; simpl; lia).
      destruct (cantidad <=? _) eqn:Ec.
      * unfold ret in H. injection H as <- <-. split; [exact Hc'|].
        split; [|lia].
        rewrite Hlen. destruct Hp as [->|Hp]; simpl; lia.
      * apply Z.leb_gt in Ec.
        destruct (IH _ _ _ _ Hc' (or_intror Ec) ltac:(lia) H)
          as (Ha & Hb & Hd).
        split; [exact Ha|]. split; [exact Hb|lia].
    + destruct (IH _ _ _ _ Hc3 Hp ltac:(lia) H) as (Ha & Hb & Hd).
      split; [exact Ha|]. split; [exact Hb|lia].
Qed.

Lemma probar_dias_spec desde dias :
  forall sug s l s',
    Forall (sugerencia_correcta bd usuario reserva fecha_deseada desde
              (ticks s)) sug ->
    (sug = [] \/ Z.of_nat (List.length sug) < cantidad) ->
    (desde <= ticks s)%nat ->
    probar_dias bd usuario reserva fecha_deseada cantidad dias sug s
      = (Ok l, s') ->
    Forall (sugerencia_correcta bd usuario reserva fecha_deseada desde
              (ticks s')) l /\
    Z.of_nat (List.length l) <= Z.max 1 cantidad /\
    (ticks s <= ticks s')%nat.
Proof.
  induction dias as [|d resto IH]; intros sug s l s' Hc Hp Hds H;
    cbn [probar_dias] in H.
  - unfold ret in H. injection H as <- <-. split; [exact Hc|].
    split; [|apply Nat.le_refl].
    destruct Hp as [->|Hp]; simpl; lia.
  - destruct (d =? 0); [eapply IH; eauto|].
    apply bind_inv in H. destruct H as (td & s1 & H1 & H).
    unfold lift in H1. injection H1 as _ <-.
    apply bind_inv in H. destruct H as (fc & s2 & H2 & H).
    unfold lift in H2. injection H2 as _ <-.
    apply bind_inv in H. destruct H as (sug' & s3 & Hh & H).
    destruct (probar_horas_spec _ _ _ _ _ _ _ Hc Hp Hds Hh)
      as (Hc' & Hl' & Ht').
    destruct (cantidad <=? _) eqn:Ec.
    + unfold ret in H. injection H as <- <-. repeat split; assumption.
    + apply Z.leb_gt in Ec.
      destruct (IH _ _ _ _ Hc' (or_intror Ec) ltac:(lia) H)
        as (Ha & Hb & Hd).
      split; [exact Ha|]. split; [exact Hb|lia].
Qed.

Lemma calcular_score_formula e v :
  s_disponible e = disponible (disponibilidad v) ->
  s_penalizacion e = penalizacion v ->
  score e = _calcular_score fecha_deseada (s_fecha e) v ->
  score e = formula_score fecha_deseada e.
Proof.
  intros Hd Hp Hs. rewrite Hs. unfold _calcular_score, formula_score.
  rewrite Hd, Hp. reflexivity.
Qed.

(** C5 (as the code has it).  When [sugerir_fechas_alternativas] returns a
    list: it has at most [cantidad] entries; every entry was found valid
    during the call, that is, the evaluation of the entry's date that started
    at a reading of the clock taken during the call, with the same booking,
    caller and tables, gave a valid verdict whose availability, penalty and
    score the entry carries, and the evaluation gives that verdict again from
    any state of a validator whose clock shows the same readings; the entries
    are in non-increasing order of score; and the score of every entry is
    max(0, 10 - |days between the candidate and the desired date|)
    + (5 if available, else 0) + (-2 if the penalty applies, else 2). *)
Theorem C5_sugerencias_validas_ordenadas_y_acotadas (s : EstadoV)
  (l : list Sugerencia) (s' : EstadoV) :
  sugerir_fechas_alternativas bd usuario reserva fecha_deseada cantidad s
    = (Ok l, s') ->
  (List.length l <= Z.to_nat cantidad)%nat /\
  Forall (sugerencia_correcta bd usuario reserva fecha_deseada
            (ticks s) (ticks s')) l /\
  StronglySorted score_no_creciente l /\
  Forall (fun e => score e = formula_score fecha_deseada e) l.
Proof.
  unfold sugerir_fechas_alternativas. intros H.
  apply bind_inv in H. destruct H as ([] & s0 & H0 & H).
  unfold limpiar in H0. injection H0 as <-.
  apply bind_inv in H. destruct H as (sug & s1 & Hd & H).
  unfold ret in H. injection H as <- <-.
  destruct (probar_dias_spec (ticks s) _ _ (limpio s) _ _ (Forall_nil _)
              (or_introl eq_refl) (Nat.le_refl _) Hd)
    as (Hc & Hl & _).
  assert (Hc' : Forall (sugerencia_correcta bd usuario reserva fecha_deseada
                          (ticks s) (ticks s1))
                  (hasta cantidad (ordenar_por_score sug))).
  { rewrite Forall_forall in *. intros x Hx. apply Hc.
    apply ordenar_por_score_In. eapply hasta_In; eauto. }
  split; [|split; [|split]].
  - apply hasta_length. rewrite ordenar_por_score_length. exact Hl.
  - exact Hc'.
  - apply hasta_sorted, ordenar_por_score_sorted.
  - rewrite Forall_forall in *. intros x Hx.
    destruct (Hc' x Hx) as (k & v & _ & _ & _ & Hdis & _ & Hpen & Hs).
    eapply calcular_score_formula; eauto.
Qed.

End Sugerencias.

(** C5, as stated, fails: an entry is valid at the time of its probe, and
    an independent evaluation comes later.  With TIEMPO_MINIMO = 24 for ALL
    and a clock that advances by a microsecond per reading, one suggestion
    asked for a desired date that lies seven days, 24 hours and two
    microseconds after [t0]: the first probe, seven days earlier, is two
    microseconds beyond the 24 hours counted from the first reading and is
    returned; evaluated again by the same validator with the same tables,
    right after the call, it is within 24 hours of the reading then taken and
    the verdict is not valid. *)
Lemma C5_contraejemplo_sugerencia_que_deja_de_ser_valida :
  let bd := ejemplo.tablas [ejemplo.minimo_todos] [ejemplo.reserva1] in
  let u := Some ejemplo.cliente in
  let deseada :=
    {| utc := ejemplo.t0 + (7 * 24 + 24) * us_por_hora + 2; offset := 0 |} in
  exists e s',
    @validators.sugerir_fechas_alternativas ejemplo.rt bd u ejemplo.reserva1
      deseada 1 ejemplo.inicio = (Ok [e], s') /\
    validators.s_fecha e
      = {| utc := ejemplo.t0 + 24 * us_por_hora + 2; offset := 0 |} /\
    exists v s2,
      @validators.validar_reprogramacion_completa ejemplo.rt bd u
        ejemplo.reserva1 (validators.s_fecha e) s' = (Ok v, s2) /\
      validators.valida v = false /\
      validators.r_errores v
        = ["Debe reprogramar con al menos 24 horas de anticipación."].
Proof.
  intros bd u deseada.
  destruct (@validators.sugerir_fechas_alternativas ejemplo.rt bd u
              ejemplo.reserva1 deseada 1 ejemplo.inicio)
    as [[l|e] s'] eqn:E; [|vm_compute in E; discriminate].
  vm_compute in E. injection E as <- <-.
  eexists _, _. split; [reflexivity|]. split; [reflexivity|].
  match goal with
  | |- exists v s2, ?m = _ /\ _ =>
      destruct m as [[v|e] s2] eqn:E2; [|vm_compute in E2; discriminate]
  end.
  exists v, s2. split; [reflexivity|].
  vm_compute in E2. injection E2 as <- <-. split; reflexivity.
Qed.

(** C5 at sample rows: TIEMPO_MINIMO = 24 for ALL, a CLIENTE caller, the
    desired date seven and a half days after [t0] and four suggestions asked.
    The five probes of the first day are within 24 hours and are not valid;
    the next day gives four valid probes, found with scores 11, 11, 10, 11 and
    returned in the order 11, 11, 11, 10. *)
Lemma C5_testigo :
  let bd := ejemplo.tablas [ejemplo.minimo_todos] [ejemplo.reserva1] in
  let u := Some ejemplo.cliente in
  let deseada := ejemplo.en_horas (7 * 24 + 12) in
  exists l s',
    @validators.sugerir_fechas_alternativas ejemplo.rt bd u ejemplo.reserva1
      deseada 4 ejemplo.inicio = (Ok l, s') /\
    map validators.score l = [11; 11; 11; 10] /\
    (List.length l <= Z.to_nat 4)%nat /\
    Forall (@validators.sugerencia_correcta ejemplo.rt bd u ejemplo.reserva1
              deseada 0 (validators.ticks s')) l /\
    StronglySorted validators.score_no_creciente l /\
    Forall (fun e => validators.score e = validators.formula_score deseada e) l.
Proof.
  intros bd u deseada.
  destruct (@validators.sugerir_fechas_alternativas ejemplo.rt bd u
              ejemplo.reserva1 deseada 4 ejemplo.inicio)
    as [[l|e] s'] eqn:E.
  - exists l, s'. split; [reflexivity|].
    split.
    + vm_compute in E. injection E as <- <-. reflexivity.
    + exact (@C5_sugerencias_validas_ordenadas_y_acotadas ejemplo.rt bd u
               ejemplo.reserva1 deseada 4 ejemplo.inicio l s' E).
  - vm_compute in E. discriminate.
Defined.

(** ** The request: what leaves the tables as they are *)

Section ConservaBD.
Context `{RT : Runtime}.

Lemma cb_ret {A} (a : A) : conserva_bd (ret a).
Proof. intros w. reflexivity. Qed.

Lemma cb_lift {A} (r : res A) : conserva_bd (lift r).
Proof. intros w. reflexivity. Qed.

Lemma cb_raise {A} (e : exn) : conserva_bd (@raise Mundo A e).
Proof. intros w. reflexivity. Qed.

Lemma cb_leer_bd : conserva_bd leer_bd.
Proof. intros w. reflexivity. Qed.

Lemma cb_ahora : conserva_bd ahora_mundo.
Proof. intros w. reflexivity. Qed.

Lemma cb_bind {A B} (m : ST Mundo A) (f : A -> ST Mundo B) :
  conserva_bd m -> (forall a, conserva_bd (f a)) -> conserva_bd (bind m f).
Proof.
  intros Hm Hf w. unfold bind. specialize (Hm w).
  destruct (m w) as [[a|e] w1]; simpl in *.
  - rewrite Hf. exact Hm.
  - exact Hm.
Qed.

Lemma cb_try (h : exn -> bool) (m : ST Mundo unit) :
  conserva_bd m -> conserva_bd (try_except h m).
Proof.
  intros Hm w. unfold try_except. specialize (Hm w).
  destruct (m w) as [[a|e] w1]; simpl in *; [exact Hm|].
  destruct (h e); exact Hm.
Qed.

Lemma cb_para_cada {A} (f : A -> ST Mundo unit) (l : list A) :
  (forall a, conserva_bd (f a)) -> conserva_bd (para_cada f l).
Proof.
  intros Hf. induction l as [|x t IH]; simpl.
  - apply cb_ret.
  - apply cb_bind; auto.
Qed.

Lemma cb_capturar {A} (m : ST Mundo A) :
  conserva_bd m -> conserva_bd (capturar m).
Proof.
  intros Hm w. unfold capturar. specialize (Hm w).
  destruct (m w) as [[a|e] w1]; simpl in *; [exact Hm|].
  destruct e; exact Hm.
Qed.

End ConservaBD.

Ltac conserva_paso :=
  first
    [ apply cb_ret | apply cb_lift | apply cb_raise | apply cb_leer_bd
    | apply cb_ahora
    | apply cb_bind; [|intro]
    | apply cb_try
    | apply cb_para_cada; intro
    | match goal with
      | |- conserva_bd (match ?x with _ => _ end) => destruct x
      end ].

Ltac conserva_tac := cbv zeta; repeat conserva_paso.

(** ** C10: a candidate on the booking's current date *)

Section MismaFecha.
Import models serializers.
Context `{RT : Runtime}.
Variable request_user : option Usuario.

Lemma cb_validate_nueva_fecha value :
  conserva_bd (validate_nueva_fecha request_user value).
Proof. unfold validate_nueva_fecha. conserva_tac. Qed.

Lemma cb_validate ctx attrs : conserva_bd (validate request_user ctx attrs).
Proof. unfold validate. conserva_tac. Qed.

Lemma validate_nueva_fecha_Ok value w v w' :
  validate_nueva_fecha request_user value w = (Ok v, w') -> v = value.
Proof.
  unfold validate_nueva_fecha. intros H.
  repeat (apply bind_inv in H; destruct H as (? & ? & _ & H); cbv zeta in H).
  unfold ret in H. injection H as <- _. reflexivity.
Qed.



End MismaFecha.

(** ** The two endpoints *)

Lemma find_guardar (r' : models.Reserva) (l : list models.Reserva) :
  (exists x, In x l /\ models.id x = models.id r') ->
  find (fun x => models.id x =? models.id r')
       (map (fun x => if models.id x =? models.id r'
                      then views.fila_guardada r' else x) l)
  = Some (views.fila_guardada r').
Proof.
  induction l as [|y t IH]; intros (x & Hin & Hid); simpl in *; [tauto|].
  destruct (models.id y =? models.id r') eqn:E.
  - cbn [views.fila_guardada models.id]. rewrite Z.eqb_refl. reflexivity.
  - rewrite E. apply IH. destruct Hin as [->|Hin]; [|eauto].
    apply Z.eqb_neq in E. congruence.
Qed.

Lemma In_guardar (r' : models.Reserva) (l : list models.Reserva) x :
  In x (map (fun y => if models.id y =? models.id r'
                      then views.fila_guardada r' else y) l) ->
  models.id x = models.id r' -> x = views.fila_guardada r'.
Proof.
  intros H Hid. apply in_map_iff in H. destruct H as (y & Hy & _).
  destruct (models.id y =? models.id r') eqn:E; [congruence|].
  apply Z.eqb_neq in E. congruence.
Qed.

(** A value that is in UTC is read back as it was written. *)
Lemma en_utc_de_utc (d : datetime) : offset d = 0 -> en_utc d = d.
Proof. destruct d as [u o]. simpl. intros ->. reflexivity. Qed.


Section Endpoints.
Import models serializers views.
Context `{RT : Runtime}.
Variable _is_fecha_disponible : BD -> datetime -> Reserva -> res bool.
Variable _verificar_disponibilidad_completa : BD -> datetime -> Reserva -> bool.
Variable _verificar_cambio_precio : BD -> datetime -> Reserva -> CambioPrecio.
Variable notificar_cliente : Reserva -> datetime -> string -> bool.
Variable notificar_administrador :
  Reserva -> datetime -> option Usuario -> string -> bool.
Variable request_user : option Usuario.

Lemma get_queryset_incl bd r :
  In r (get_queryset request_user bd) -> In r (reservas bd).
Proof.
  unfold get_queryset. cbv zeta. destruct (_ || _)%bool; [auto|].
  destruct (en_lista _ _); [|simpl; tauto].
  intros H. apply filter_In in H. tauto.
Qed.

Lemma cb_is_valid ctx data : conserva_bd (is_valid request_user ctx data).
Proof.
  unfold is_valid. apply cb_bind.
  - apply cb_capturar, cb_validate_nueva_fecha.
  - intros [v|e]; cbv zeta.
    + destruct (match d_motivo data with Some _ => _ | None => _ end);
        [apply cb_validate|apply cb_raise].
    + apply cb_raise.
Qed.

Lemma validate_Ok ctx attrs w v w' :
  validate request_user ctx attrs w = (Ok v, w') -> v = attrs.
Proof.
  unfold validate. destruct ctx as [reserva|].
  - intros H.
    repeat (apply bind_inv in H; destruct H as (? & ? & _ & H); cbv zeta in H).
    unfold ret in H. injection H as <- _. reflexivity.
  - unfold ret. intros [= <- _]. reflexivity.
Qed.

Lemma is_valid_Ok ctx data w v w' :
  is_valid request_user ctx data w = (Ok v, w') ->
  nueva_fecha v = nueva_fecha data /\ m_bd w' = m_bd w.
Proof.
  intros H. split.
  - unfold is_valid in H. apply bind_inv in H.
    destruct H as (r & w1 & Hc & H). cbv zeta in H.
    unfold capturar in Hc.
    destruct (validate_nueva_fecha request_user (nueva_fecha data) w)
      as [[x|e] w2] eqn:E.
    + injection Hc as <- <-. apply validate_nueva_fecha_Ok in E. subst x.
      destruct (match d_motivo data with Some _ => _ | None => _ end);
        [|discriminate].
      apply validate_Ok in H. subst v. reflexivity.
    + destruct e; try discriminate. injection Hc as <- <-. discriminate.
  - pose proof (cb_is_valid ctx data w) as Hb. rewrite H in Hb. exact Hb.
Qed.

(** What a successful [reprogramar] did. *)
Lemma reprogramar_exito pk data w r' c so w' :
  reprogramar _is_fecha_disponible notificar_cliente notificar_administrador
    request_user pk data w = (Ok (Reprogramada r' c so), w') ->
  exists reserva,
    In reserva (reservas (m_bd w)) /\ id reserva = pk /\ id r' = pk /\
    fecha_original r' =
      match fecha_original reserva with
      | None => Some (fecha_inicio reserva)
      | Some f => Some f
      end /\
    fecha_inicio r' = nueva_fecha data /\
    numero_reprogramaciones r' = numero_reprogramaciones reserva + 1 /\
    estado r' = REPROGRAMADA /\
    reservas (m_bd w') =
      map (fun x => if id x =? id r' then fila_guardada r' else x)
          (reservas (m_bd w)).
Proof.
  unfold reprogramar. cbv zeta. intros H.
  apply bind_inv in H. destruct H as ([] & w0 & H0 & H).
  assert (w0 = w) as ->.
  { destruct (negb _); unfold raise, ret in H0;
      [discriminate|injection H0 as <-; reflexivity]. }
  apply bind_inv in H. destruct H as (bd & w1 & Hb & H).
  unfold leer_bd in Hb. injection Hb as <- <-.
  destruct (find _ _) as [reserva|] eqn:Ef; [|discriminate].
  apply find_some in Ef. destruct Ef as [Hin Hid].
  apply get_queryset_incl in Hin. apply Z.eqb_eq in Hid.
  apply bind_inv in H. destruct H as ([] & w2 & H2 & H).
  assert (w2 = w) as ->.
  { destruct (_ && _)%bool; unfold raise, ret in H2;
      [discriminate|injection H2 as <-; reflexivity]. }
  apply bind_inv in H. destruct H as (validated & w3 & Hv & H).
  apply is_valid_Ok in Hv. destruct Hv as [Hnf Hbd].
  apply bind_inv in H. destruct H as (bd2 & w4 & Hb & H).
  unfold leer_bd in Hb. injection Hb as <- <-.
  apply bind_inv in H. destruct H as (libre & w5 & Hl & H).
  unfold lift in Hl. injection Hl as _ <-.
  destruct (negb libre); [discriminate|].
  apply bind_inv in H. destruct H as (ahora & w6 & Ha & H).
  unfold ahora_mundo in Ha. injection Ha as <- <-.
  apply bind_inv in H. destruct H as (creado & w7 & Ha & H).
  unfold ahora_mundo in Ha. injection Ha as <- <-.
  apply bind_inv in H. destruct H as ([] & w8 & He & H).
  unfold escribir_bd in He. injection He as <-.
  unfold ret in H. injection H as <- _ _ <-.
  exists reserva. simpl. rewrite Hbd. repeat split; auto.
Qed.

(** What a successful [post] did. *)
Lemma post_exito pk data w r' c so w' :
  post _verificar_disponibilidad_completa _verificar_cambio_precio
    notificar_cliente notificar_administrador request_user pk data w
    = (Ok (Reprogramada r' c so), w') ->
  exists reserva,
    In reserva (reservas (m_bd w)) /\ id reserva = pk /\ id r' = pk /\
    fecha_original r' =
      match fecha_original reserva with
      | None => Some (fecha_inicio reserva)
      | Some f => Some f
      end /\
    fecha_inicio r' = nueva_fecha data /\
    numero_reprogramaciones r' = numero_reprogramaciones reserva + 1 /\
    estado r' = REPROGRAMADA /\
    reservas (m_bd w') =
      map (fun x => if id x =? id r' then fila_guardada r' else x)
          (reservas (m_bd w)).
Proof.
  unfold post. cbv zeta. intros H.
  apply bind_inv in H. destruct H as (bd & w1 & Hb & H).
  unfold leer_bd in Hb. injection Hb as <- <-.
  destruct (find _ _) as [reserva|] eqn:Ef; [|discriminate].
  apply find_some in Ef. destruct Ef as [Hin Hid]. apply Z.eqb_eq in Hid.
  apply bind_inv in H. destruct H as ([] & w0 & H0 & H).
  assert (w0 = w) as ->.
  { destruct (negb _); unfold raise, ret in H0;
      [discriminate|injection H0 as <-; reflexivity]. }
  apply bind_inv in H. destruct H as ([] & w2 & H2 & H).
  assert (w2 = w) as ->.
  { destruct (_ && _)%bool; unfold raise, ret in H2;
      [discriminate|injection H2 as <-; reflexivity]. }
  apply bind_inv in H. destruct H as (validated & w3 & Hv & H).
  apply is_valid_Ok in Hv. destruct Hv as [Hnf Hbd].
  apply bind_inv in H. destruct H as (bd2 & w4 & Hb & H).
  unfold leer_bd in Hb. injection Hb as <- <-.
  destruct (negb _); [discriminate|].
  apply bind_inv in H. destruct H as (ahora & w6 & Ha & H).
  unfold ahora_mundo in Ha. injection Ha as <- <-.
  apply bind_inv in H. destruct H as (creado & w7 & Ha & H).
  unfold ahora_mundo in Ha. injection Ha as <- <-.
  apply bind_inv in H. destruct H as ([] & w8 & He & H).
  unfold escribir_bd in He. injection He as <-.
  unfold ret in H. injection H as <- _ _ <-.
  exists reserva. simpl. rewrite Hbd. repeat split; auto.
Qed.



End Endpoints.

(** ** C10 and C6 *)

Section Reprogramacion.
Import models serializers views.
Context `{RT : Runtime}.
Variable _is_fecha_disponible : BD -> datetime -> Reserva -> res bool.
Variable _verificar_disponibilidad_completa : BD -> datetime -> Reserva -> bool.
Variable _verificar_cambio_precio : BD -> datetime -> Reserva -> CambioPrecio.
Variable notificar_cliente : Reserva -> datetime -> string -> bool.
Variable notificar_administrador :
  Reserva -> datetime -> option Usuario -> string -> bool.


(** C6.  A successful reschedule, through either endpoint, of a booking whose
    [fecha_original] is unset sets it to the start that the booking had
    before the change; of a booking whose [fecha_original] is set, leaves it
    as it was; the row of the changed booking is stored under its id.  Hence
    a later successful reschedule of that stored booking, through either
    endpoint and by any caller, keeps the [fecha_original] written by the
    first: the instant that the first wrote, as the database returns it,
    which is the very value of the first when that one was in UTC, as every
    value read from the database is. *)
Theorem C6_fecha_original_se_escribe_una_vez
  (usuario1 usuario2 : option Usuario) (pk : Z) (data1 data2 : Datos)
  (w w1 w1' w2 : Mundo) (r1 r2 : Reserva) (c1 so1 c2 so2 : bool) :
  (reprogramar _is_fecha_disponible notificar_cliente notificar_administrador
     usuario1 pk data1 w = (Ok (Reprogramada r1 c1 so1), w1) \/
   post _verificar_disponibilidad_completa _verificar_cambio_precio
     notificar_cliente notificar_administrador usuario1 pk data1 w
     = (Ok (Reprogramada r1 c1 so1), w1)) ->
  (exists reserva,
     In reserva (reservas (m_bd w)) /\ id reserva = pk /\
     (fecha_original reserva = None ->
      fecha_original r1 = Some (fecha_inicio reserva)) /\
     (forall f, fecha_original reserva = Some f ->
                fecha_original r1 = Some f) /\
     fecha_inicio r1 = nueva_fecha data1 /\
     find (fun x => id x =? pk) (reservas (m_bd w1))
       = Some (fila_guardada r1)) /\
  (m_bd w1' = m_bd w1 ->
   (reprogramar _is_fecha_disponible notificar_cliente notificar_administrador
      usuario2 pk data2 w1' = (Ok (Reprogramada r2 c2 so2), w2) \/
    post _verificar_disponibilidad_completa _verificar_cambio_precio
      notificar_cliente notificar_administrador usuario2 pk data2 w1'
      = (Ok (Reprogramada r2 c2 so2), w2)) ->
   fecha_original r2 = option_map en_utc (fecha_original r1) /\
   fecha_original r2 <> None /\
   ((forall f, fecha_original r1 = Some f -> offset f = 0) ->
    fecha_original r2 = fecha_original r1)).
Proof.
  intros H1.
  assert (E1 : exists reserva,
             In reserva (reservas (m_bd w)) /\ id reserva = pk /\ id r1 = pk /\
             fecha_original r1 =
               match fecha_original reserva with
               | None => Some (fecha_inicio reserva)
               | Some f => Some f
               end /\
             fecha_inicio r1 = nueva_fecha data1 /\
             numero_reprogramaciones r1 = numero_reprogramaciones reserva + 1 /\
             estado r1 = REPROGRAMADA /\
             reservas (m_bd w1) =
               map (fun x => if id x =? id r1 then fila_guardada r1 else x)
                   (reservas (m_bd w))).
  { destruct H1 as [H1|H1];
      [eapply reprogramar_exito|eapply post_exito]; eauto. }
  destruct E1 as (reserva & Hin & Hid & Hid1 & Hfo & Hfi & _ & _ & Hres).
  split.
  - exists reserva.
    split; [exact Hin|]. split; [exact Hid|]. split; [|split; [|split]].
    + intros Hn. rewrite Hfo, Hn. reflexivity.
    + intros f Hf. rewrite Hfo, Hf. reflexivity.
    + exact Hfi.
    + rewrite Hres, <- Hid1. apply find_guardar. exists reserva.
      split; [exact Hin|congruence].
  - intros Hbd H2.
    assert (E2 : exists reserva2,
               In reserva2 (reservas (m_bd w1')) /\ id reserva2 = pk /\
               id r2 = pk /\
               fecha_original r2 =
                 match fecha_original reserva2 with
                 | None => Some (fecha_inicio reserva2)
                 | Some f => Some f
                 end /\
               fecha_inicio r2 = nueva_fecha data2 /\
               numero_reprogramaciones r2
                 = numero_reprogramaciones reserva2 + 1 /\
               estado r2 = REPROGRAMADA /\
               reservas (m_bd w2) =
                 map (fun x => if id x =? id r2 then fila_guardada r2 else x)
                     (reservas (m_bd w1'))).
    { destruct H2 as [H2|H2];
        [eapply reprogramar_exito|eapply post_exito]; eauto. }
    destruct E2 as (reserva2 & Hin2 & Hid2 & _ & Hfo2 & _).
    rewrite Hbd, Hres in Hin2.
    apply In_guardar in Hin2; [|congruence]. subst reserva2.
    assert (Hs : exists f, fecha_original r1 = Some f)
      by (rewrite Hfo; destruct (fecha_original reserva); eauto).
    destruct Hs as [f Hf]. rewrite Hfo2.
    cbn [fila_guardada fecha_original]. rewrite Hf. cbn [option_map].
    split; [reflexivity|]. split; [discriminate|].
    intros Hutc. rewrite (en_utc_de_utc f (Hutc f eq_refl)). reflexivity.
Qed.

End Reprogramacion.



(** C6 at sample rows: the owner moves the booking, which starts ten days
    after [t0] and was never rescheduled, to the twelfth day and then to the
    fourteenth.  After the first reschedule [fecha_original] is the start of
    the tenth day, and after the second it still is. *)
Lemma C6_testigo :
  let bd := ejemplo.tablas [ejemplo.minimo_todos] [ejemplo.reserva1] in
  let u := Some ejemplo.cliente in
  exists r1 c1 so1 w1 r2 c2 so2 w2,
    @views.reprogramar ejemplo.rt ejemplo.siempre_disponible
      ejemplo.notifica_cliente ejemplo.notifica_administrador u 1
      (ejemplo.pedido (12 * 24)) (ejemplo.mundo bd)
      = (Ok (views.Reprogramada r1 c1 so1), w1) /\
    @views.post ejemplo.rt ejemplo.disponibilidad_completa
      ejemplo.sin_cambio_precio ejemplo.notifica_cliente
      ejemplo.notifica_administrador u 1 (ejemplo.pedido (14 * 24)) w1
      = (Ok (views.Reprogramada r2 c2 so2), w2) /\
    models.fecha_original r1 = Some (models.fecha_inicio ejemplo.reserva1) /\
    models.fecha_inicio r1 = ejemplo.en_horas (12 * 24) /\
    models.fecha_original r2 = models.fecha_original r1 /\
    models.fecha_inicio r2 = ejemplo.en_horas (14 * 24).
Proof.
  intros bd u.
  destruct (@views.reprogramar ejemplo.rt ejemplo.siempre_disponible
              ejemplo.notifica_cliente ejemplo.notifica_administrador u 1
              (ejemplo.pedido (12 * 24)) (ejemplo.mundo bd))
    as [[[r1 c1 so1|]|e1] w1] eqn:E1;
    try (vm_compute in E1; discriminate).
  destruct (@views.post ejemplo.rt ejemplo.disponibilidad_completa
              ejemplo.sin_cambio_precio ejemplo.notifica_cliente
              ejemplo.notifica_administrador u 1 (ejemplo.pedido (14 * 24)) w1)
    as [[[r2 c2 so2|]|e2] w2] eqn:E2.
  - exists r1, c1, so1, w1, r2, c2, so2, w2.
    split; [reflexivity|]. split; [exact E2|].
    destruct (@C6_fecha_original_se_escribe_una_vez ejemplo.rt
                ejemplo.siempre_disponible ejemplo.disponibilidad_completa
                ejemplo.sin_cambio_precio ejemplo.notifica_cliente
                ejemplo.notifica_administrador u u 1
                (ejemplo.pedido (12 * 24)) (ejemplo.pedido (14 * 24))
                (ejemplo.mundo bd) w1 w1 w2 r1 r2 c1 so1 c2 so2
                (or_introl E1)) as [_ H2].
    destruct (H2 eq_refl (or_intror E2)) as (_ & _ & H2a).
    vm_compute in E1. injection E1 as <- _ _ <-.
    vm_compute in E2. injection E2 as <- _ _ _.
    split; [reflexivity|]. split; [reflexivity|].
    split; [|reflexivity].
    apply H2a. intros f [= <-]. reflexivity.
  - exfalso. vm_compute in E1. injection E1 as <- _ _ <-.
    vm_compute in E2. discriminate.
  - exfalso. vm_compute in E1. injection E1 as <- _ _ <-.
    vm_compute in E2. discriminate.
Defined.

(** * Further properties of the validator *)

Section VeredictoYMensajes.
Import models validators.
Context `{RT : Runtime}.
Variable bd : BD.
Variable usuario : option Usuario.

Lemma reglas_tiempo_ticks nf s s1 :
  _aplicar_reglas_tiempo bd usuario nf s = (Ok tt, s1) ->
  ticks s1 = S (ticks s).
Proof.
  intros H. unfold _aplicar_reglas_tiempo in H.
  apply bind_inv in H. destruct H as (a & s0 & Ha & H).
  unfold timezone_now in Ha. injection Ha as <- <-.
  apply bind_inv in H. destruct H as ([] & sa & Hmin & Hmax).
  assert (Ht : forall (m : M unit) x y,
             m x = (Ok tt, y) -> True) by auto.
  clear Ht.
  assert (Hmin' : ticks sa = S (ticks s)).
  { revert Hmin. unfold _tiempo_minimo.
    destruct (primera_regla _ _ _) as [[r0 regla]|]; cbv zeta.
    - destruct (es_numero _).
      + unfold bind, lift. destruct (timedelta_horas _); [|discriminate].
        destruct (dt_mas _ _); [|discriminate].
        destruct (dt_le _ _); intros [= <-]; reflexivity.
      + intros [= <-]. reflexivity.
    - intros [= <-]. reflexivity. }
  revert Hmax. unfold _tiempo_maximo.
  destruct (primera_regla _ _ _) as [[r0 regla]|]; cbv zeta.
  - destruct (es_numero _).
    + unfold bind, lift. destruct (timedelta_horas _); [|discriminate].
      destruct (dt_mas _ _); [|discriminate].
      destruct (dt_lt _ _); intros [= <-]; simpl; exact Hmin'.
    + intros [= <-]. exact Hmin'.
  - intros [= <-]. exact Hmin'.
Qed.

(** The states of an evaluation that returns a verdict, and what the verdict
    keeps of them: a message held by the validator after any step is in the
    verdict, which is then not valid. *)
Lemma validar_inv_mensajes reserva nf s v s' :
  validar_reprogramacion_completa bd usuario reserva nf s = (Ok v, s') ->
  exists s1 s2 s3 s4 s5 s6 s7,
    _validar_fecha_basica nf (limpio s) = (Ok tt, s1) /\
    _validar_estado_reserva reserva s1 = (Ok tt, s2) /\
    _aplicar_reglas_tiempo bd usuario nf s2 = (Ok tt, s3) /\
    _aplicar_reglas_limites bd usuario reserva s3 = (Ok tt, s4) /\
    _aplicar_reglas_blackout bd usuario nf s4 = (Ok tt, s5) /\
    _aplicar_reglas_servicios bd usuario reserva s5 = (Ok tt, s6) /\
    _aplicar_reglas_capacidad bd usuario nf reserva s6 = (Ok tt, s7) /\
    r_errores v = errores s7 /\
    ticks s2 = S (ticks s) /\ ticks s3 = S (S (ticks s)) /\
    (forall x,
       In x (errores s1) \/ In x (errores s2) \/ In x (errores s3) \/
       In x (errores s4) \/ In x (errores s5) \/ In x (errores s6) \/
       In x (errores s7) ->
       valida v = false /\ In x (r_errores v)).
Proof.
  intros Hv.
  destruct (validar_inv _ _ _ _ _ _ _ Hv)
    as (s1 & s2 & s3 & s4 & s5 & s6 & s7 & H1 & H2 & H3 & H4 & H5 & H6
        & H7 & _ & He & Hva & _).
  exists s1, s2, s3, s4, s5, s6, s7.
  repeat (split; [assumption|]).
  assert (T2 : ticks s2 = S (ticks s)).
  { rewrite (estado_reserva_ticks _ _ _ H2), (fecha_basica_ticks _ _ _ H1).
    reflexivity. }
  split; [exact T2|].
  split; [rewrite (reglas_tiempo_ticks _ _ _ H3), T2; reflexivity|].
  intros x Hx.
  assert (H67 : In x (errores s6) -> In x (errores s7))
    by (eapply sa_Ok; [apply sa_reglas_capacidad|exact H7]).
  assert (H56 : In x (errores s5) -> In x (errores s6))
    by (eapply sa_Ok; [apply sa_reglas_servicios|exact H6]).
  assert (H45 : In x (errores s4) -> In x (errores s5))
    by (eapply sa_Ok; [apply sa_reglas_blackout|exact H5]).
  assert (H34 : In x (errores s3) -> In x (errores s4))
    by (eapply sa_Ok; [apply sa_reglas_limites|exact H4]).
  assert (H23 : In x (errores s2) -> In x (errores s3))
    by (eapply sa_Ok; [apply sa_reglas_tiempo|exact H3]).
  assert (H12 : In x (errores s1) -> In x (errores s2))
    by (eapply sa_Ok; [apply sa_estado_reserva|exact H2]).
  assert (Hin : In x (errores s7)) by tauto.
  rewrite Hva, He. split; [|exact Hin].
  eapply valida_false_de_In; eauto.
Qed.

(** X1.  A booking in state CANCELADA never gets a valid verdict: whatever
    the candidate, the caller and the rules, a verdict for it carries the
    message of the state check. *)
Theorem X1_reserva_cancelada_nunca_valida (reserva : Reserva)
  (nueva_fecha : datetime) (s : EstadoV) (v : Resultado) (s' : EstadoV) :
  estado reserva = CANCELADA ->
  validar_reprogramacion_completa bd usuario reserva nueva_fecha s
    = (Ok v, s') ->
  valida v = false /\
  In "No se puede reprogramar una reserva cancelada." (r_errores v).
Proof.
  intros Hc Hv.
  destruct (validar_inv_mensajes _ _ _ _ _ Hv)
    as (s1 & s2 & s3 & s4 & s5 & s6 & s7 & _ & H2 & _ & _ & _ & _ & _ & _
        & _ & _ & Hm).
  unfold _validar_estado_reserva in H2. rewrite Hc in H2. simpl in H2.
  injection H2 as <-.
  apply Hm. right. left. simpl. apply in_or_app. right. left. reflexivity.
Qed.

(** X2.  The basic date check uses the first reading of the clock of the
    evaluation: a verdict for a candidate at or before that reading is not
    valid and carries the message of the past date; a verdict for a candidate
    more than 730 days after it is not valid and carries the message of the
    two years; and for a candidate after the reading and at most 730 days
    ahead the check adds nothing. *)
Theorem X2_fecha_basica (reserva : Reserva) (nueva_fecha : datetime)
  (s : EstadoV) :
  (forall v s',
     validar_reprogramacion_completa bd usuario reserva nueva_fecha s
       = (Ok v, s') ->
     (utc nueva_fecha <= reloj (ticks s) ->
      valida v = false /\
      In "No se puede reprogramar a una fecha pasada." (r_errores v)) /\
     (reloj (ticks s) + 730 * us_por_dia < utc nueva_fecha ->
      valida v = false /\
      In "No se puede reprogramar más de 2 años en el futuro."
         (r_errores v))) /\
  (forall limite,
     dt_mas (lectura (ticks s)) (730 * us_por_dia) = Ok limite ->
     reloj (ticks s) < utc nueva_fecha ->
     utc nueva_fecha <= reloj (ticks s) + 730 * us_por_dia ->
     _validar_fecha_basica nueva_fecha s = (Ok tt, leido s)).
Proof.
  split.
  - intros v s' Hv.
    destruct (validar_inv_mensajes _ _ _ _ _ Hv)
      as (s1 & s2 & s3 & s4 & s5 & s6 & s7 & H1 & _ & _ & _ & _ & _ & _ & _
          & _ & _ & Hm).
    unfold _validar_fecha_basica in H1.
    apply bind_inv in H1. destruct H1 as (a & sa & Ha & H1).
    unfold timezone_now in Ha. injection Ha as <- <-.
    apply bind_inv in H1. destruct H1 as ([] & sb & Hb & H1).
    apply bind_inv in H1. destruct H1 as (td & sc & Hc & H1).
    apply bind_inv in H1. destruct H1 as (lim & sd & Hd & H1).
    unfold lift in Hc, Hd.
    change (timedelta_dias 730) with (Ok (A := Z) (730 * us_por_dia)) in Hc.
    injection Hc as <- <-. injection Hd as Hd <-.
    apply dt_mas_Ok in Hd. cbn [utc] in Hd.
    split.
    + intros Hle. apply Hm. left.
      assert (Hin : In "No se puede reprogramar a una fecha pasada."
                       (errores sb)).
      { unfold dt_le in Hb. simpl in Hb. apply Z.leb_le in Hle.
        rewrite Hle in Hb. injection Hb as <-. simpl. now left. }
      eapply sa_Ok; [|exact H1|exact Hin].
      destruct (dt_lt lim nueva_fecha); [apply sa_append|apply sa_ret].
    + intros Hlt. apply Hm. left.
      assert (E : dt_lt lim nueva_fecha = true).
      { unfold dt_lt. apply Z.ltb_lt. rewrite Hd.
        unfold us_por_dia in *. lia. }
      rewrite E in H1. injection H1 as <-. simpl.
      apply in_or_app. right. now left.
  - intros limite Hl Hgt Hle. unfold _validar_fecha_basica.
    unfold bind, timezone_now, lift. fold (lectura (ticks s)).
    assert (E1 : dt_le nueva_fecha (lectura (ticks s)) = false)
      by (unfold dt_le; simpl; apply Z.leb_gt; exact Hgt).
    rewrite E1. unfold ret.
    change (timedelta_dias 730) with (Ok (A := Z) (730 * us_por_dia)).
    cbv beta iota. rewrite Hl.
    assert (E2 : dt_lt limite nueva_fecha = false).
    { unfold dt_lt. rewrite (dt_mas_Ok _ _ _ Hl). simpl.
      apply Z.ltb_ge. exact Hle. }
    rewrite E2. reflexivity.
Qed.

Lemma limites_dos_bucles reserva :
  _aplicar_reglas_limites bd usuario reserva
  = (_limite_por_reserva bd usuario reserva ;; _limite_diario bd usuario).
Proof. destruct usuario; reflexivity. Qed.

(** X3.  The limit per booking: when a LIMITE_REPROGRAMACIONES rule governs
    the caller and holds the number [n], a booking already rescheduled [n]
    times or more never gets a valid verdict, and one rescheduled fewer times
    passes the check with no message. *)
Theorem X3_limite_por_reserva (reserva : Reserva) (nueva_fecha : datetime)
  (s : EstadoV) (rol : string) (regla : ReglasReprogramacion) (n : Z) :
  primera_regla bd "LIMITE_REPROGRAMACIONES" (roles usuario)
    = Some (rol, regla) ->
  es_numero (obtener_valor regla) = true ->
  int_py (obtener_valor regla) = Ok n ->
  (n <= numero_reprogramaciones reserva ->
   forall v s',
     validar_reprogramacion_completa bd usuario reserva nueva_fecha s
       = (Ok v, s') ->
     valida v = false /\
     In (o_bien (mensaje_error regla)
           ("Ha alcanzado el límite de " ++ str_de (obtener_valor regla)
            ++ " reprogramaciones."))
        (r_errores v)) /\
  (numero_reprogramaciones reserva < n ->
   _limite_por_reserva bd usuario reserva s = (Ok tt, s)).
Proof.
  intros Hp Hn Hi. split.
  - intros Hle v s' Hv.
    destruct (validar_inv_mensajes _ _ _ _ _ Hv)
      as (s1 & s2 & s3 & s4 & s5 & s6 & s7 & _ & _ & _ & H4 & _ & _ & _ & _
          & _ & _ & Hm).
    apply Hm. do 3 right. left.
    rewrite limites_dos_bucles in H4.
    apply bind_inv in H4. destruct H4 as ([] & sa & Ha & Hb).
    assert (Hin : In (o_bien (mensaje_error regla)
           ("Ha alcanzado el límite de " ++ str_de (obtener_valor regla)
            ++ " reprogramaciones.")) (errores sa)).
    { unfold _limite_por_reserva in Ha. rewrite Hp in Ha. cbv zeta in Ha.
      rewrite Hn in Ha. unfold bind, lift in Ha. rewrite Hi in Ha.
      apply Z.leb_le in Hle. rewrite Hle in Ha. injection Ha as <-.
      simpl. apply in_or_app. right. now left. }
    eapply sa_Ok; [|exact Hb|exact Hin].
    unfold _limite_diario. solo_agrega_tac.
  - intros Hlt. unfold _limite_por_reserva. rewrite Hp. cbv zeta.
    rewrite Hn. unfold bind, lift. rewrite Hi.
    apply Z.leb_gt in Hlt. rewrite Hlt. reflexivity.
Qed.

Lemma limite_por_reserva_ticks reserva s s1 :
  _limite_por_reserva bd usuario reserva s = (Ok tt, s1) ->
  ticks s1 = ticks s.
Proof.
  unfold _limite_por_reserva.
  destruct (primera_regla _ _ _) as [[r0 regla]|]; cbv zeta.
  - destruct (es_numero _).
    + unfold bind, lift. destruct (int_py _); [|discriminate].
      destruct (_ <=? _); intros [= <-]; reflexivity.
    + intros [= <-]. reflexivity.
  - intros [= <-]. reflexivity.
Qed.

(** X4.  The limit per user and day: when the validator has a user and a
    LIMITE_DIARIO rule governs them with the number [n], the check reads the
    clock (the third reading of the evaluation) and counts the rows of the
    history made by the user on that day; with [n] rows or more the verdict
    is never valid.  A validator without a user skips the daily limit
    whatever the rules say. *)
Theorem X4_limite_diario (reserva : Reserva) (nueva_fecha : datetime)
  (s : EstadoV) (u : Usuario) (rol : string) (regla : ReglasReprogramacion)
  (n : Z) :
  usuario = Some u ->
  primera_regla bd "LIMITE_DIARIO" (roles usuario) = Some (rol, regla) ->
  es_numero (obtener_valor regla) = true ->
  int_py (obtener_valor regla) = Ok n ->
  (n <= Z.of_nat (List.length
                    (reprogramaciones_hoy bd u
                       (date (lectura (S (S (ticks s))))))) ->
   forall v s',
     validar_reprogramacion_completa bd usuario reserva nueva_fecha s
       = (Ok v, s') ->
     valida v = false /\
     In (o_bien (mensaje_error regla)
           ("Ha alcanzado el límite diario de "
            ++ str_de (obtener_valor regla) ++ " reprogramaciones."))
        (r_errores v)) /\
  (forall r s0,
     _aplicar_reglas_limites bd None r s0 = _limite_por_reserva bd None r s0).
Proof.
  intros Hu Hp Hn Hi. split.
  - intros Hle v s' Hv.
    destruct (validar_inv_mensajes _ _ _ _ _ Hv)
      as (s1 & s2 & s3 & s4 & s5 & s6 & s7 & _ & _ & _ & H4 & _ & _ & _ & _
          & _ & T3 & Hm).
    apply Hm. do 3 right. left.
    rewrite limites_dos_bucles in H4.
    apply bind_inv in H4. destruct H4 as ([] & sa & Ha & Hb).
    apply limite_por_reserva_ticks in Ha. rewrite T3 in Ha.
    unfold _limite_diario in Hb. rewrite Hu in Hb. rewrite <- Hu in Hb.
    rewrite Hp in Hb. cbv zeta in Hb. rewrite Hn in Hb.
    unfold bind, lift, timezone_now in Hb. rewrite Hi in Hb.
    fold (lectura (ticks sa)) in Hb. rewrite Ha in Hb.
    apply Z.leb_le in Hle. rewrite Hle in Hb. injection Hb as <-.
    simpl. apply in_or_app. right. now left.
  - intros r s0.
    change (_aplicar_reglas_limites bd None r)
      with (_limite_por_reserva bd None r ;; ret tt).
    unfold bind.
    destruct (_limite_por_reserva bd None r s0) as [[[]|e] s1]; reflexivity.
Qed.

(** X5.  Hours closed to rescheduling: when a HORAS_BLACKOUT rule governs the
    caller and its value is a list, a candidate whose hour of the day (in the
    candidate's own zone) is in the list never gets a valid verdict, and a
    candidate whose hour equals no element of the list passes the check with
    no message. *)
Theorem X5_horas_blackout (reserva : Reserva) (nueva_fecha : datetime)
  (s : EstadoV) (rol : string) (regla : ReglasReprogramacion)
  (horas : list pyval) :
  primera_regla bd "HORAS_BLACKOUT" (roles usuario) = Some (rol, regla) ->
  obtener_valor regla = VList horas ->
  (In (VInt (hour nueva_fecha)) horas ->
   forall v s',
     validar_reprogramacion_completa bd usuario reserva nueva_fecha s
       = (Ok v, s') ->
     valida v = false /\
     In (o_bien (mensaje_error regla)
           ("No se puede reprogramar a las "
            ++ str_de (VInt (hour nueva_fecha)) ++ ":00 horas."))
        (r_errores v)) /\
  (existsb (py_eq_int (hour nueva_fecha)) horas = false ->
   _horas_blackout bd usuario nueva_fecha s = (Ok tt, s)).
Proof.
  intros Hp Hl. split.
  - intros Hin v s' Hv.
    destruct (validar_inv_mensajes _ _ _ _ _ Hv)
      as (s1 & s2 & s3 & s4 & s5 & s6 & s7 & _ & _ & _ & _ & H5 & _ & _ & _
          & _ & _ & Hm).
    apply Hm. do 4 right. left.
    unfold _aplicar_reglas_blackout in H5.
    apply bind_inv in H5. destruct H5 as ([] & sa & _ & Hb).
    assert (He : existsb (py_eq_int (hour nueva_fecha)) horas = true).
    { apply existsb_exists. exists (VInt (hour nueva_fecha)).
      split; [exact Hin|]. simpl. apply Z.eqb_refl. }
    unfold _horas_blackout in Hb. rewrite Hp, Hl in Hb. cbv zeta in Hb.
    rewrite He in Hb. unfold try_except, errores_append in Hb.
    injection Hb as <-. simpl. apply in_or_app. right. now left.
  - intros He. unfold _horas_blackout. rewrite Hp, Hl. cbv zeta.
    rewrite He. reflexivity.
Qed.

(** X6.  Restricted services: when a SERVICIOS_RESTRINGIDOS rule governs the
    caller and its value is a list, the check adds one message for every
    detail line of the booking whose service title is in the list, in the
    order of the lines, and nothing else; so a booking with such a line never
    gets a valid verdict. *)
Theorem X6_servicios_restringidos (reserva : Reserva)
  (nueva_fecha : datetime) (s : EstadoV) (rol : string)
  (regla : ReglasReprogramacion) (restringidos : list pyval) :
  primera_regla bd "SERVICIOS_RESTRINGIDOS" (roles usuario)
    = Some (rol, regla) ->
  obtener_valor regla = VList restringidos ->
  let mensaje servicio :=
    o_bien (mensaje_error regla)
      ("El servicio '" ++ servicio
       ++ "' tiene restricciones para reprogramar.") in
  let afectados :=
    filter (fun servicio => existsb (py_eq_str servicio) restringidos)
           (map servicio_titulo (detalles reserva)) in
  _aplicar_reglas_servicios bd usuario reserva s
    = (Ok tt, {| ticks := ticks s;
                 errores := (errores s ++ map mensaje afectados)%list;
                 warnings := warnings s |}) /\
  (forall d v s',
     In d (detalles reserva) ->
     In (VStr (servicio_titulo d)) restringidos ->
     validar_reprogramacion_completa bd usuario reserva nueva_fecha s
       = (Ok v, s') ->
     valida v = false /\ In (mensaje (servicio_titulo d)) (r_errores v)).
Proof.
  intros Hp Hl mensaje afectados.
  assert (Hstep : forall s0,
    _aplicar_reglas_servicios bd usuario reserva s0
    = (Ok tt, {| ticks := ticks s0;
                 errores := (errores s0 ++ map mensaje afectados)%list;
                 warnings := warnings s0 |})).
  { intros s0. unfold _aplicar_reglas_servicios. rewrite Hp, Hl. cbv zeta.
    unfold try_except. subst afectados.
    assert (Hg : forall l s1,
      para_cada
        (fun servicio : string =>
           if existsb (py_eq_str servicio) restringidos
           then errores_append (mensaje servicio)
           else ret tt) l s1
      = (Ok tt, {| ticks := ticks s1;
                   errores := (errores s1 ++ map mensaje
                     (filter (fun servicio =>
                        existsb (py_eq_str servicio) restringidos) l))%list;
                   warnings := warnings s1 |})).
    { induction l as [|x l IH]; intros s1.
      - simpl. rewrite app_nil_r. destruct s1; reflexivity.
      - cbn [para_cada filter]. unfold bind.
        destruct (existsb (py_eq_str x) restringidos).
        + unfold errores_append at 1. rewrite IH. simpl.
          rewrite <- app_assoc. reflexivity.
        + unfold ret at 1. rewrite IH. reflexivity. }
    fold mensaje. rewrite Hg. reflexivity. }
  split; [apply Hstep|].
  intros d v s' Hd Hin Hv.
  destruct (validar_inv_mensajes _ _ _ _ _ Hv)
    as (s1 & s2 & s3 & s4 & s5 & s6 & s7 & _ & _ & _ & _ & _ & H6 & _ & _
        & _ & _ & Hm).
  apply Hm. do 5 right. left.
  rewrite Hstep in H6. injection H6 as <-. simpl.
  apply in_or_app. right. apply in_map. subst afectados.
  apply filter_In. split.
  - apply in_map. exact Hd.
  - apply existsb_exists. exists (VStr (servicio_titulo d)).
    split; [exact Hin|]. simpl. apply String.eqb_refl.
Qed.

(** X7.  Capacity of a date: when a CAPACIDAD_MAXIMA rule governs the caller
    with a number, the check counts the bookings of the candidate's day in an
    active state other than the booking itself; with the limit [n] reached
    the verdict is never valid, below it the check adds nothing.  A value
    whose conversion to an integer raises ValueError (a not-a-number float)
    is passed over in silence, and one whose conversion raises OverflowError
    (an infinite float) makes the check raise. *)
Theorem X7_capacidad_maxima (reserva : Reserva) (nueva_fecha : datetime)
  (s : EstadoV) (rol : string) (regla : ReglasReprogramacion) :
  primera_regla bd "CAPACIDAD_MAXIMA" (roles usuario) = Some (rol, regla) ->
  es_numero (obtener_valor regla) = true ->
  let ocupadas :=
    Z.of_nat (List.length (reservas_en_fecha bd nueva_fecha reserva)) in
  (forall n,
     int_py (obtener_valor regla) = Ok n ->
     (n <= ocupadas ->
      forall v s',
        validar_reprogramacion_completa bd usuario reserva nueva_fecha s
          = (Ok v, s') ->
        valida v = false /\
        In (o_bien (mensaje_error regla)
              ("La fecha alcanzó la capacidad máxima de "
               ++ str_de (obtener_valor regla) ++ " reservas."))
           (r_errores v)) /\
     (ocupadas < n ->
      _aplicar_reglas_capacidad bd usuario nueva_fecha reserva s
        = (Ok tt, s))) /\
  (int_py (obtener_valor regla) = Raise ValueError ->
   _aplicar_reglas_capacidad bd usuario nueva_fecha reserva s = (Ok tt, s)) /\
  (int_py (obtener_valor regla) = Raise OverflowError ->
   _aplicar_reglas_capacidad bd usuario nueva_fecha reserva s
     = (Raise OverflowError, s)).
Proof.
  intros Hp Hn ocupadas. split; [|split].
  - intros n Hi. split.
    + intros Hle v s' Hv.
      destruct (validar_inv_mensajes _ _ _ _ _ Hv)
        as (s1 & s2 & s3 & s4 & s5 & s6 & s7 & _ & _ & _ & _ & _ & _ & H7
            & _ & _ & _ & Hm).
      apply Hm. do 6 right.
      unfold _aplicar_reglas_capacidad in H7. rewrite Hp in H7.
      cbv zeta in H7. rewrite Hn in H7.
      unfold try_except, bind, lift in H7. rewrite Hi in H7.
      apply Z.leb_le in Hle. fold ocupadas in H7. rewrite Hle in H7.
      unfold errores_append in H7. injection H7 as <-. simpl.
      apply in_or_app. right. now left.
    + intros Hlt. unfold _aplicar_reglas_capacidad. rewrite Hp. cbv zeta.
      rewrite Hn. unfold try_except, bind, lift. rewrite Hi.
      apply Z.leb_gt in Hlt. fold ocupadas. rewrite Hlt. reflexivity.
  - intros Hi. unfold _aplicar_reglas_capacidad. rewrite Hp. cbv zeta.
    rewrite Hn. unfold try_except, bind, lift. rewrite Hi. reflexivity.
  - intros Hi. unfold _aplicar_reglas_capacidad. rewrite Hp. cbv zeta.
    rewrite Hn. unfold try_except, bind, lift. rewrite Hi. reflexivity.
Qed.



End VeredictoYMensajes.

(** ** Availability, the rules reported and the shape of a verdict *)

Section GuardaWarnings.
Import models validators.
Context `{RT : Runtime}.

Lemma gw_ret {A} (a : A) : guarda_warnings (ret a).
Proof. intros s. reflexivity. Qed.

Lemma gw_lift {A} (r : res A) : guarda_warnings (lift r).
Proof. intros s. reflexivity. Qed.

Lemma gw_append (m : string) : guarda_warnings (errores_append m).
Proof. intros s. reflexivity. Qed.

Lemma gw_now : guarda_warnings timezone_now.
Proof. intros s. reflexivity. Qed.

Lemma gw_bind {A B} (m : M A) (f : A -> M B) :
  guarda_warnings m -> (forall a, guarda_warnings (f a)) ->
  guarda_warnings (bind m f).
Proof.
  intros Hm Hf s. unfold bind. specialize (Hm s).
  destruct (m s) as [[a|e] s1]; simpl in *.
  - rewrite Hf. exact Hm.
  - exact Hm.
Qed.

Lemma gw_try (h : exn -> bool) (m : M unit) :
  guarda_warnings m -> guarda_warnings (try_except h m).
Proof.
  intros Hm s. unfold try_except. specialize (Hm s).
  destruct (m s) as [[a|e] s1]; simpl in *; [exact Hm|].
  destruct (h e); exact Hm.
Qed.

Lemma gw_para_cada {A} (f : A -> M unit) (l : list A) :
  (forall a, guarda_warnings (f a)) -> guarda_warnings (para_cada f l).
Proof.
  intros Hf. induction l as [|x t IH]; simpl.
  - apply gw_ret.
  - apply gw_bind; auto.
Qed.

End GuardaWarnings.

Ltac guarda_warnings_paso :=
  first
    [ apply gw_ret | apply gw_lift | apply gw_append | apply gw_now
    | apply gw_bind; [|intro]
    | apply gw_try
    | apply gw_para_cada; intro
    | match goal with
      | |- validators.guarda_warnings (match ?x with _ => _ end) => destruct x
      end ].

Ltac guarda_warnings_tac := cbv zeta; repeat guarda_warnings_paso.

Section FormaDelVeredicto.
Import models validators.
Context `{RT : Runtime}.
Variable bd : BD.
Variable usuario : option Usuario.

(** X8.  The availability report: the count of conflicts is the number of
    titles listed; the date is reported free exactly when that count is zero;
    a title is listed exactly when it is the title of a detail line, on a
    service of the booking, of a booking of the candidate's day that is not
    cancelled and is not the booking itself; and a booking without detail
    lines finds every date free. *)
Theorem X8_disponibilidad (nueva_fecha : datetime) (reserva : Reserva) :
  let d := _verificar_disponibilidad bd nueva_fecha reserva in
  conflictos d = List.length (servicios_conflictivos d) /\
  (disponible d = true <-> conflictos d = 0%nat) /\
  (forall t,
     In t (servicios_conflictivos d) <->
     exists r l,
       In r (reservas bd) /\ In l (detalles r) /\ servicio_titulo l = t /\
       date_en_zona zona_actual (fecha_inicio r) = date nueva_fecha /\
       estado r <> CANCELADA /\ id r <> id reserva /\
       exists l0, In l0 (detalles reserva) /\
                  servicio_id l0 = servicio_id l) /\
  (detalles reserva = [] -> disponible d = true).
Proof.
  cbv zeta. unfold _verificar_disponibilidad. cbn [conflictos disponible
    servicios_conflictivos]. split; [|split; [|split]].
  - rewrite length_map. reflexivity.
  - destruct (conflictos_de bd nueva_fecha reserva); simpl;
      split; congruence.
  - intros t. rewrite in_map_iff. unfold conflictos_de. cbv zeta. split.
    + intros (l & Ht & Hl). apply in_flat_map in Hl.
      destruct Hl as (r & Hr & Hl). apply filter_In in Hl.
      destruct Hl as [Hl He]. apply existsb_exists in He.
      destruct He as (i & Hi & He). apply Z.eqb_eq in He.
      apply in_map_iff in Hi. destruct Hi as (l0 & Hl0 & Hin0).
      unfold reservas_en_fecha in Hr. apply filter_In in Hr.
      destruct Hr as [Hr Hc]. apply andb_prop in Hc. destruct Hc as [Hc Hid].
      apply andb_prop in Hc. destruct Hc as [Hf Ha].
      apply Z.eqb_eq in Hf. apply negb_true_iff, Z.eqb_neq in Hid.
      exists r, l. repeat split; auto.
      * intros Hcan. rewrite Hcan in Ha. discriminate.
      * exists l0. split; [exact Hin0|congruence].
    + intros (r & l & Hr & Hl & Ht & Hf & Hc & Hid & l0 & Hl0 & Hs).
      exists l. split; [exact Ht|]. apply in_flat_map. exists r. split.
      * unfold reservas_en_fecha. apply filter_In. split; [exact Hr|].
        apply andb_true_intro. split; [apply andb_true_intro; split|].
        -- apply Z.eqb_eq. exact Hf.
        -- destruct (estado r); try reflexivity. congruence.
        -- apply negb_true_iff, Z.eqb_neq. exact Hid.
      * apply filter_In. split; [exact Hl|]. apply existsb_exists.
        exists (servicio_id l0). split; [apply in_map; exact Hl0|].
        apply Z.eqb_eq. congruence.
  - intros Hd. unfold conflictos_de. cbv zeta. rewrite Hd. simpl.
    assert (E : forall rs : list Reserva,
               flat_map (fun r : Reserva =>
                           filter (fun _ : ReservaServicio => false)
                                  (detalles r)) rs = []).
    { induction rs as [|r rs IH]; simpl; [reflexivity|].
      rewrite IH, app_nil_r. induction (detalles r); simpl; auto. }
    rewrite E. reflexivity.
Qed.

Lemma reglas_aplicadas_de (tipos : list string) :
  let l :=
    flat_map (fun tipo_regla =>
                match primera_regla bd tipo_regla (roles usuario) with
                | Some (rol, regla) =>
                    [{| ra_tipo := tipo_regla; ra_rol := rol;
                        ra_nombre := nombre regla;
                        ra_valor := obtener_valor regla;
                        ra_prioridad := prioridad regla |}]
                | None => []
                end) tipos in
  map ra_tipo l
  = filter (fun t => match primera_regla bd t (roles usuario) with
                     | Some _ => true
                     | None => false
                     end) tipos /\
  (forall e, In e l ->
     exists regla,
       primera_regla bd (ra_tipo e) (roles usuario) = Some (ra_rol e, regla) /\
       ra_nombre e = nombre regla /\ ra_valor e = obtener_valor regla /\
       ra_prioridad e = prioridad regla).
Proof.
  cbv zeta. induction tipos as [|t ts [IH1 IH2]]; simpl.
  - split; [reflexivity|tauto].
  - destruct (primera_regla bd t (roles usuario)) as [[rol regla]|] eqn:E;
      simpl.
    + split; [rewrite IH1; reflexivity|].
      intros e [<-|He]; [|auto]. simpl. exists regla. rewrite E. auto.
    + split; assumption.
Qed.

(** X9.  The rules reported with a verdict: one entry for each of the nine
    rule types of the list, in the order of the list, for which the walk over
    the caller's roles finds a rule, and no other entry; each entry names the
    role at which the walk stopped and carries the name, the value and the
    priority of the rule found there, which is active, of the entry's type
    and applicable to that role. *)
Theorem X9_reglas_aplicadas :
  let l := _obtener_reglas_aplicadas bd usuario in
  map ra_tipo l
  = filter (fun t => match primera_regla bd t (roles usuario) with
                     | Some _ => true
                     | None => false
                     end) tipos_reglas /\
  (List.length l <= 9)%nat /\
  (forall e, In e l ->
     In (ra_rol e) (roles usuario) /\
     exists regla,
       primera_regla bd (ra_tipo e) (roles usuario) = Some (ra_rol e, regla) /\
       In regla (reglas bd) /\ activa regla = true /\
       tipo_regla regla = ra_tipo e /\
       es_aplicable_a_rol regla (ra_rol e) = true /\
       ra_nombre e = nombre regla /\ ra_valor e = obtener_valor regla /\
       ra_prioridad e = prioridad regla).
Proof.
  cbv zeta. unfold _obtener_reglas_aplicadas.
  destruct (reglas_aplicadas_de tipos_reglas) as [H1 H2]. cbv zeta in H1, H2.
  split; [exact H1|]. split.
  - rewrite <- (length_map ra_tipo), H1.
    etransitivity; [apply filter_length_le|]. simpl. lia.
  - intros e He. destruct (H2 e He) as (regla & Hp & Hn & Hv & Hpr).
    destruct (primera_regla_Some _ _ _ _ _ Hp) as (antes & despues & Hr & _ & Ha).
    destruct (obtener_regla_activa_Some _ _ _ _ Ha) as (Hin & Hac & Ht & Hap & _).
    split.
    + rewrite Hr. apply in_or_app. right. now left.
    + exists regla. repeat split; auto.
Qed.

Lemma gw_evaluacion reserva nf s s7 :
  (_validar_fecha_basica nf ;;
   _validar_estado_reserva reserva ;;
   _aplicar_reglas_tiempo bd usuario nf ;;
   _aplicar_reglas_limites bd usuario reserva ;;
   _aplicar_reglas_blackout bd usuario nf ;;
   _aplicar_reglas_servicios bd usuario reserva ;;
   _aplicar_reglas_capacidad bd usuario nf reserva) s = (Ok tt, s7) ->
  warnings s7 = warnings s.
Proof.
  intros H.
  assert (G : guarda_warnings
    (_validar_fecha_basica nf ;;
     _validar_estado_reserva reserva ;;
     _aplicar_reglas_tiempo bd usuario nf ;;
     _aplicar_reglas_limites bd usuario reserva ;;
     _aplicar_reglas_blackout bd usuario nf ;;
     _aplicar_reglas_servicios bd usuario reserva ;;
     _aplicar_reglas_capacidad bd usuario nf reserva)).
  { unfold _validar_fecha_basica, _validar_estado_reserva,
      _aplicar_reglas_tiempo, _tiempo_minimo, _tiempo_maximo,
      _aplicar_reglas_limites, _aplicar_reglas_blackout, _dias_blackout,
      _horas_blackout, _aplicar_reglas_servicios, _aplicar_reglas_capacidad.
    guarda_warnings_tac. }
  specialize (G s). rewrite H in G. exact G.
Qed.

(** X10.  The shape of every verdict: it is valid exactly when it lists no
    error; it never lists a warning; its availability report, its list of
    rules and its count of rules are those of the two helper methods; the
    roles it records end with ALL; and the two quick class methods, run on the
    same clock, return its validity flag and its list of errors. *)
Theorem X10_forma_del_veredicto (reserva : Reserva) (nueva_fecha : datetime)
  (s : EstadoV) (v : Resultado) (s' : EstadoV) :
  validar_reprogramacion_completa bd usuario reserva nueva_fecha s
    = (Ok v, s') ->
  (valida v = true <-> r_errores v = []) /\
  r_warnings v = [] /\
  disponibilidad v = _verificar_disponibilidad bd nueva_fecha reserva /\
  reglas_aplicadas v = _obtener_reglas_aplicadas bd usuario /\
  numero_reglas_evaluadas (metadatos v) = List.length (reglas_aplicadas v) /\
  (exists antes, usuario_roles (metadatos v) = (antes ++ ["ALL"])%list) /\
  fst (validar_rapido bd usuario reserva nueva_fecha s) = Ok (valida v) /\
  fst (obtener_errores_rapido bd usuario reserva nueva_fecha s)
    = Ok (r_errores v).
Proof.
  intros Hv.
  assert (Hr : fst (validar_reprogramacion_completa bd usuario reserva
                      nueva_fecha (limpio s)) = Ok v).
  { rewrite (validar_mismo_reloj bd usuario reserva nueva_fecha (limpio s) s);
      [rewrite Hv; reflexivity|]. intros i. reflexivity. }
  assert (Hq1 : fst (validar_rapido bd usuario reserva nueva_fecha s)
                = Ok (valida v)).
  { unfold validar_rapido, bind, limpiar. fold (limpio s).
    destruct (validar_reprogramacion_completa bd usuario reserva nueva_fecha
                (limpio s)) as [[x|e] sx]; simpl in Hr; [|discriminate].
    injection Hr as ->. reflexivity. }
  assert (Hq2 : fst (obtener_errores_rapido bd usuario reserva nueva_fecha s)
                = Ok (r_errores v)).
  { unfold obtener_errores_rapido, bind, limpiar. fold (limpio s).
    destruct (validar_reprogramacion_completa bd usuario reserva nueva_fecha
                (limpio s)) as [[x|e] sx]; simpl in Hr; [|discriminate].
    injection Hr as ->. reflexivity. }
  unfold validar_reprogramacion_completa in Hv.
  apply bind_inv in Hv. destruct Hv as ([] & s0 & H0 & H).
  injection H0 as <-.
  assert (exists s7,
    (_validar_fecha_basica nueva_fecha ;;
     _validar_estado_reserva reserva ;;
     _aplicar_reglas_tiempo bd usuario nueva_fecha ;;
     _aplicar_reglas_limites bd usuario reserva ;;
     _aplicar_reglas_blackout bd usuario nueva_fecha ;;
     _aplicar_reglas_servicios bd usuario reserva ;;
     _aplicar_reglas_capacidad bd usuario nueva_fecha reserva)
      {| ticks := ticks s; errores := []; warnings := [] |} = (Ok tt, s7) /\
    (pen <- _calcular_penalizacion bd usuario reserva ;;
     errs <- leer_errores ;;
     warns <- leer_warnings ;;
     ahora <- timezone_now ;;
     ret {| valida := Nat.eqb (List.length errs) 0;
            r_errores := errs;
            r_warnings := warns;
            disponibilidad :=
              _verificar_disponibilidad bd nueva_fecha reserva;
            penalizacion := pen;
            reglas_aplicadas := _obtener_reglas_aplicadas bd usuario;
            metadatos :=
              {| usuario_roles := roles usuario;
                 fecha_validacion := ahora;
                 numero_reglas_evaluadas :=
                   List.length (_obtener_reglas_aplicadas bd usuario) |} |})
      s7 = (Ok v, s')) as (s7 & Hpasos & Hfin).
  { apply bind_inv in H. destruct H as ([] & s1 & H1 & H).
    apply bind_inv in H. destruct H as ([] & s2 & H2 & H).
    apply bind_inv in H. destruct H as ([] & s3 & H3 & H).
    apply bind_inv in H. destruct H as ([] & s4 & H4 & H).
    apply bind_inv in H. destruct H as ([] & s5 & H5 & H).
    apply bind_inv in H. destruct H as ([] & s6 & H6 & H).
    apply bind_inv in H. destruct H as ([] & s7 & H7 & H).
    exists s7. split; [|exact H].
    unfold bind at 1. rewrite H1. unfold bind at 1. rewrite H2.
    unfold bind at 1. rewrite H3. unfold bind at 1. rewrite H4.
    unfold bind at 1. rewrite H5. unfold bind at 1. rewrite H6.
    exact H7. }
  apply gw_evaluacion in Hpasos. simpl in Hpasos.
  apply bind_inv in Hfin. destruct Hfin as (pen & s8 & H8 & Hfin).
  pose proof (calcular_penalizacion_estado _ _ _ _ _ _ H8) as ->.
  unfold bind, leer_errores, leer_warnings, timezone_now, ret in Hfin.
  injection Hfin as <- _. cbn [valida r_errores r_warnings disponibilidad
    reglas_aplicadas metadatos numero_reglas_evaluadas usuario_roles] in *.
  split; [|split; [exact Hpasos|]].
  - destruct (errores s7); simpl; split; congruence.
  - repeat split; auto.
    unfold roles, _obtener_roles_usuario. destruct usuario as [u|].
    + exists (roles_de u). reflexivity.
    + exists []. reflexivity.
Qed.

End FormaDelVeredicto.

(** ** The dates that the generator suggests *)

Section FechasSugeridas.
Import models validators.
Context `{RT : Runtime}.
Variable bd : BD.
Variable usuario : option Usuario.
Variable reserva : Reserva.
Variable fecha_deseada : datetime.
Variable cantidad : Z.

Lemma dt_mas_offset d td l : dt_mas d td = Ok l -> offset l = offset d.
Proof.
  unfold dt_mas. cbv zeta. destruct (_ && _)%bool; [|discriminate].
  intros [= <-]. reflexivity.
Qed.

Lemma probar_horas_fechas fc horas :
  forall sug s l s',
    probar_horas bd usuario reserva fecha_deseada cantidad fc horas sug s
      = (Ok l, s') ->
    forall e, In e l ->
      In e sug \/
      exists h, In h horas /\
                utc (s_fecha e) = utc fc + h * us_por_hora /\
                offset (s_fecha e) = offset fc.
Proof.
  induction horas as [|h resto IH]; intros sug s l s' H e He;
    cbn [probar_horas] in H.
  - unfold ret in H. injection H as <- <-. now left.
  - apply bind_inv in H. destruct H as (td & s1 & Htd & H).
    apply bind_inv in H. destruct H as (fch & s2 & Hf & H).
    apply bind_inv in H. destruct H as (resultado & s3 & _ & H).
    unfold lift in Htd, Hf. injection Htd as Htd _. injection Hf as Hf _.
    apply timedelta_us_Ok in Htd. subst td.
    pose proof (dt_mas_Ok _ _ _ Hf) as Hu.
    pose proof (dt_mas_offset _ _ _ Hf) as Ho.
    assert (Hrec : forall sug0 s0,
      probar_horas bd usuario reserva fecha_deseada cantidad fc resto sug0 s0
        = (Ok l, s') ->
      (forall x, In x sug0 -> In x sug \/
         (utc (s_fecha x) = utc fc + h * us_por_hora /\
          offset (s_fecha x) = offset fc)) ->
      In e sug \/
      exists h0, In h0 (h :: resto) /\
                 utc (s_fecha e) = utc fc + h0 * us_por_hora /\
                 offset (s_fecha e) = offset fc).
    { intros sug0 s0 H0 Hs.
      destruct (IH _ _ _ _ H0 e He) as [Hin|(h0 & Hh0 & Hx)].
      - destruct (Hs e Hin) as [Hin'|Hx]; [now left|].
        right. exists h. split; [now left|exact Hx].
      - right. exists h0. split; [now right|exact Hx]. }
    destruct (valida resultado).
    + cbv zeta in H.
      match type of H with
      | context [(sug ++ [?x])%list] => set (nueva := x) in *
      end.
      assert (Hs : forall x, In x (sug ++ [nueva])%list -> In x sug \/
         (utc (s_fecha x) = utc fc + h * us_por_hora /\
          offset (s_fecha x) = offset fc)).
      { intros x Hx. apply in_app_or in Hx. destruct Hx as [Hx|[<-|[]]];
          [now left|]. right. simpl. split; assumption. }
      destruct (cantidad <=? _).
      * unfold ret in H. injection H as <- <-.
        destruct (Hs e He) as [Hin|Hx]; [now left|].
        right. exists h. split; [now left|exact Hx].
      * eapply Hrec; eauto.
    + eapply Hrec; eauto.
Qed.

Lemma probar_dias_fechas dias :
  forall sug s l s',
    probar_dias bd usuario reserva fecha_deseada cantidad dias sug s
      = (Ok l, s') ->
    forall e, In e l ->
      In e sug \/
      exists d h, In d dias /\ d <> 0 /\ In h [0; 1; -1; 2; -2] /\
                  utc (s_fecha e)
                  = utc fecha_deseada + d * us_por_dia + h * us_por_hora /\
                  offset (s_fecha e) = offset fecha_deseada.
Proof.
  induction dias as [|d resto IH]; intros sug s l s' H e He;
    cbn [probar_dias] in H.
  - unfold ret in H. injection H as <- <-. now left.
  - assert (Hsig : forall sug0 s0,
      probar_dias bd usuario reserva fecha_deseada cantidad resto sug0 s0
        = (Ok l, s') ->
      (forall x, In x sug0 -> In x sug \/
         exists d0 h, In d0 (d :: resto) /\ d0 <> 0 /\
                      In h [0; 1; -1; 2; -2] /\
                      utc (s_fecha x)
                      = utc fecha_deseada + d0 * us_por_dia
                        + h * us_por_hora /\
                      offset (s_fecha x) = offset fecha_deseada) ->
      In e sug \/
      exists d0 h, In d0 (d :: resto) /\ d0 <> 0 /\
                   In h [0; 1; -1; 2; -2] /\
                   utc (s_fecha e)
                   = utc fecha_deseada + d0 * us_por_dia + h * us_por_hora /\
                   offset (s_fecha e) = offset fecha_deseada).
    { intros sug0 s0 H0 Hs.
      destruct (IH _ _ _ _ H0 e He) as [Hin|(d0 & h & Hd0 & Hx)].
      - exact (Hs e Hin).
      - right. exists d0, h. split; [now right|exact Hx]. }
    destruct (d =? 0) eqn:Ed.
    { eapply Hsig; eauto. }
    apply Z.eqb_neq in Ed.
    apply bind_inv in H. destruct H as (td & s1 & Htd & H).
    apply bind_inv in H. destruct H as (fc & s2 & Hf & H).
    apply bind_inv in H. destruct H as (sug' & s3 & Hh & H).
    unfold lift in Htd, Hf. injection Htd as Htd _. injection Hf as Hf _.
    apply timedelta_us_Ok in Htd. subst td.
    pose proof (dt_mas_Ok _ _ _ Hf) as Hu.
    pose proof (dt_mas_offset _ _ _ Hf) as Ho.
    assert (Hs : forall x, In x sug' -> In x sug \/
         exists d0 h, In d0 (d :: resto) /\ d0 <> 0 /\
                      In h [0; 1; -1; 2; -2] /\
                      utc (s_fecha x)
                      = utc fecha_deseada + d0 * us_por_dia
                        + h * us_por_hora /\
                      offset (s_fecha x) = offset fecha_deseada).
    { intros x Hx.
      destruct (probar_horas_fechas _ _ _ _ _ _ Hh x Hx)
        as [Hin|(h & Hh0 & Hxu & Hxo)]; [now left|].
      right. exists d, h. split; [now left|]. split; [exact Ed|].
      split; [exact Hh0|]. split; [rewrite Hxu, Hu; reflexivity|].
      rewrite Hxo, Ho. reflexivity. }
    destruct (cantidad <=? _).
    + unfold ret in H. injection H as <- <-. exact (Hs e He).
    + eapply Hsig; eauto.
Qed.

Lemma calcular_score_cotas fd fc v : -2 <= _calcular_score fd fc v <= 17.
Proof.
  unfold _calcular_score. cbv zeta.
  destruct (disponible _), (aplica_penalizacion _); lia.
Qed.

(** X11.  The dates that the generator returns: every one is the desired
    date moved by a number of days between -7 and 14 other than 0 and by 0,
    1 or 2 hours either way, in the zone of the desired date; so none is the
    desired date itself; and every score is between -2 and 17. *)
Theorem X11_fechas_sugeridas (s : EstadoV) (l : list Sugerencia)
  (s' : EstadoV) :
  sugerir_fechas_alternativas bd usuario reserva fecha_deseada cantidad s
    = (Ok l, s') ->
  Forall (fun e =>
            (exists d h,
               -7 <= d <= 14 /\ d <> 0 /\ -2 <= h <= 2 /\
               utc (s_fecha e)
               = utc fecha_deseada + d * us_por_dia + h * us_por_hora) /\
            offset (s_fecha e) = offset fecha_deseada /\
            s_fecha e <> fecha_deseada /\
            -2 <= score e <= 17) l.
Proof.
  unfold sugerir_fechas_alternativas. intros H.
  apply bind_inv in H. destruct H as ([] & s0 & _ & H).
  apply bind_inv in H. destruct H as (sug & s1 & Hd & H).
  unfold ret in H. injection H as <- <-.
  destruct (probar_dias_spec bd usuario reserva fecha_deseada cantidad
              (ticks s0) rango_dias [] s0 sug s1 (Forall_nil _)
              (or_introl eq_refl) (Nat.le_refl _) Hd) as [Hc _].
  rewrite Forall_forall in *. intros e He.
  apply hasta_In in He. apply (proj1 (ordenar_por_score_In _ _)) in He.
  destruct (probar_dias_fechas _ _ _ _ _ Hd e He)
    as [[]|(d & h & Hin & Hd0 & Hh & Hu & Ho)].
  assert (Hdr : -7 <= d <= 14).
  { unfold rango_dias in Hin. apply in_map_iff in Hin.
    destruct Hin as (n & <- & Hn). apply in_seq in Hn. lia. }
  assert (Hhr : -2 <= h <= 2).
  { simpl in Hh. lia. }
  split; [|split; [exact Ho|split]].
  - exists d, h. auto.
  - intros Heq. rewrite Heq in Hu. unfold us_por_dia, us_por_hora in Hu. lia.
  - destruct (Hc e He) as (k & v & _ & _ & _ & _ & _ & _ & Hs).
    rewrite Hs. apply calcular_score_cotas.
Qed.

End FechasSugeridas.

(** ** The table of rules: what the resolver reads, and [clean] *)

Section TablaDeReglas.
Import models.
Context `{RT : Runtime}.

Lemma insertar_map (g : ReglasReprogramacion -> ReglasReprogramacion) r l :
  (forall x, prioridad (g x) = prioridad x) ->
  insertar (g r) (map g l) = map g (insertar r l).
Proof.
  intros Hg. induction l as [|y t IH]; simpl; [reflexivity|].
  rewrite !Hg. destruct (prioridad r <=? prioridad y); simpl;
    [reflexivity|]. rewrite IH. reflexivity.
Qed.

Lemma order_by_prioridad_map
  (g : ReglasReprogramacion -> ReglasReprogramacion) l :
  (forall x, prioridad (g x) = prioridad x) ->
  order_by_prioridad (map g l) = map g (order_by_prioridad l).
Proof.
  intros Hg. induction l as [|y t IH]; simpl; [reflexivity|].
  unfold order_by_prioridad in *. simpl. rewrite IH.
  apply insertar_map. exact Hg.
Qed.

Lemma filter_map_conmuta {A B} (p : B -> bool) (q : A -> bool) (g : A -> B)
  (l : list A) :
  (forall x, p (g x) = q x) ->
  filter p (map g l) = map g (filter q l).
Proof.
  intros H. induction l as [|y t IH]; simpl; [reflexivity|].
  rewrite H. destruct (q y); simpl; rewrite IH; reflexivity.
Qed.

Lemma find_map_conmuta {A B} (p : B -> bool) (q : A -> bool) (g : A -> B)
  (l : list A) :
  (forall x, p (g x) = q x) ->
  find p (map g l) = option_map g (find q l).
Proof.
  intros H. induction l as [|y t IH]; simpl; [reflexivity|].
  rewrite H. destruct (q y); simpl; [reflexivity|exact IH].
Qed.

(** X12.  The resolver reads four fields of a rule and no other: its type,
    its active flag, its priority and its target.  Rewriting every rule of
    the table in any way that keeps these four fields makes the resolver
    return the rewritten image of the rule it returned before.  In
    particular the validity window of a rule (start and end of validity) is
    never consulted: a rule whose window has ended governs as before. *)
Theorem X12_el_resolutor_lee_cuatro_campos
  (g : ReglasReprogramacion -> ReglasReprogramacion) (bd : BD)
  (tipo rol : string) :
  (forall r, tipo_regla (g r) = tipo_regla r /\ activa (g r) = activa r /\
             prioridad (g r) = prioridad r /\
             aplicable_a (g r) = aplicable_a r) ->
  obtener_regla_activa
    {| reglas := map g (reglas bd); reservas := reservas bd;
       historial := historial bd |} tipo rol
  = option_map g (obtener_regla_activa bd tipo rol).
Proof.
  intros Hg. unfold obtener_regla_activa. cbv zeta. cbn [reglas].
  rewrite (filter_map_conmuta _
             (fun r => (String.eqb (tipo_regla r) tipo && activa r)%bool)).
  2:{ intros x. destruct (Hg x) as (-> & -> & _). reflexivity. }
  rewrite order_by_prioridad_map by (intros x; apply Hg).
  apply find_map_conmuta. intros x. unfold es_aplicable_a_rol.
  destruct (Hg x) as (_ & _ & _ & ->). reflexivity.
Qed.

(** X13.  When no two active rules of a type have the same priority, the
    rule that the resolver returns for the type does not depend on the order
    of the rows of the table. *)
Theorem X13_resolutor_sin_empates (bd bd' : BD) (tipo rol : string) :
  Permutation (reglas bd) (reglas bd') ->
  (forall r r', In r (reglas bd) -> In r' (reglas bd) ->
                activa r = true -> activa r' = true ->
                tipo_regla r = tipo -> tipo_regla r' = tipo ->
                prioridad r = prioridad r' -> r = r') ->
  obtener_regla_activa bd tipo rol = obtener_regla_activa bd' tipo rol.
Proof.
  intros Hp Hu.
  destruct (obtener_regla_activa bd tipo rol) as [r|] eqn:E,
           (obtener_regla_activa bd' tipo rol) as [r'|] eqn:E'.
  - destruct (obtener_regla_activa_Some _ _ _ _ E)
      as (Hin & Ha & Ht & Hap & Hmin).
    destruct (obtener_regla_activa_Some _ _ _ _ E')
      as (Hin' & Ha' & Ht' & Hap' & Hmin').
    apply (Permutation_in _ (Permutation_sym Hp)) in Hin'.
    f_equal. apply Hu; auto.
    pose proof (Hmin r' Hin' Ha' Ht' Hap').
    pose proof (Hmin' r (Permutation_in _ Hp Hin) Ha Ht Hap). lia.
  - destruct (obtener_regla_activa_Some _ _ _ _ E)
      as (Hin & Ha & Ht & Hap & _).
    pose proof (obtener_regla_activa_None _ _ _ E' r
                  (Permutation_in _ Hp Hin) Ha Ht). congruence.
  - destruct (obtener_regla_activa_Some _ _ _ _ E')
      as (Hin & Ha & Ht & Hap & _).
    pose proof (obtener_regla_activa_None _ _ _ E r'
                  (Permutation_in _ (Permutation_sym Hp) Hin) Ha Ht).
    congruence.
  - reflexivity.
Qed.

(** X14.  [clean] and the value of a rule.  [clean] refuses a rule for want
    of a value exactly when the number, the decimal and the boolean are absent
    and the text is absent or empty, and then the rule has no value; a rule
    that [clean] accepts has a value unless its text is the JSON text of
    null; and in a rule that [clean] accepts, a validity window with both
    ends starts strictly before it ends. *)
Theorem X14_clean_y_el_valor (self : ReglasReprogramacion) :
  (clean self
   = Raise (ValidationError ["Debe definir al menos un valor para la regla."])
   <-> valor_numerico self = None /\ valor_decimal self = None /\
       (valor_texto self = None \/ valor_texto self = Some EmptyString) /\
       valor_booleano self = None) /\
  (clean self
   = Raise (ValidationError ["Debe definir al menos un valor para la regla."])
   -> obtener_valor self = VNone) /\
  (clean self = Ok tt -> obtener_valor self = VNone ->
   exists t, valor_texto self = Some t /\ json_loads t = Ok VNone) /\
  (clean self = Ok tt ->
   forall i f, fecha_inicio_vigencia self = Some i ->
               fecha_fin_vigencia self = Some f -> utc i < utc f).
Proof.
  assert (H1 : clean self
   = Raise (ValidationError ["Debe definir al menos un valor para la regla."])
   <-> valor_numerico self = None /\ valor_decimal self = None /\
       (valor_texto self = None \/ valor_texto self = Some EmptyString) /\
       valor_booleano self = None).
  { unfold clean.
    destruct (valor_numerico self), (valor_decimal self),
      (valor_texto self) as [[|c t]|], (valor_booleano self); simpl;
      (split;
       [ intros H;
         try (destruct (fecha_inicio_vigencia self),
                       (fecha_fin_vigencia self);
              try destruct (dt_le _ _); discriminate);
         auto 6
       | intros (? & ? & [?|?] & ?); try discriminate; reflexivity ]). }
  split; [exact H1|]. split; [|split].
  - intros H. apply H1 in H. destruct H as (Hn & Hd & Ht & Hb).
    unfold obtener_valor. rewrite Hn, Hd, Hb.
    destruct Ht as [-> | ->]; reflexivity.
  - unfold clean, obtener_valor.
    destruct (valor_numerico self); [discriminate 2|].
    destruct (valor_decimal self); [discriminate 2|].
    destruct (valor_booleano self); [discriminate 2|].
    destruct (valor_texto self) as [[|c t]|]; simpl; try discriminate 1.
    intros _ H. exists (String c t). split; [reflexivity|].
    destruct (json_loads (String c t)); [congruence|discriminate].
  - unfold clean. intros H i f Hi Hf. rewrite Hi, Hf in H.
    destruct (_ && _)%bool; [discriminate|].
    unfold dt_le in H. destruct (utc f <=? utc i) eqn:E; [discriminate|].
    apply Z.leb_gt in E. exact E.
Qed.

End TablaDeReglas.

(** ** The serializer of a rescheduling request *)

Section Serializador.
Import models serializers.
Context `{RT : Runtime}.
Variable request_user : option Usuario.

Lemma filter_filter_impl {A} (p q : A -> bool) (l : list A) :
  (forall x, p x = true -> q x = true) ->
  filter p (filter q l) = filter p l.
Proof.
  intros H. induction l as [|y t IH]; simpl; [reflexivity|].
  destruct (q y) eqn:Eq; simpl.
  - rewrite IH. reflexivity.
  - destruct (p y) eqn:Ep; [|exact IH]. apply H in Ep. congruence.
Qed.

Lemma obtener_regla_activa_de_acuerdo tipos bd bd' tipo rol :
  de_acuerdo_salvo tipos bd bd' ->
  en_lista tipo tipos = false ->
  obtener_regla_activa bd tipo rol = obtener_regla_activa bd' tipo rol.
Proof.
  intros Ha Ht. unfold obtener_regla_activa. cbv zeta.
  rewrite <- (filter_filter_impl _
                (fun r => negb (en_lista (tipo_regla r) tipos)) (reglas bd)).
  2:{ intros x Hx. apply andb_prop in Hx. destruct Hx as [Hx _].
      apply String.eqb_eq in Hx. rewrite Hx, Ht. reflexivity. }
  rewrite <- (filter_filter_impl _
                (fun r => negb (en_lista (tipo_regla r) tipos)) (reglas bd')).
  2:{ intros x Hx. apply andb_prop in Hx. destruct Hx as [Hx _].
      apply String.eqb_eq in Hx. rewrite Hx, Ht. reflexivity. }
  unfold de_acuerdo_salvo in Ha. rewrite Ha. reflexivity.
Qed.

Lemma primera_regla_de_acuerdo tipos bd bd' tipo rs :
  de_acuerdo_salvo tipos bd bd' ->
  en_lista tipo tipos = false ->
  primera_regla bd tipo rs = primera_regla bd' tipo rs.
Proof.
  intros Ha Ht. induction rs as [|r t IH]; simpl; [reflexivity|].
  rewrite (obtener_regla_activa_de_acuerdo tipos bd bd' tipo r Ha Ht), IH.
  reflexivity.
Qed.

Lemma para_cada_inerte {S A} (f : A -> ST S unit) (l : list A) (w : S) :
  (forall a w0, f a w0 = (Ok tt, w0)) -> para_cada f l w = (Ok tt, w).
Proof.
  intros H. induction l as [|x t IH]; simpl; [reflexivity|].
  unfold bind. rewrite H. exact IH.
Qed.


Lemma paso_ret {S A B} (a : A) (f : A -> ST S B) w : bind (ret a) f w = f a w.
Proof. reflexivity. Qed.
Lemma paso_raise {S A B} (e : exn) (f : A -> ST S B) w :
  bind (raise e) f w = (Raise e, w).
Proof. reflexivity. Qed.
Lemma paso_lift {S A B} (r : res A) (f : A -> ST S B) w :
  bind (lift r) f w = match r with Ok a => f a w | Raise e => (Raise e, w) end.
Proof. destruct r; reflexivity. Qed.
Lemma paso_leer_bd {B} (f : BD -> ST Mundo B) w :
  bind leer_bd f w = f (m_bd w) w.
Proof. reflexivity. Qed.
Lemma paso_ahora {B} (f : datetime -> ST Mundo B) w :
  bind ahora_mundo f w
  = f {| utc := reloj (m_ticks w); offset := 0 |}
      {| m_bd := m_bd w; m_ticks := S (m_ticks w) |}.
Proof. reflexivity. Qed.
Lemma paso_bind {S A B C} (m : ST S A) (f : A -> ST S B) (g : B -> ST S C) w :
  bind (bind m f) g w = bind m (fun a => bind (f a) g) w.
Proof. unfold bind. destruct (m w) as [[a|e] w1]; reflexivity. Qed.
Lemma paso_if {S A B} (c : bool) (m1 m2 : ST S A) (f : A -> ST S B) w :
  bind (if c then m1 else m2) f w = if c then bind m1 f w else bind m2 f w.
Proof. destruct c; reflexivity. Qed.
Lemma paso_inerte {S A B} (h : A -> ST S unit) (l : list A)
  (f : unit -> ST S B) w :
  (forall a w0, h a w0 = (Ok tt, w0)) ->
  bind (para_cada h l) f w = f tt w.
Proof. intros H. unfold bind. rewrite para_cada_inerte by exact H. reflexivity. Qed.

Lemma vnf_segun_reglas value bd bd' k :
  de_acuerdo_salvo ["DIAS_BLACKOUT"; "HORAS_BLACKOUT"; "SERVICIOS_RESTRINGIDOS"] bd bd' ->
  exists r,
    validate_nueva_fecha request_user value {| m_bd := bd; m_ticks := k |}
      = (r, {| m_bd := bd; m_ticks := S k |}) /\
    validate_nueva_fecha request_user value {| m_bd := bd'; m_ticks := k |}
      = (r, {| m_bd := bd'; m_ticks := S k |}).
Proof.
  intros Ha. unfold validate_nueva_fecha. cbv zeta.
  rewrite !paso_ahora. cbn [m_bd m_ticks].
  rewrite !paso_if, !paso_raise, !paso_ret.
  destruct (dt_le value _); [eexists; split; reflexivity|].
  rewrite !paso_leer_bd. cbn [m_bd m_ticks].
  rewrite <- !(primera_regla_de_acuerdo _ bd bd' "TIEMPO_MINIMO" _ Ha eq_refl).
  rewrite <- !(primera_regla_de_acuerdo _ bd bd' "TIEMPO_MAXIMO" _ Ha eq_refl).
  rewrite <- !(obtener_regla_activa_de_acuerdo _ bd bd' "TIEMPO_MINIMO" _ Ha eq_refl).
  rewrite <- !(obtener_regla_activa_de_acuerdo _ bd bd' "TIEMPO_MAXIMO" _ Ha eq_refl).
  repeat first
    [ rewrite !paso_ret | rewrite !paso_raise | rewrite !paso_bind
    | rewrite !paso_lift | rewrite !paso_if
    | match goal with
      | |- context [if ?c then _ else _] => destruct c
      | |- context [match ?r with Ok _ => _ | Raise _ => _ end] => destruct r
      end
    | (eexists; split; reflexivity) ].
  all: rewrite !paso_inerte;
    [ eexists; split; reflexivity | .. ];
    intros rol w0;
    (destruct (obtener_regla_activa _ _ rol) as [regla|]; [|reflexivity]);
    unfold try_except; destruct (obtener_valor regla); try reflexivity;
    unfold bind, lift, raise, ret;
    repeat match goal with
           | |- context [lower_todos ?l] => destruct (lower_todos l)
           | |- context [en_lista ?a ?b] => destruct (en_lista a b)
           | |- context [existsb ?f ?l] => destruct (existsb f l)
           end; reflexivity.
Qed.

Lemma para_cada_sin_estado {S A} (g : A -> ST S unit) (l : list A) (w : S) :
  (forall a w0, exists r, g a w0 = (r, w0)) ->
  exists r, para_cada g l w = (r, w).
Proof.
  intros H. induction l as [|x t IH]; simpl; [eexists; reflexivity|].
  unfold bind. destruct (H x w) as [[[]|e] ->]; [exact IH|eexists; reflexivity].
Qed.

Lemma validate_segun_reglas ctx attrs bd bd' k :
  de_acuerdo_salvo ["DIAS_BLACKOUT"; "HORAS_BLACKOUT"; "SERVICIOS_RESTRINGIDOS"] bd bd' ->
  exists r,
    validate request_user ctx attrs {| m_bd := bd; m_ticks := k |}
      = (r, {| m_bd := bd; m_ticks := k |}) /\
    validate request_user ctx attrs {| m_bd := bd'; m_ticks := k |}
      = (r, {| m_bd := bd'; m_ticks := k |}).
Proof.
  intros Ha. unfold validate. destruct ctx as [reserva|];
    [|eexists; split; reflexivity].
  cbv zeta. rewrite !paso_if, !paso_raise, !paso_ret.
  destruct (existsb _ _); [eexists; split; reflexivity|].
  rewrite !paso_leer_bd. cbn [m_bd m_ticks].
  rewrite <- !(primera_regla_de_acuerdo _ bd bd' "LIMITE_REPROGRAMACIONES" _ Ha eq_refl).
  rewrite <- !(obtener_regla_activa_de_acuerdo _ bd bd' "LIMITE_REPROGRAMACIONES" _ Ha eq_refl).
  repeat first
    [ rewrite !paso_ret | rewrite !paso_raise | rewrite !paso_bind
    | rewrite !paso_lift | rewrite !paso_if
    | match goal with
      | |- context [if ?c then _ else _] => destruct c
      | |- context [match ?r with Ok _ => _ | Raise _ => _ end] => destruct r
      end
    | (eexists; split; reflexivity) ].
  all: rewrite !paso_inerte;
    [ eexists; split; reflexivity | .. ];
    intros rol w0;
    (destruct (obtener_regla_activa _ _ rol) as [regla|]; [|reflexivity]);
    unfold try_except; destruct (obtener_valor regla) as [| | | | |l|];
    try reflexivity;
    match goal with
    | |- context [para_cada ?g ?t w0] =>
        destruct (para_cada_sin_estado g t w0) as [[[]|e] ->];
        [ intros ? ?; destruct (existsb _ _); eexists; reflexivity
        | reflexivity | reflexivity ]
    end.
Qed.

(** X15.  The serializer of a rescheduling request never refuses a request
    because of a rule of type DIAS_BLACKOUT, HORAS_BLACKOUT or
    SERVICIOS_RESTRINGIDOS: the errors that its three loops over these rules
    raise are caught by the bare [except] around them.  Two tables that
    differ only in rules of these three types give the same outcome, on the
    same clock, for every request, booking and caller. *)
Theorem X15_el_serializador_ignora_blackout (ctx : option Reserva) (data : Datos) (bd bd' : BD) (k : nat) :
  de_acuerdo_salvo
    ["DIAS_BLACKOUT"; "HORAS_BLACKOUT"; "SERVICIOS_RESTRINGIDOS"] bd bd' ->
  fst (is_valid request_user ctx data {| m_bd := bd; m_ticks := k |})
  = fst (is_valid request_user ctx data {| m_bd := bd'; m_ticks := k |}).
Proof.
  intros Ha. unfold is_valid, bind, capturar.
  destruct (vnf_segun_reglas (nueva_fecha data) bd bd' k Ha)
    as (r & -> & ->).
  destruct r as [value|e].
  - destruct (match d_motivo data with Some _ => _ | None => _ end).
    + destruct (validate_segun_reglas ctx
                  {| nueva_fecha := value; d_motivo := d_motivo data |}
                  bd bd' (S k) Ha) as (r & -> & ->).
      reflexivity.
    + reflexivity.
  - destruct e; reflexivity.
Qed.

Lemma validate_nueva_fecha_Ok_inv value w v w' :
  validate_nueva_fecha request_user value w = (Ok v, w') ->
  let ahora := reloj (m_ticks w) in
  let roles := (roles_de_request request_user ++ ["ALL"])%list in
  let valor_de tipo defecto :=
    por_defecto
      match primera_regla (m_bd w) tipo roles with
      | Some (_, regla) => obtener_valor regla
      | None => VNone
      end defecto in
  ahora < utc value /\
  (forall td,
     es_numero (valor_de "TIEMPO_MINIMO" (VInt 24)) = true ->
     timedelta_horas (valor_de "TIEMPO_MINIMO" (VInt 24)) = Ok td ->
     ahora + td < utc value) /\
  (forall td,
     es_numero (valor_de "TIEMPO_MAXIMO" (VInt (365 * 24))) = true ->
     timedelta_horas (valor_de "TIEMPO_MAXIMO" (VInt (365 * 24))) = Ok td ->
     utc value <= ahora + td).
Proof.
  unfold validate_nueva_fecha. cbv zeta. intros H.
  apply bind_inv in H. destruct H as (ahora & w1 & Ha & H).
  unfold ahora_mundo in Ha. injection Ha as <- <-.
  apply bind_inv in H. destruct H as ([] & w2 & H2 & H).
  unfold dt_le in H2. cbn [utc] in H2.
  destruct (utc value <=? reloj (m_ticks w)) eqn:E1; [discriminate|].
  unfold ret in H2. injection H2 as <-. apply Z.leb_gt in E1.
  apply bind_inv in H. destruct H as (bd & w3 & Hb & H).
  unfold leer_bd in Hb. cbn [m_bd] in Hb. injection Hb as <- <-.
  apply bind_inv in H. destruct H as ([] & w4 & H4 & H).
  apply bind_inv in H. destruct H as ([] & w5 & H5 & _).
  split; [exact E1|]. split.
  - intros td Hn Ht. rewrite Hn in H4.
    apply bind_inv in H4. destruct H4 as (td' & w6 & Htd & H4).
    unfold lift in Htd. rewrite Ht in Htd. injection Htd as <- <-.
    apply bind_inv in H4. destruct H4 as (lim & w7 & Hl & H4).
    unfold lift in Hl. injection Hl as Hl <-. apply dt_mas_Ok in Hl.
    cbn [utc] in Hl. unfold dt_le in H4.
    destruct (utc value <=? utc lim) eqn:E; [discriminate|].
    apply Z.leb_gt in E. lia.
  - intros td Hn Ht. rewrite Hn in H5.
    apply bind_inv in H5. destruct H5 as (td' & w6 & Htd & H5).
    unfold lift in Htd. rewrite Ht in Htd. injection Htd as <- <-.
    apply bind_inv in H5. destruct H5 as (lim & w7 & Hl & H5).
    unfold lift in Hl. injection Hl as Hl <-. apply dt_mas_Ok in Hl.
    cbn [utc] in Hl. unfold dt_lt in H5.
    destruct (utc lim <? utc value) eqn:E; [discriminate|].
    apply Z.ltb_ge in E. lia.
Qed.

Lemma validate_Ok_inv reserva attrs w v w' :
  validate request_user (Some reserva) attrs w = (Ok v, w') ->
  let roles := (roles_de_request request_user ++ ["ALL"])%list in
  let limite :=
    por_defecto
      match primera_regla (m_bd w) "LIMITE_REPROGRAMACIONES" roles with
      | Some (_, regla) => obtener_valor regla
      | None => VNone
      end (VInt 3) in
  estado reserva <> CANCELADA /\
  (forall n, es_numero limite = true -> int_py limite = Ok n ->
             numero_reprogramaciones reserva < n) /\
  date (nueva_fecha attrs) <> date (fecha_inicio reserva).
Proof.
  unfold validate. cbv zeta. intros H.
  apply bind_inv in H. destruct H as ([] & w1 & H1 & H).
  assert (Hc : estado reserva <> CANCELADA /\ w1 = w).
  { destruct (estado reserva); simpl in H1; try discriminate;
      unfold ret in H1; injection H1 as <-; split; congruence. }
  destruct Hc as [Hc ->].
  apply bind_inv in H. destruct H as (bd & w3 & Hb & H).
  unfold leer_bd in Hb. injection Hb as <- <-.
  apply bind_inv in H. destruct H as ([] & w4 & H4 & H).
  apply bind_inv in H. destruct H as ([] & w5 & H5 & _).
  split; [exact Hc|]. split.
  - intros n Hn Hi. rewrite Hn in H4.
    apply bind_inv in H4. destruct H4 as (n' & w6 & Hn' & H4).
    unfold lift in Hn'. rewrite Hi in Hn'. injection Hn' as <- <-.
    destruct (n <=? numero_reprogramaciones reserva) eqn:E; [discriminate|].
    apply Z.leb_gt in E. exact E.
  - destruct (date (nueva_fecha attrs) =? date (fecha_inicio reserva)) eqn:E;
      [discriminate|]. apply Z.eqb_neq in E. exact E.
Qed.


(** What [is_valid] checked when it accepts a request for a booking. *)
Lemma is_valid_Ok_inv reserva data w v w' :
  is_valid request_user (Some reserva) data w = (Ok v, w') ->
  let ahora := reloj (m_ticks w) in
  let roles := (roles_de_request request_user ++ ["ALL"])%list in
  let valor_de tipo defecto :=
    por_defecto
      match primera_regla (m_bd w) tipo roles with
      | Some (_, regla) => obtener_valor regla
      | None => VNone
      end defecto in
  ahora < utc (nueva_fecha data) /\
  (forall td,
     es_numero (valor_de "TIEMPO_MINIMO" (VInt 24)) = true ->
     timedelta_horas (valor_de "TIEMPO_MINIMO" (VInt 24)) = Ok td ->
     ahora + td < utc (nueva_fecha data)) /\
  (forall td,
     es_numero (valor_de "TIEMPO_MAXIMO" (VInt (365 * 24))) = true ->
     timedelta_horas (valor_de "TIEMPO_MAXIMO" (VInt (365 * 24))) = Ok td ->
     utc (nueva_fecha data) <= ahora + td) /\
  estado reserva <> CANCELADA /\
  (forall n,
     es_numero (valor_de "LIMITE_REPROGRAMACIONES" (VInt 3)) = true ->
     int_py (valor_de "LIMITE_REPROGRAMACIONES" (VInt 3)) = Ok n ->
     numero_reprogramaciones reserva < n) /\
  date (nueva_fecha data) <> date (fecha_inicio reserva) /\
  (forall m, d_motivo data = Some m -> (len m <= 500)%nat) /\
  nueva_fecha v = nueva_fecha data /\ d_motivo v = d_motivo data /\
  w' = {| m_bd := m_bd w; m_ticks := S (m_ticks w) |}.
Proof.
  intros H. cbv zeta. unfold is_valid in H.
  apply bind_inv in H. destruct H as (r & w1 & Hc & H). cbv zeta in H.
  unfold capturar in Hc.
  destruct (validate_nueva_fecha request_user (nueva_fecha data) w)
    as [[x|e] w2] eqn:E.
  2:{ destruct e; try discriminate. injection Hc as <- <-. discriminate. }
  injection Hc as <- <-.
  pose proof (validate_nueva_fecha_Ok _ _ _ _ _ E) as ->.
  destruct (vnf_segun_reglas (nueva_fecha data) (m_bd w) (m_bd w) (m_ticks w)
              eq_refl) as (r0 & Hr0 & _).
  assert (Hw : {| m_bd := m_bd w; m_ticks := m_ticks w |} = w)
    by (destruct w; reflexivity).
  rewrite Hw, E in Hr0. injection Hr0 as _ ->.
  destruct (validate_nueva_fecha_Ok_inv _ _ _ _ E) as (H1 & H2 & H3).
  assert (Hm : forall m, d_motivo data = Some m ->
                         (len m <= 500)%nat).
  { intros m Hm. rewrite Hm in H.
    destruct (Nat.ltb 500 (len m)) eqn:El; [discriminate|].
    apply Nat.ltb_ge in El. exact El. }
  assert (Hv : validate request_user (Some reserva)
                 {| nueva_fecha := nueva_fecha data;
                    d_motivo := d_motivo data |}
                 {| m_bd := m_bd w; m_ticks := S (m_ticks w) |}
               = (Ok v, w')).
  { destruct (d_motivo data) as [m|]; [|exact H].
    destruct (Nat.ltb 500 (len m)); [discriminate|exact H]. }
  destruct (validate_Ok_inv _ _ _ _ _ Hv) as (H4 & H5 & H6).
  pose proof (validate_Ok _ _ _ _ _ _ Hv) as ->.
  destruct (validate_segun_reglas (Some reserva)
              {| nueva_fecha := nueva_fecha data; d_motivo := d_motivo data |}
              (m_bd w) (m_bd w) (S (m_ticks w)) eq_refl) as (r1 & Hr1 & _).
  rewrite Hv in Hr1. injection Hr1 as _ ->.
  cbn [m_bd nueva_fecha d_motivo] in *.
  repeat split; auto.
Qed.

(** X16.  What an accepted request has passed.  When the serializer accepts
    a request for a booking, on the reading of the clock that it takes: the
    candidate is after the reading; it is later than the reading plus the
    minimum lead time, and no later than the reading plus the maximum lead
    time, where each lead time is the numeric value of the governing rule of
    the caller or, when no rule governs or the rule has no value, 24 hours
    and 365 days; the booking is not cancelled; it was rescheduled fewer times
    than the limit, which is the value of the governing rule or 3; the date
    of the candidate, read in the zone in which the request delivers it,
    differs from the date of the booking's start, read in the zone of the
    value held by the booking (UTC for a booking read from the database);
    and the reason given has at most 500 characters, however many bytes they
    take. *)
Theorem X16_lo_que_pasa_una_solicitud_aceptada (reserva : Reserva)
  (data : Datos) (w : Mundo) (v : Datos) (w' : Mundo) :
  is_valid request_user (Some reserva) data w = (Ok v, w') ->
  let ahora := reloj (m_ticks w) in
  let roles := (roles_de_request request_user ++ ["ALL"])%list in
  let valor_de tipo defecto :=
    por_defecto
      match primera_regla (m_bd w) tipo roles with
      | Some (_, regla) => obtener_valor regla
      | None => VNone
      end defecto in
  ahora < utc (nueva_fecha data) /\
  (forall td,
     es_numero (valor_de "TIEMPO_MINIMO" (VInt 24)) = true ->
     timedelta_horas (valor_de "TIEMPO_MINIMO" (VInt 24)) = Ok td ->
     ahora + td < utc (nueva_fecha data)) /\
  (forall td,
     es_numero (valor_de "TIEMPO_MAXIMO" (VInt (365 * 24))) = true ->
     timedelta_horas (valor_de "TIEMPO_MAXIMO" (VInt (365 * 24))) = Ok td ->
     utc (nueva_fecha data) <= ahora + td) /\
  estado reserva <> CANCELADA /\
  (forall n,
     es_numero (valor_de "LIMITE_REPROGRAMACIONES" (VInt 3)) = true ->
     int_py (valor_de "LIMITE_REPROGRAMACIONES" (VInt 3)) = Ok n ->
     numero_reprogramaciones reserva < n) /\
  date (nueva_fecha data) <> date (fecha_inicio reserva) /\
  (forall m, d_motivo data = Some m -> (len m <= 500)%nat).
Proof.
  intros H. cbv zeta.
  destruct (is_valid_Ok_inv _ _ _ _ _ H)
    as (H1 & H2 & H3 & H4 & H5 & H6 & H7 & _).
  repeat split; assumption.
Qed.

End Serializador.

(** ** The endpoints: who may reschedule and what is written *)

Section ConsultaDelUsuario.
Import models views.

Lemma get_queryset_In (request_user : option Usuario) bd r :
  In r (get_queryset request_user bd) -> In r (reservas bd).
Proof.
  unfold get_queryset. cbv zeta. destruct (_ || _)%bool; [exact (fun H => H)|].
  destruct (en_lista _ _); [|intros []].
  intros H. apply filter_In in H. exact (proj1 H).
Qed.

End ConsultaDelUsuario.

Section Extremos.
Import models serializers views.
Context `{RT : Runtime}.
Variable _is_fecha_disponible : BD -> datetime -> Reserva -> res bool.
Variable _verificar_disponibilidad_completa : BD -> datetime -> Reserva -> bool.
Variable _verificar_cambio_precio : BD -> datetime -> Reserva -> CambioPrecio.
Variable notificar_cliente : Reserva -> datetime -> string -> bool.
Variable notificar_administrador :
  Reserva -> datetime -> option Usuario -> string -> bool.
Variable request_user : option Usuario.

Lemma motivo_de_validado (v data : Datos) :
  d_motivo v = d_motivo data -> motivo_validado v = motivo_validado data.
Proof. unfold motivo_validado. intros ->. reflexivity. Qed.


Lemma reprogramar_Ok_inv pk data w resp w' :
  reprogramar _is_fecha_disponible notificar_cliente notificar_administrador
    request_user pk data w = (Ok resp, w') ->
  exists reserva v w1,
    tiene_rol (get_user_roles request_user) ["ADMIN"; "OPERADOR"; "CLIENTE"]
      = true /\
    find (fun r => id r =? pk) (get_queryset request_user (m_bd w))
      = Some reserva /\
    (en_lista "CLIENTE" (get_user_roles request_user)
     && negb (es_del_usuario request_user reserva))%bool = false /\
    is_valid request_user (Some reserva) data w = (Ok v, w1) /\
    ((resp = FechaNoDisponible /\ m_bd w' = m_bd w) \/
     exists r' c so,
       resp = Reprogramada r' c so /\
       reprogramacion_escrita request_user pk data w w' reserva r' c so /\
       total r' = total reserva).
Proof.
  unfold reprogramar. cbv zeta. intros H.
  apply bind_inv in H. destruct H as ([] & w0 & H0 & H).
  destruct (tiene_rol _ _) eqn:Hrol; simpl in H0; [|discriminate].
  unfold ret in H0. injection H0 as <-.
  apply bind_inv in H. destruct H as (bd & w1 & Hb & H).
  unfold leer_bd in Hb. injection Hb as <- <-.
  destruct (find _ _) as [reserva|] eqn:Ef; [|discriminate].
  pose proof Ef as Ef'.
  apply find_some in Ef. destruct Ef as [Hin Hid].
  apply get_queryset_In in Hin. apply Z.eqb_eq in Hid.
  apply bind_inv in H. destruct H as ([] & w2 & H2 & H).
  destruct (_ && _)%bool eqn:Hcli; [discriminate|].
  unfold ret in H2. injection H2 as <-.
  apply bind_inv in H. destruct H as (validated & w3 & Hv & H).
  destruct (is_valid_Ok_inv _ _ _ _ _ _ Hv)
    as (_ & _ & _ & _ & _ & _ & _ & Hnf & Hmo & ->).
  apply motivo_de_validado in Hmo.
  apply bind_inv in H. destruct H as (bd2 & w4 & Hb & H).
  unfold leer_bd in Hb. injection Hb as <- <-.
  apply bind_inv in H. destruct H as (libre & w5 & Hl & H).
  unfold lift in Hl. injection Hl as _ <-.
  exists reserva, validated, {| m_bd := m_bd w; m_ticks := S (m_ticks w) |}.
  split; [first [reflexivity|assumption]|].
  split; [first [reflexivity|assumption]|].
  split; [first [reflexivity|assumption]|].
  split; [exact Hv|].
  destruct libre; cbn [negb] in H.
  2:{ unfold ret in H. injection H as <- <-. left. split; reflexivity. }
  apply bind_inv in H. destruct H as (ahora & w6 & Ha & H).
  unfold ahora_mundo in Ha. injection Ha as <- <-.
  apply bind_inv in H. destruct H as (creado & w7 & Ha & H).
  unfold ahora_mundo in Ha. injection Ha as <- <-.
  apply bind_inv in H. destruct H as ([] & w8 & He & H).
  unfold escribir_bd in He. injection He as <-.
  unfold ret in H. injection H as <- <-.
  right. eexists _, _, _. split; [reflexivity|]. split; [|reflexivity].
  unfold reprogramacion_escrita. cbn. rewrite Hnf, Hmo, Hid.
  repeat split; auto.
  eexists. split; [reflexivity|]. cbn. rewrite ?Hnf, ?Hmo. repeat split; auto.
Qed.

Lemma post_Ok_inv pk data w resp w' :
  post _verificar_disponibilidad_completa _verificar_cambio_precio
    notificar_cliente notificar_administrador request_user pk data w
    = (Ok resp, w') ->
  exists reserva v w1,
    tiene_rol (get_user_roles request_user) ["ADMIN"; "OPERADOR"; "CLIENTE"]
      = true /\
    find (fun r => id r =? pk) (reservas (m_bd w)) = Some reserva /\
    (en_lista "CLIENTE" (get_user_roles request_user)
     && negb (es_del_usuario request_user reserva))%bool = false /\
    is_valid request_user (Some reserva) data w = (Ok v, w1) /\
    ((resp = FechaNoDisponible /\ m_bd w' = m_bd w) \/
     exists r' c so,
       resp = Reprogramada r' c so /\
       reprogramacion_escrita request_user pk data w w' reserva r' c so /\
       total r'
       = if cambio (_verificar_cambio_precio (m_bd w) (nueva_fecha data)
                      reserva)
         then nuevo_total (_verificar_cambio_precio (m_bd w)
                             (nueva_fecha data) reserva)
         else total reserva).
Proof.
  unfold post. cbv zeta. intros H.
  apply bind_inv in H. destruct H as (bd & w1 & Hb & H).
  unfold leer_bd in Hb. injection Hb as <- <-.
  destruct (find _ _) as [reserva|] eqn:Ef; [|discriminate].
  pose proof Ef as Ef'.
  apply find_some in Ef. destruct Ef as [Hin Hid]. apply Z.eqb_eq in Hid.
  apply bind_inv in H. destruct H as ([] & w0 & H0 & H).
  destruct (tiene_rol _ _) eqn:Hrol; simpl in H0; [|discriminate].
  unfold ret in H0. injection H0 as <-.
  apply bind_inv in H. destruct H as ([] & w2 & H2 & H).
  destruct (_ && _)%bool eqn:Hcli; [discriminate|].
  unfold ret in H2. injection H2 as <-.
  apply bind_inv in H. destruct H as (validated & w3 & Hv & H).
  destruct (is_valid_Ok_inv _ _ _ _ _ _ Hv)
    as (_ & _ & _ & _ & _ & _ & _ & Hnf & Hmo & ->).
  apply motivo_de_validado in Hmo.
  apply bind_inv in H. destruct H as (bd2 & w4 & Hb & H).
  unfold leer_bd in Hb. injection Hb as <- <-.
  exists reserva, validated, {| m_bd := m_bd w; m_ticks := S (m_ticks w) |}.
  split; [first [reflexivity|assumption]|].
  split; [first [reflexivity|assumption]|].
  split; [first [reflexivity|assumption]|].
  split; [exact Hv|].
  cbn [m_bd] in H.
  destruct (_verificar_disponibilidad_completa _ _ _); cbn [negb] in H.
  2:{ unfold ret in H. injection H as <- <-. left. split; reflexivity. }
  apply bind_inv in H. destruct H as (ahora & w6 & Ha & H).
  unfold ahora_mundo in Ha. injection Ha as <- <-.
  apply bind_inv in H. destruct H as (creado & w7 & Ha & H).
  unfold ahora_mundo in Ha. injection Ha as <- <-.
  apply bind_inv in H. destruct H as ([] & w8 & He & H).
  unfold escribir_bd in He. injection He as <-.
  unfold ret in H. injection H as <- <-.
  right. eexists _, _, _. split; [reflexivity|].
  split; [|cbn; rewrite Hnf; reflexivity].
  unfold reprogramacion_escrita. cbn. rewrite Hnf, Hmo, Hid.
  repeat split; auto.
  eexists. split; [reflexivity|]. cbn. rewrite ?Hnf, ?Hmo. repeat split; auto.
Qed.

Lemma reprogramar_sin_exito pk data w out w' :
  reprogramar _is_fecha_disponible notificar_cliente notificar_administrador
    request_user pk data w = (out, w') ->
  (forall r c so, out <> Ok (Reprogramada r c so)) ->
  m_bd w' = m_bd w.
Proof.
  unfold reprogramar. cbv zeta. intros H Hno.
  rewrite paso_if, paso_raise, paso_ret in H.
  destruct (negb _); [injection H as _ <-; reflexivity|].
  rewrite paso_leer_bd in H.
  destruct (find _ _) as [reserva|]; [|injection H as _ <-; reflexivity].
  rewrite paso_if, paso_raise, paso_ret in H.
  destruct (_ && _)%bool; [injection H as _ <-; reflexivity|].
  unfold bind at 1 in H.
  pose proof (cb_is_valid request_user (Some reserva) data w) as Hb.
  destruct (is_valid request_user (Some reserva) data w) as [[v|e] w3];
    simpl in Hb; [|injection H as _ <-; exact Hb].
  rewrite paso_leer_bd, paso_lift in H.
  destruct (_is_fecha_disponible _ _ _) as [libre|e];
    [|injection H as _ <-; exact Hb].
  destruct (negb libre); [injection H as _ <-; exact Hb|].
  rewrite !paso_ahora in H. unfold bind, escribir_bd, ret in H.
  injection H as <- _. exfalso. eapply Hno. reflexivity.
Qed.

Lemma post_sin_exito pk data w out w' :
  post _verificar_disponibilidad_completa _verificar_cambio_precio
    notificar_cliente notificar_administrador request_user pk data w
    = (out, w') ->
  (forall r c so, out <> Ok (Reprogramada r c so)) ->
  m_bd w' = m_bd w.
Proof.
  unfold post. cbv zeta. intros H Hno.
  rewrite paso_leer_bd in H.
  destruct (find _ _) as [reserva|]; [|injection H as _ <-; reflexivity].
  rewrite paso_if, paso_raise, paso_ret in H.
  destruct (negb _); [injection H as _ <-; reflexivity|].
  rewrite paso_if, paso_raise, paso_ret in H.
  destruct (_ && _)%bool; [injection H as _ <-; reflexivity|].
  unfold bind at 1 in H.
  pose proof (cb_is_valid request_user (Some reserva) data w) as Hb.
  destruct (is_valid request_user (Some reserva) data w) as [[v|e] w3];
    simpl in Hb; [|injection H as _ <-; exact Hb].
  rewrite paso_leer_bd in H.
  destruct (negb _); [injection H as _ <-; exact Hb|].
  rewrite !paso_ahora in H. unfold bind, escribir_bd, ret in H.
  injection H as <- _. exfalso. eapply Hno. reflexivity.
Qed.


Lemma find_ninguno {A} (p : A -> bool) (l : list A) :
  (forall x, In x l -> p x = false) -> find p l = None.
Proof.
  induction l as [|y t IH]; intros H; simpl; [reflexivity|].
  rewrite (H y (or_introl eq_refl)). apply IH. intros x Hx. apply H. now right.
Qed.

(** X17.  Who can reschedule.  A request that either endpoint answers (with
    the rescheduled booking or with the date not being free) comes from a
    caller with one of the roles ADMIN, OPERADOR and CLIENTE, for a booking
    of the table; and when the caller has the role CLIENTE the booking is
    their own, whatever other role they have.  For a caller whose only role of
    the three is CLIENTE and a booking of someone else, the action of the
    booking view set answers Not Found and the rescheduling view answers
    Permission Denied, and both leave the tables and the clock as they
    were. *)
Theorem X17_quien_puede_reprogramar (pk : Z) (data : Datos) (w : Mundo) :
  let roles := get_user_roles request_user in
  (forall resp w',
     reprogramar _is_fecha_disponible notificar_cliente
       notificar_administrador request_user pk data w = (Ok resp, w') \/
     post _verificar_disponibilidad_completa _verificar_cambio_precio
       notificar_cliente notificar_administrador request_user pk data w
       = (Ok resp, w') ->
     tiene_rol roles ["ADMIN"; "OPERADOR"; "CLIENTE"] = true /\
     exists reserva,
       In reserva (reservas (m_bd w)) /\ id reserva = pk /\
       (en_lista "CLIENTE" roles = true ->
        exists u, request_user = Some u /\ usuario reserva = usuario_id u)) /\
  (en_lista "CLIENTE" roles = true ->
   en_lista "ADMIN" roles = false -> en_lista "OPERADOR" roles = false ->
   (exists r, In r (reservas (m_bd w)) /\ id r = pk) ->
   (forall r, In r (reservas (m_bd w)) -> id r = pk ->
              es_del_usuario request_user r = false) ->
   reprogramar _is_fecha_disponible notificar_cliente
     notificar_administrador request_user pk data w = (Raise Http404, w) /\
   post _verificar_disponibilidad_completa _verificar_cambio_precio
     notificar_cliente notificar_administrador request_user pk data w
   = (Raise (PermissionDenied
               "No puedes reprogramar una reserva que no es tuya."), w)).
Proof.
  cbv zeta. split.
  - assert (Hdue : forall reserva,
      (en_lista "CLIENTE" (get_user_roles request_user)
       && negb (es_del_usuario request_user reserva))%bool = false ->
      en_lista "CLIENTE" (get_user_roles request_user) = true ->
      exists u, request_user = Some u /\ usuario reserva = usuario_id u).
    { intros reserva Hc Hcli. rewrite Hcli in Hc. simpl in Hc.
      apply negb_false_iff in Hc. unfold es_del_usuario in Hc.
      destruct request_user as [u|]; [|discriminate].
      exists u. split; [reflexivity|]. apply Z.eqb_eq. exact Hc. }
    intros resp w' [H|H].
    + destruct (reprogramar_Ok_inv _ _ _ _ _ H)
        as (reserva & v & w1 & Hrol & Hf & Hc & _).
      split; [exact Hrol|]. exists reserva.
      apply find_some in Hf. destruct Hf as [Hin Hid].
      apply get_queryset_In in Hin. apply Z.eqb_eq in Hid.
      repeat split; auto.
    + destruct (post_Ok_inv _ _ _ _ _ H)
        as (reserva & v & w1 & Hrol & Hf & Hc & _).
      split; [exact Hrol|]. exists reserva.
      apply find_some in Hf. destruct Hf as [Hin Hid]. apply Z.eqb_eq in Hid.
      repeat split; auto.
  - intros Hcli Hadm Hop (r0 & Hin0 & Hid0) Hajena.
    assert (Hrol : tiene_rol (get_user_roles request_user)
                     ["ADMIN"; "OPERADOR"; "CLIENTE"] = true).
    { unfold tiene_rol. simpl. rewrite Hcli, Hadm, Hop. reflexivity. }
    split.
    + unfold reprogramar. cbv zeta. rewrite Hrol. simpl negb. cbv iota.
      rewrite paso_ret, paso_leer_bd.
      assert (Hn : find (fun r => id r =? pk)
                     (get_queryset request_user (m_bd w)) = None).
      { apply find_ninguno. intros x Hx. unfold get_queryset in Hx.
        cbv zeta in Hx. rewrite Hadm, Hop, Hcli in Hx. simpl in Hx.
        apply filter_In in Hx. destruct Hx as [Hx Hd].
        destruct (id x =? pk) eqn:E; [|reflexivity].
        apply Z.eqb_eq in E. rewrite (Hajena x Hx E) in Hd. discriminate. }
      rewrite Hn. reflexivity.
    + unfold post. cbv zeta. rewrite paso_leer_bd.
      destruct (find (fun r => id r =? pk) (reservas (m_bd w)))
        as [reserva|] eqn:Ef.
      * apply find_some in Ef. destruct Ef as [Hin Hid].
        apply Z.eqb_eq in Hid.
        rewrite Hrol. simpl negb. cbv iota. rewrite paso_ret.
        rewrite Hcli, (Hajena reserva Hin Hid). reflexivity.
      * apply (find_none _ _ Ef) in Hin0. apply Z.eqb_neq in Hin0.
        congruence.
Qed.

(** X18.  What a rescheduling writes.  When either endpoint answers with the
    rescheduled booking: the booking was in the table under the id asked, it
    was not cancelled, and the candidate was after the reading of the clock;
    the object saved has the candidate as its start, the state REPROGRAMADA,
    one more rescheduling counted, the caller as the one who rescheduled, the
    second reading of the clock as the time of rescheduling, and the owner and
    the detail lines of before; the rules are untouched; the row of the
    object, with its instants in UTC, takes the place of the booking's row
    and the other bookings are untouched; and the history has exactly one
    more row, with the instants of the old and the new start, the caller, the
    reason and the conjunction of the two notification flags.  The action of
    the view set keeps the total; the rescheduling view replaces it when the
    price check says so. *)
Theorem X18_lo_que_escribe_una_reprogramacion (pk : Z) (data : Datos)
  (w : Mundo) (r' : Reserva) (c so : bool) (w' : Mundo) :
  (reprogramar _is_fecha_disponible notificar_cliente
     notificar_administrador request_user pk data w
   = (Ok (Reprogramada r' c so), w') ->
   exists reserva,
     reprogramacion_escrita request_user pk data w w' reserva r' c so /\
     total r' = total reserva /\
     estado reserva <> CANCELADA /\
     reloj (m_ticks w) < utc (nueva_fecha data)) /\
  (post _verificar_disponibilidad_completa _verificar_cambio_precio
     notificar_cliente notificar_administrador request_user pk data w
   = (Ok (Reprogramada r' c so), w') ->
   exists reserva,
     reprogramacion_escrita request_user pk data w w' reserva r' c so /\
     total r'
     = (if cambio (_verificar_cambio_precio (m_bd w) (nueva_fecha data)
                     reserva)
        then nuevo_total (_verificar_cambio_precio (m_bd w)
                            (nueva_fecha data) reserva)
        else total reserva) /\
     estado reserva <> CANCELADA /\
     reloj (m_ticks w) < utc (nueva_fecha data)).
Proof.
  split; intros H.
  - destruct (reprogramar_Ok_inv _ _ _ _ _ H)
      as (reserva & v & w1 & _ & _ & _ & Hv
          & [[Hno _]|(r0 & c0 & so0 & Hr & He & Ht)]); [discriminate|].
    injection Hr as <- <- <-.
    destruct (is_valid_Ok_inv _ _ _ _ _ _ Hv) as (H1 & _ & _ & H4 & _).
    exists reserva. split; [exact He|]. split; [exact Ht|]. split; assumption.
  - destruct (post_Ok_inv _ _ _ _ _ H)
      as (reserva & v & w1 & _ & _ & _ & Hv
          & [[Hno _]|(r0 & c0 & so0 & Hr & He & Ht)]); [discriminate|].
    injection Hr as <- <- <-.
    destruct (is_valid_Ok_inv _ _ _ _ _ _ Hv) as (H1 & _ & _ & H4 & _).
    exists reserva. split; [exact He|]. split; [exact Ht|]. split; assumption.
Qed.

(** X19.  All or nothing.  Whatever either endpoint answers or raises, other
    than the rescheduled booking, the tables are left as they were. *)
Theorem X19_sin_exito_nada_cambia (pk : Z) (data : Datos) (w : Mundo)
  (out : res Respuesta) (w' : Mundo) :
  reprogramar _is_fecha_disponible notificar_cliente
    notificar_administrador request_user pk data w = (out, w') \/
  post _verificar_disponibilidad_completa _verificar_cambio_precio
    notificar_cliente notificar_administrador request_user pk data w
    = (out, w') ->
  (forall r c so, out <> Ok (Reprogramada r c so)) ->
  m_bd w' = m_bd w.
Proof.
  intros [H|H] Hno.
  - eapply reprogramar_sin_exito; eauto.
  - eapply post_sin_exito; eauto.
Qed.


Lemma reprogramar_de_cancelada pk data w out w' :
  (forall x, In x (reservas (m_bd w)) -> id x = pk -> estado x = CANCELADA) ->
  reprogramar _is_fecha_disponible notificar_cliente
    notificar_administrador request_user pk data w = (out, w') \/
  post _verificar_disponibilidad_completa _verificar_cambio_precio
    notificar_cliente notificar_administrador request_user pk data w
    = (out, w') ->
  (exists e, out = Raise e) /\ m_bd w' = m_bd w.
Proof.
  intros Hcan H.
  assert (Hno : forall resp, out <> Ok resp).
  { intros resp ->. destruct H as [H|H].
    - destruct (reprogramar_Ok_inv _ _ _ _ _ H)
        as (reserva & v & w1 & _ & Hf & _ & Hv & _).
      destruct (is_valid_Ok_inv _ _ _ _ _ _ Hv) as (_ & _ & _ & H4 & _).
      apply find_some in Hf. destruct Hf as [Hin Hid].
      apply get_queryset_In in Hin. apply Z.eqb_eq in Hid.
      exact (H4 (Hcan _ Hin Hid)).
    - destruct (post_Ok_inv _ _ _ _ _ H)
        as (reserva & v & w1 & _ & Hf & _ & Hv & _).
      destruct (is_valid_Ok_inv _ _ _ _ _ _ Hv) as (_ & _ & _ & H4 & _).
      apply find_some in Hf. destruct Hf as [Hin Hid]. apply Z.eqb_eq in Hid.
      exact (H4 (Hcan _ Hin Hid)). }
  split.
  - destruct out as [resp|e]; [destruct (Hno resp eq_refl)|eauto].
  - destruct H as [H|H];
      [eapply reprogramar_sin_exito|eapply post_sin_exito]; eauto.
Qed.

End Extremos.

Section Estados.
Import models serializers views.
Context `{RT : Runtime}.
Variable request_user : option Usuario.

Lemma cambio_de_estado_inv (e : Estado) (m1 m2 : string) pk w r w1 :
  (let roles := get_user_roles request_user in
   (if negb (tiene_rol roles ["ADMIN"; "OPERADOR"; "CLIENTE"])
    then raise (PermissionDenied m1) else ret tt) ;;
   bd <- leer_bd ;;
   match find (fun r => id r =? pk) (get_queryset request_user bd) with
   | None => raise Http404
   | Some reserva =>
       (if (en_lista "CLIENTE" roles
            && negb (es_del_usuario request_user reserva))%bool
        then raise (PermissionDenied m2) else ret tt) ;;
       let reserva' := con_estado e reserva in
       escribir_bd (guardar_reserva reserva' bd) ;;
       ret reserva'
   end) w = (Ok r, w1) ->
  exists reserva,
    tiene_rol (get_user_roles request_user) ["ADMIN"; "OPERADOR"; "CLIENTE"]
      = true /\
    find (fun r => id r =? pk) (get_queryset request_user (m_bd w))
      = Some reserva /\
    (en_lista "CLIENTE" (get_user_roles request_user)
     && negb (es_del_usuario request_user reserva))%bool = false /\
    r = con_estado e reserva /\
    w1 = {| m_bd := guardar_reserva r (m_bd w); m_ticks := m_ticks w |}.
Proof.
  cbv zeta. intros H.
  apply bind_inv in H. destruct H as ([] & w0 & H0 & H).
  destruct (tiene_rol _ _) eqn:Hrol; simpl in H0; [|discriminate].
  unfold ret in H0. injection H0 as <-.
  apply bind_inv in H. destruct H as (bd & w2 & Hb & H).
  unfold leer_bd in Hb. injection Hb as <- <-.
  destruct (find _ _) as [reserva|] eqn:Ef; [|discriminate].
  apply bind_inv in H. destruct H as ([] & w3 & H3 & H).
  destruct (_ && _)%bool eqn:Hcli; [discriminate|].
  unfold ret in H3. injection H3 as <-.
  apply bind_inv in H. destruct H as ([] & w4 & He & H).
  unfold escribir_bd in He. injection He as <-.
  unfold ret in H. injection H as <- <-.
  exists reserva. repeat split; first [reflexivity|assumption].
Qed.

Lemma find_filter_guardar (p : Reserva -> bool) (r' : Reserva)
  (l : list Reserva) :
  p (fila_guardada r') = true ->
  (exists x, In x l /\ id x = id r' /\ p x = true) ->
  find (fun x => id x =? id r')
       (filter p (map (fun x => if id x =? id r' then fila_guardada r' else x)
                      l))
  = Some (fila_guardada r').
Proof.
  intros Hp. induction l as [|y t IH]; intros (x & Hin & Hid & Hpx);
    simpl in *; [tauto|].
  destruct (id y =? id r') eqn:E.
  - rewrite Hp. simpl. rewrite Z.eqb_refl. reflexivity.
  - destruct (p y) eqn:Epy; simpl.
    + rewrite E. apply IH. destruct Hin as [->|Hin]; [|eauto].
      apply Z.eqb_neq in E. congruence.
    + apply IH. destruct Hin as [->|Hin]; [congruence|eauto].
Qed.

Lemma find_queryset_guardar (r' : Reserva) (bd : BD) reserva pk :
  id r' = pk ->
  find (fun r => id r =? pk) (get_queryset request_user bd) = Some reserva ->
  es_del_usuario request_user r' = es_del_usuario request_user reserva ->
  find (fun r => id r =? pk)
       (get_queryset request_user (guardar_reserva r' bd))
  = Some (fila_guardada r').
Proof.
  intros <-. unfold get_queryset. cbv zeta. intros Hf Hd.
  destruct (_ || _)%bool.
  - apply find_some in Hf. destruct Hf as [Hin Hid]. apply Z.eqb_eq in Hid.
    cbn [reservas guardar_reserva]. apply find_guardar. eauto.
  - destruct (en_lista _ _); [|discriminate].
    apply find_some in Hf. destruct Hf as [Hin Hid]. apply Z.eqb_eq in Hid.
    apply filter_In in Hin. destruct Hin as [Hin Hp].
    cbn [reservas guardar_reserva]. apply find_filter_guardar.
    + change (es_del_usuario request_user (fila_guardada r'))
        with (es_del_usuario request_user r').
      rewrite Hd. exact Hp.
    + eauto.
Qed.

Section Colaboradores.
Variable _is_fecha_disponible : BD -> datetime -> Reserva -> res bool.
Variable _verificar_disponibilidad_completa : BD -> datetime -> Reserva -> bool.
Variable _verificar_cambio_precio : BD -> datetime -> Reserva -> CambioPrecio.
Variable notificar_cliente : Reserva -> datetime -> string -> bool.
Variable notificar_administrador :
  Reserva -> datetime -> option Usuario -> string -> bool.

(** X20.  Cancelling closes rescheduling.  When [cancelar] answers, the
    booking asked is saved in state CANCELADA and nothing else changes; and
    from those tables on, at any time and for any caller and any request,
    both rescheduling endpoints raise for that booking and write nothing. *)
Theorem X20_cancelar_cierra_la_reprogramacion (pk : Z) (w : Mundo)
  (r : Reserva) (w1 : Mundo) :
  cancelar request_user pk w = (Ok r, w1) ->
  (exists reserva,
     In reserva (reservas (m_bd w)) /\ id reserva = pk /\
     r = con_estado CANCELADA reserva) /\
  m_bd w1 = guardar_reserva r (m_bd w) /\
  (forall (otro : option Usuario) (data : Datos) (k : nat)
          (out : res Respuesta) (w2 : Mundo),
     reprogramar _is_fecha_disponible notificar_cliente
       notificar_administrador otro pk data
       {| m_bd := m_bd w1; m_ticks := k |} = (out, w2) \/
     post _verificar_disponibilidad_completa _verificar_cambio_precio
       notificar_cliente notificar_administrador otro pk data
       {| m_bd := m_bd w1; m_ticks := k |} = (out, w2) ->
     (exists e, out = Raise e) /\ m_bd w2 = m_bd w1).
Proof.
  intros H. unfold cancelar in H.
  destruct (cambio_de_estado_inv _ _ _ _ _ _ _ H)
    as (reserva & _ & Hf & _ & -> & ->).
  apply find_some in Hf. destruct Hf as [Hin Hid].
  apply get_queryset_In in Hin. apply Z.eqb_eq in Hid.
  split; [exists reserva; auto|]. split; [reflexivity|].
  intros otro data k out w2 Hr.
  apply (reprogramar_de_cancelada _is_fecha_disponible
           _verificar_disponibilidad_completa _verificar_cambio_precio
           notificar_cliente notificar_administrador otro pk data
           {| m_bd := guardar_reserva (con_estado CANCELADA reserva) (m_bd w);
              m_ticks := k |} out w2); [|exact Hr].
  cbn [m_bd guardar_reserva reservas]. intros x Hx Hxid.
  rewrite (In_guardar (con_estado CANCELADA reserva) _ x Hx);
    [reflexivity|]. cbn [id con_estado]. congruence.
Qed.

Lemma cambio_de_estado_bd (e : Estado) (m1 m2 : string) pk w out w1 :
  (let roles := get_user_roles request_user in
   (if negb (tiene_rol roles ["ADMIN"; "OPERADOR"; "CLIENTE"])
    then raise (PermissionDenied m1) else ret tt) ;;
   bd <- leer_bd ;;
   match find (fun r => id r =? pk) (get_queryset request_user bd) with
   | None => raise Http404
   | Some reserva =>
       (if (en_lista "CLIENTE" roles
            && negb (es_del_usuario request_user reserva))%bool
        then raise (PermissionDenied m2) else ret tt) ;;
       let reserva' := con_estado e reserva in
       escribir_bd (guardar_reserva reserva' bd) ;;
       ret reserva'
   end) w = (out, w1) ->
  m_bd w1 = m_bd w \/
  exists reserva,
    In reserva (reservas (m_bd w)) /\
    m_bd w1 = guardar_reserva (con_estado e reserva) (m_bd w).
Proof.
  cbv zeta. intros H.
  rewrite paso_if, paso_raise, paso_ret in H.
  destruct (negb _); [injection H as _ <-; now left|].
  rewrite paso_leer_bd in H.
  destruct (find _ _) as [reserva|] eqn:Ef;
    [|injection H as _ <-; now left].
  apply find_some in Ef. destruct Ef as [Hin _].
  apply get_queryset_In in Hin.
  rewrite paso_if, paso_raise, paso_ret in H.
  destruct (_ && _)%bool; [injection H as _ <-; now left|].
  unfold bind, escribir_bd, ret in H. injection H as _ <-.
  right. exists reserva. split; [exact Hin|reflexivity].
Qed.

Lemma cuenta_tras_cambio_de_estado (e : Estado) reserva bd :
  In reserva (reservas bd) ->
  cuenta_consistente bd ->
  cuenta_consistente (guardar_reserva (con_estado e reserva) bd).
Proof.
  intros Hr Hc x Hx. cbn [guardar_reserva reservas historial] in *.
  apply in_map_iff in Hx. destruct Hx as (y & Hy & Hin).
  destruct (id y =? id (con_estado e reserva)) eqn:E.
  - subst x. cbn [fila_guardada con_estado id numero_reprogramaciones].
    apply Hc. exact Hr.
  - subst x. apply Hc. exact Hin.
Qed.

Lemma cuenta_tras_reprogramar pk data w w' reserva r' c so :
  reprogramacion_escrita request_user pk data w w' reserva r' c so ->
  cuenta_consistente (m_bd w) -> cuenta_consistente (m_bd w').
Proof.
  intros (Hin & Hid & Hid' & _ & _ & _ & _ & Hnum & _ & _ & _ & _ & Hres
          & h & Hh & Hhr & _) Hc x Hx.
  rewrite Hres in Hx. rewrite Hh, filter_app, length_app. cbn [filter].
  apply in_map_iff in Hx. destruct Hx as (y & Hy & Hiny).
  destruct (id y =? pk) eqn:E.
  - subst x. cbn [fila_guardada id numero_reprogramaciones].
    rewrite Hhr, Hid', Z.eqb_refl, Hnum, (Hc reserva Hin), Hid.
    simpl List.length. lia.
  - subst x. rewrite Hhr, Z.eqb_sym, E, (Hc y Hiny). simpl List.length. lia.
Qed.

(** X25.  The count of reschedulings and the history go together.  If every
    booking of the tables counts as many reschedulings as the history has
    rows for it, then the same holds of the tables that the two rescheduling
    endpoints, [cancelar] and [pagar] leave, whatever they answer or
    raise. *)
Theorem X25_cuenta_e_historial (pk : Z) (data : Datos) (w : Mundo) :
  cuenta_consistente (m_bd w) ->
  (forall out w',
     reprogramar _is_fecha_disponible notificar_cliente
       notificar_administrador request_user pk data w = (out, w') \/
     post _verificar_disponibilidad_completa _verificar_cambio_precio
       notificar_cliente notificar_administrador request_user pk data w
       = (out, w') ->
     cuenta_consistente (m_bd w')) /\
  (forall out w',
     cancelar request_user pk w = (out, w') \/
     pagar request_user pk w = (out, w') ->
     cuenta_consistente (m_bd w')).
Proof.
  intros Hc. split.
  - intros out w' H.
    assert (Hcaso : (exists reserva r' c so,
                       reprogramacion_escrita request_user pk data w w'
                         reserva r' c so) \/
                    m_bd w' = m_bd w).
    { destruct out as [[r' c so|]|e].
      - left. destruct H as [H|H].
        + destruct (reprogramar_Ok_inv _ _ _ _ _ _ _ _ _ H)
            as (reserva & v & w1 & _ & _ & _ & _
                & [[Hno _]|(r0 & c0 & so0 & Hr & He & _)]); [discriminate|].
          injection Hr as <- <- <-. eauto.
        + destruct (post_Ok_inv _ _ _ _ _ _ _ _ _ _ H)
            as (reserva & v & w1 & _ & _ & _ & _
                & [[Hno _]|(r0 & c0 & so0 & Hr & He & _)]); [discriminate|].
          injection Hr as <- <- <-. eauto.
      - right. destruct H as [H|H];
          [eapply reprogramar_sin_exito|eapply post_sin_exito]; eauto;
          discriminate.
      - right. destruct H as [H|H];
          [eapply reprogramar_sin_exito|eapply post_sin_exito]; eauto;
          discriminate. }
    destruct Hcaso as [(reserva & r' & c & so & He)| ->]; [|exact Hc].
    eapply cuenta_tras_reprogramar; eauto.
  - intros out w' [H|H]; [unfold cancelar in H|unfold pagar in H];
      (destruct (cambio_de_estado_bd _ _ _ _ _ _ _ H)
         as [->|(reserva & Hin & ->)];
       [exact Hc|apply cuenta_tras_cambio_de_estado; assumption]).
Qed.

End Colaboradores.

(** X21.  [pagar] does not look at the state of the booking: when it
    answers, the booking asked is saved in state PAGADA whatever its state
    was.  In particular, after [cancelar] has answered a caller, [pagar] for
    the same booking finds the row that [cancelar] stored, answers that
    caller and leaves the booking PAGADA. *)
Theorem X21_pagar_no_mira_el_estado (pk : Z) (w : Mundo) :
  (forall r w1,
     pagar request_user pk w = (Ok r, w1) ->
     exists reserva,
       In reserva (reservas (m_bd w)) /\ id reserva = pk /\
       r = con_estado PAGADA reserva /\
       m_bd w1 = guardar_reserva r (m_bd w)) /\
  (forall r w1 k,
     cancelar request_user pk w = (Ok r, w1) ->
     pagar request_user pk {| m_bd := m_bd w1; m_ticks := k |}
     = (Ok (con_estado PAGADA (fila_guardada r)),
        {| m_bd := guardar_reserva (con_estado PAGADA (fila_guardada r))
                     (m_bd w1);
           m_ticks := k |})).
Proof.
  split.
  - intros r w1 H. unfold pagar in H.
    destruct (cambio_de_estado_inv _ _ _ _ _ _ _ H)
      as (reserva & _ & Hf & _ & -> & ->).
    apply find_some in Hf. destruct Hf as [Hin Hid].
    apply get_queryset_In in Hin. apply Z.eqb_eq in Hid.
    exists reserva. auto.
  - intros r w1 k H. unfold cancelar in H.
    destruct (cambio_de_estado_inv _ _ _ _ _ _ _ H)
      as (reserva & Hrol & Hf & Hcli & -> & ->).
    pose proof Hf as Hf0.
    apply find_some in Hf0. destruct Hf0 as [_ Hid]. apply Z.eqb_eq in Hid.
    unfold pagar. cbv zeta. rewrite Hrol. simpl negb. cbv iota.
    rewrite paso_ret, paso_leer_bd. cbn [m_bd].
    rewrite (find_queryset_guardar (con_estado CANCELADA reserva) (m_bd w)
               reserva pk Hid Hf eq_refl).
    change (es_del_usuario request_user
              (fila_guardada (con_estado CANCELADA reserva)))
      with (es_del_usuario request_user reserva).
    rewrite Hcli. rewrite paso_ret. reflexivity.
Qed.

End Estados.

(** ** The engine and the table of rules *)

Section MotorYResolutor.
Import models validators.
Context `{RT : Runtime}.
Variable bd bd' : BD.
Variable usuario : option Usuario.
Hypothesis Hact :
  forall tipo rol,
    obtener_regla_activa bd' tipo rol = obtener_regla_activa bd tipo rol.
Hypothesis Hres : reservas bd' = reservas bd.
Hypothesis Hhis : historial bd' = historial bd.

Lemma primera_regla_segun_resolutor tipo rs :
  primera_regla bd' tipo rs = primera_regla bd tipo rs.
Proof.
  induction rs as [|r t IH]; simpl; [reflexivity|].
  rewrite Hact, IH. reflexivity.
Qed.

Lemma reglas_aplicadas_segun_resolutor :
  _obtener_reglas_aplicadas bd' usuario = _obtener_reglas_aplicadas bd usuario.
Proof.
  unfold _obtener_reglas_aplicadas. apply flat_map_ext. intros t.
  rewrite primera_regla_segun_resolutor. reflexivity.
Qed.

Lemma validar_segun_resolutor reserva nf :
  validar_reprogramacion_completa bd' usuario reserva nf
  = validar_reprogramacion_completa bd usuario reserva nf.
Proof.
  unfold validar_reprogramacion_completa, _aplicar_reglas_tiempo,
    _tiempo_minimo, _tiempo_maximo, _aplicar_reglas_limites,
    _aplicar_reglas_blackout, _dias_blackout, _horas_blackout,
    _aplicar_reglas_servicios, _aplicar_reglas_capacidad, reservas_en_fecha,
    _verificar_disponibilidad, conflictos_de, reservas_en_fecha,
    _calcular_penalizacion, penalizacion_pct_de.
  rewrite reglas_aplicadas_segun_resolutor, !primera_regla_segun_resolutor,
    !Hres, !Hhis.
  reflexivity.
Qed.

Lemma probar_horas_segun_resolutor reserva fd cantidad fc horas :
  forall sug s,
    probar_horas bd' usuario reserva fd cantidad fc horas sug s
    = probar_horas bd usuario reserva fd cantidad fc horas sug s.
Proof.
  induction horas as [|h resto IH]; intros sug s; cbn [probar_horas];
    [reflexivity|].
  unfold bind, lift. destruct (timedelta_horas (VInt h)) as [td|];
    [|reflexivity].
  destruct (dt_mas fc td) as [fch|]; [|reflexivity].
  rewrite validar_segun_resolutor.
  destruct (validar_reprogramacion_completa bd usuario reserva fch s)
    as [[v|e] s1]; [|reflexivity].
  destruct (valida v); [|apply IH]. cbv zeta.
  destruct (cantidad <=? _); [reflexivity|apply IH].
Qed.

Lemma probar_dias_segun_resolutor reserva fd cantidad dias :
  forall sug s,
    probar_dias bd' usuario reserva fd cantidad dias sug s
    = probar_dias bd usuario reserva fd cantidad dias sug s.
Proof.
  induction dias as [|d resto IH]; intros sug s; cbn [probar_dias];
    [reflexivity|].
  destruct (d =? 0); [apply IH|].
  unfold bind, lift. destruct (timedelta_dias d) as [td|]; [|reflexivity].
  destruct (dt_mas fd td) as [fc|]; [|reflexivity].
  rewrite probar_horas_segun_resolutor.
  destruct (probar_horas bd usuario reserva fd cantidad fc [0; 1; -1; 2; -2]
              sug s) as [[l|e] s1]; [|reflexivity].
  destruct (cantidad <=? _); [reflexivity|apply IH].
Qed.

End MotorYResolutor.

Section ReglasInactivas.
Import models validators.
Context `{RT : Runtime}.

Lemma filter_filter_de {A} (p q : A -> bool) (l : list A) :
  (forall x, p x = true -> q x = true) ->
  filter p (filter q l) = filter p l.
Proof.
  intros H. induction l as [|y t IH]; simpl; [reflexivity|].
  destruct (q y) eqn:Eq; simpl.
  - rewrite IH. reflexivity.
  - destruct (p y) eqn:Ep; [|exact IH]. apply H in Ep. congruence.
Qed.

Lemma obtener_regla_activa_de_las_activas bd tipo rol :
  obtener_regla_activa
    {| reglas := filter activa (reglas bd); reservas := reservas bd;
       historial := historial bd |} tipo rol
  = obtener_regla_activa bd tipo rol.
Proof.
  unfold obtener_regla_activa. cbv zeta. cbn [reglas].
  rewrite filter_filter_de; [reflexivity|].
  intros x Hx. apply andb_prop in Hx. exact (proj2 Hx).
Qed.

(** X26.  The engine reads the table of rules through the resolver only.
    Two tables with the same bookings and history on which the resolver gives
    the same answer for every type and role give the same verdict for every
    booking, candidate and caller, and the same list of suggestions; so a
    rule that is not active has no effect on a verdict or on a suggestion:
    removing the inactive rules from the table changes neither. *)
Theorem X26_el_motor_lee_por_el_resolutor (bd : BD)
  (usuario : option Usuario) (reserva : Reserva) (nueva_fecha : datetime)
  (cantidad : Z) (s : EstadoV) :
  (forall bd',
     (forall tipo rol,
        obtener_regla_activa bd' tipo rol
        = obtener_regla_activa bd tipo rol) ->
     reservas bd' = reservas bd -> historial bd' = historial bd ->
     validar_reprogramacion_completa bd' usuario reserva nueva_fecha s
     = validar_reprogramacion_completa bd usuario reserva nueva_fecha s /\
     sugerir_fechas_alternativas bd' usuario reserva nueva_fecha cantidad s
     = sugerir_fechas_alternativas bd usuario reserva nueva_fecha cantidad s)
  /\
  (let activas :=
     {| reglas := filter activa (reglas bd); reservas := reservas bd;
        historial := historial bd |} in
   validar_reprogramacion_completa activas usuario reserva nueva_fecha s
   = validar_reprogramacion_completa bd usuario reserva nueva_fecha s /\
   sugerir_fechas_alternativas activas usuario reserva nueva_fecha cantidad s
   = sugerir_fechas_alternativas bd usuario reserva nueva_fecha cantidad s).
Proof.
  assert (G : forall bd',
     (forall tipo rol,
        obtener_regla_activa bd' tipo rol
        = obtener_regla_activa bd tipo rol) ->
     reservas bd' = reservas bd -> historial bd' = historial bd ->
     validar_reprogramacion_completa bd' usuario reserva nueva_fecha s
     = validar_reprogramacion_completa bd usuario reserva nueva_fecha s /\
     sugerir_fechas_alternativas bd' usuario reserva nueva_fecha cantidad s
     = sugerir_fechas_alternativas bd usuario reserva nueva_fecha cantidad s).
  { intros bd' Ha Hr Hh. split.
    - rewrite (validar_segun_resolutor bd bd' usuario Ha Hr Hh). reflexivity.
    - unfold sugerir_fechas_alternativas, bind.
      destruct (limpiar s) as [[[]|e] s0]; [|reflexivity].
      rewrite (probar_dias_segun_resolutor bd bd' usuario Ha Hr Hh).
      reflexivity. }
  split; [exact G|].
  cbv zeta. apply G; [|reflexivity|reflexivity].
  intros tipo rol. apply obtener_regla_activa_de_las_activas.
Qed.

End ReglasInactivas.

(** ** The flag of the booking and the serializer of the rules *)

Section BanderaYReglas.
Import models serializers.
Context `{RT : Runtime}.

(** X22.  The flag [puede_reprogramar] of a booking.  It is true only for a
    booking that is not cancelled, was rescheduled fewer than 3 times and
    starts more than 24 hours after the reading of the clock; it is false,
    without a look at the clock, for a cancelled booking and for one
    rescheduled 3 times or more; and it never writes.  When the flag is false
    for the state, or for the count while no LIMITE_REPROGRAMACIONES rule
    governs the caller, the serializer of a rescheduling request refuses every
    request for the booking. *)
Theorem X22_puede_reprogramar (obj : Reserva) (w : Mundo) :
  (forall w',
     ReservaConHistorialSerializer.get_puede_reprogramar obj w
       = (Ok true, w') ->
     estado obj <> CANCELADA /\ numero_reprogramaciones obj < 3 /\
     reloj (m_ticks w) + 24 * us_por_hora < utc (fecha_inicio obj)) /\
  (estado obj = CANCELADA \/ 3 <= numero_reprogramaciones obj ->
   ReservaConHistorialSerializer.get_puede_reprogramar obj w
     = (Ok false, w)) /\
  conserva_bd (ReservaConHistorialSerializer.get_puede_reprogramar obj) /\
  (forall (request_user : option Usuario) (data : Datos) out w1,
     estado obj = CANCELADA \/
     (3 <= numero_reprogramaciones obj /\
      primera_regla (m_bd w) "LIMITE_REPROGRAMACIONES"
        (roles_de_request request_user ++ ["ALL"])%list = None) ->
     is_valid request_user (Some obj) data w = (out, w1) ->
     exists e, out = Raise e).
Proof.
  split; [|split; [|split]].
  - intros w' H. unfold ReservaConHistorialSerializer.get_puede_reprogramar in H.
    destruct (estado obj) eqn:Ee; simpl in H; try discriminate;
      (destruct (3 <=? numero_reprogramaciones obj) eqn:En;
         [discriminate|]);
      apply Z.leb_gt in En;
      (apply bind_inv in H; destruct H as (ahora & w2 & Ha & H));
      unfold ahora_mundo in Ha; injection Ha as <- <-;
      (apply bind_inv in H; destruct H as (td & w3 & Htd & H));
      unfold lift in Htd; injection Htd as Htd <-; subst td;
      (apply bind_inv in H; destruct H as (lim & w4 & Hl & H));
      unfold lift in Hl; injection Hl as Hl <-;
      apply dt_mas_Ok in Hl; cbn [utc] in Hl;
      unfold dt_le in H;
      (destruct (utc (fecha_inicio obj) <=? utc lim) eqn:E;
         [discriminate|]);
      apply Z.leb_gt in E; unfold us_por_hora;
      (split; [discriminate|split; [exact En|lia]]).
  - intros [Hc|Hn];
      unfold ReservaConHistorialSerializer.get_puede_reprogramar.
    + rewrite Hc. reflexivity.
    + destruct (existsb _ _); [reflexivity|].
      apply Z.leb_le in Hn. rewrite Hn. reflexivity.
  - unfold ReservaConHistorialSerializer.get_puede_reprogramar.
    conserva_tac.
  - intros request_user data out w1 Hcaso H.
    destruct out as [v|e]; [|eauto]. exfalso.
    destruct (is_valid_Ok_inv _ _ _ _ _ _ H)
      as (_ & _ & _ & H4 & H5 & _).
    destruct Hcaso as [Hc|[Hn Hp]]; [exact (H4 Hc)|].
    rewrite Hp in H5. specialize (H5 3 eq_refl eq_refl). lia.
Qed.

(** X23.  The serializer of the rules.  What [validate] accepts it returns
    unchanged, and a row with the values and the window accepted passes
    [clean] of the model.  Accepted attributes of a lead-time type carry a
    number other than 0, which is then the value of the rule; of a limit
    type, a number above 0; of the penalty type, a decimal between 0 and 100,
    which is the value of the rule only when no number is given with it: a
    number given with it is the value that the engine reads; and of a
    blackout or restricted-services type, a text that is not empty. *)
Theorem X23_validate_de_reglas
  (attrs a' : ReglasReprogramacionSerializer.Atributos) :
  ReglasReprogramacionSerializer.validate attrs = Ok a' ->
  a' = attrs /\
  (forall r, ReglasReprogramacionSerializer.fila_de attrs r ->
             clean r = Ok tt) /\
  (ReglasReprogramacionSerializer.tipo_en
     (ReglasReprogramacionSerializer.a_tipo_regla attrs)
     ["TIEMPO_MINIMO"; "TIEMPO_MAXIMO"] = true ->
   exists n,
     ReglasReprogramacionSerializer.a_valor_numerico attrs = Some n /\
     n <> 0 /\
     forall r, ReglasReprogramacionSerializer.fila_de attrs r ->
               obtener_valor r = VInt n) /\
  (ReglasReprogramacionSerializer.tipo_en
     (ReglasReprogramacionSerializer.a_tipo_regla attrs)
     ["LIMITE_REPROGRAMACIONES"; "LIMITE_DIARIO"; "LIMITE_SEMANAL";
      "LIMITE_MENSUAL"] = true ->
   exists n,
     ReglasReprogramacionSerializer.a_valor_numerico attrs = Some n /\
     0 < n) /\
  (ReglasReprogramacionSerializer.tipo_en
     (ReglasReprogramacionSerializer.a_tipo_regla attrs)
     ["DESCUENTO_PENALIZACION"] = true ->
   exists d,
     ReglasReprogramacionSerializer.a_valor_decimal attrs = Some d /\
     0 <= d <= 10000 /\
     forall r, ReglasReprogramacionSerializer.fila_de attrs r ->
               obtener_valor r
               = match ReglasReprogramacionSerializer.a_valor_numerico attrs
                 with
                 | Some n => VInt n
                 | None => VFloat (float_de_decimal d)
                 end) /\
  (ReglasReprogramacionSerializer.tipo_en
     (ReglasReprogramacionSerializer.a_tipo_regla attrs)
     ["DIAS_BLACKOUT"; "HORAS_BLACKOUT"; "SERVICIOS_RESTRINGIDOS"] = true ->
   exists c t,
     ReglasReprogramacionSerializer.a_valor_texto attrs
     = Some (String c t)).
Proof.
  unfold ReglasReprogramacionSerializer.validate. cbv zeta. intros H.
  destruct (_ && _)%bool eqn:E0 in H; [discriminate|].
  destruct (match ReglasReprogramacionSerializer.a_fecha_inicio_vigencia attrs
            with Some _ => _ | None => _ end) eqn:E1 in H; [discriminate|].
  destruct (_ && _)%bool eqn:E2 in H; [discriminate|].
  destruct (_ && _)%bool eqn:E3 in H; [discriminate|].
  destruct (_ && _)%bool eqn:E4 in H; [discriminate|].
  destruct (_ && _)%bool eqn:E5 in H; [discriminate|].
  injection H as <-.
  split; [reflexivity|]. split; [|split; [|split; [|split]]].
  - intros r (Hn & Hd & Ht & Hb & Hi & Hf). unfold clean.
    rewrite Hn, Hd, Ht, Hb, Hi, Hf, E0.
    destruct (ReglasReprogramacionSerializer.a_fecha_inicio_vigencia attrs),
      (ReglasReprogramacionSerializer.a_fecha_fin_vigencia attrs);
      try reflexivity.
    rewrite E1. reflexivity.
  - intros Ht. rewrite Ht in E2. simpl in E2.
    unfold ReglasReprogramacionSerializer.falso_entero in E2.
    destruct (ReglasReprogramacionSerializer.a_valor_numerico attrs)
      as [n|] eqn:En; [|discriminate].
    apply Z.eqb_neq in E2. exists n. split; [reflexivity|].
    split; [exact E2|].
    intros r (Hn & _). unfold obtener_valor. rewrite Hn, En. reflexivity.
  - intros Ht. rewrite Ht in E3. simpl in E3.
    destruct (ReglasReprogramacionSerializer.a_valor_numerico attrs)
      as [n|]; [|discriminate].
    apply orb_false_elim in E3. destruct E3 as [Ea Eb].
    apply Z.eqb_neq in Ea. apply Z.ltb_ge in Eb.
    exists n. split; [reflexivity|lia].
  - intros Ht. rewrite Ht in E4. simpl in E4.
    destruct (ReglasReprogramacionSerializer.a_valor_decimal attrs)
      as [d|] eqn:Ed; [|discriminate].
    apply orb_false_elim in E4. destruct E4 as [Ea Eb].
    apply Z.ltb_ge in Ea. apply Z.ltb_ge in Eb.
    exists d. split; [reflexivity|]. split; [lia|].
    intros r (Hn & Hd & _). unfold obtener_valor. rewrite Hn, Hd, Ed.
    reflexivity.
  - intros Ht. rewrite Ht in E5. simpl in E5.
    destruct (ReglasReprogramacionSerializer.a_valor_texto attrs)
      as [[|c t]|]; try discriminate. eauto.
Qed.

End BanderaYReglas.

(** ** The serializer that checks a request against the rules *)

Section ValidadorDeReglas.
Import models serializers.
Import ValidadorReglasSerializer.
Context `{RT : Runtime}.
Variable request_user : option Usuario.

Lemma revisar_minimo_inv bd nf rol errores w l w' :
  revisar_minimo bd nf rol errores w = (Ok l, w') ->
  m_bd w' = m_bd w /\ exists d, l = (errores ++ d)%list.
Proof.
  unfold revisar_minimo. intros H.
  destruct (obtener_regla_activa bd "TIEMPO_MINIMO" rol) as [regla|].
  - cbv zeta in H. destruct (es_numero _).
    + apply bind_inv in H. destruct H as (ahora & x1 & Ha & H).
      unfold ahora_mundo in Ha. injection Ha as <- <-.
      apply bind_inv in H. destruct H as (sg & x2 & Hs & H).
      unfold lift in Hs. injection Hs as _ <-.
      apply bind_inv in H. destruct H as (lim & x3 & Hl & H).
      unfold lift in Hl. injection Hl as _ <-.
      apply bind_inv in H. destruct H as (b & x4 & Hc & H).
      unfold lift in Hc. injection Hc as _ <-.
      destruct b; unfold ret in H; injection H as <- <-;
        (split; [reflexivity|]);
        [eexists; reflexivity|exists []; now rewrite app_nil_r].
    + unfold ret in H. injection H as <- <-.
      split; [reflexivity|]. exists []. now rewrite app_nil_r.
  - unfold ret in H. injection H as <- <-.
    split; [reflexivity|]. exists []. now rewrite app_nil_r.
Qed.

Lemma revisar_maximo_inv bd nf rol errores w l w' :
  revisar_maximo bd nf rol errores w = (Ok l, w') ->
  m_bd w' = m_bd w /\ exists d, l = (errores ++ d)%list.
Proof.
  unfold revisar_maximo. intros H.
  destruct (obtener_regla_activa bd "TIEMPO_MAXIMO" rol) as [regla|].
  - cbv zeta in H. destruct (es_numero _).
    + apply bind_inv in H. destruct H as (ahora & x1 & Ha & H).
      unfold ahora_mundo in Ha. injection Ha as <- <-.
      apply bind_inv in H. destruct H as (sg & x2 & Hs & H).
      unfold lift in Hs. injection Hs as _ <-.
      apply bind_inv in H. destruct H as (lim & x3 & Hl & H).
      unfold lift in Hl. injection Hl as _ <-.
      apply bind_inv in H. destruct H as (b & x4 & Hc & H).
      unfold lift in Hc. injection Hc as _ <-.
      destruct b; unfold ret in H; injection H as <- <-;
        (split; [reflexivity|]);
        [eexists; reflexivity|exists []; now rewrite app_nil_r].
    + unfold ret in H. injection H as <- <-.
      split; [reflexivity|]. exists []. now rewrite app_nil_r.
  - unfold ret in H. injection H as <- <-.
    split; [reflexivity|]. exists []. now rewrite app_nil_r.
Qed.

Lemma revisar_limite_inv bd reserva rol errores w l w' :
  revisar_limite bd reserva rol errores w = (Ok l, w') ->
  w' = w /\
  exists d, l = (errores ++ d)%list /\
    (d = [] -> forall regla n,
       obtener_regla_activa bd "LIMITE_REPROGRAMACIONES" rol = Some regla ->
       es_numero (obtener_valor regla) = true ->
       int_py (obtener_valor regla) = Ok n ->
       numero_reprogramaciones reserva < n).
Proof.
  unfold revisar_limite. intros H.
  destruct (obtener_regla_activa bd "LIMITE_REPROGRAMACIONES" rol)
    as [regla|].
  - cbv zeta in H. destruct (es_numero (obtener_valor regla)) eqn:En.
    + apply bind_inv in H. destruct H as (n & x1 & Hn & H).
      unfold lift in Hn. injection Hn as Hn <-.
      destruct (n <=? numero_reprogramaciones reserva) eqn:E;
        unfold ret in H; injection H as <- <-; (split; [reflexivity|]).
      * eexists. split; [reflexivity|]. discriminate.
      * exists []. split; [now rewrite app_nil_r|].
        intros _ regla' n' [= <-] _ Hi. rewrite Hn in Hi.
        injection Hi as <-. apply Z.leb_gt in E. exact E.
    + unfold ret in H. injection H as <- <-. split; [reflexivity|].
      exists []. split; [now rewrite app_nil_r|].
      intros _ regla' n' [= <-] Hn'. congruence.
  - unfold ret in H. injection H as <- <-. split; [reflexivity|].
    exists []. split; [now rewrite app_nil_r|]. discriminate.
Qed.

Lemma revisar_dias_inv bd nf rol errores :
  exists d, revisar_dias bd nf rol errores = (errores ++ d)%list /\
    (d = [] -> forall regla dias bajos,
       obtener_regla_activa bd "DIAS_BLACKOUT" rol = Some regla ->
       obtener_valor regla = VList dias ->
       lower_todos dias = Ok bajos ->
       en_lista (nth (Z.to_nat (weekday nf)) validators.nombres_dias "")
                bajos = false).
Proof.
  unfold revisar_dias.
  destruct (obtener_regla_activa bd "DIAS_BLACKOUT" rol) as [regla|].
  2:{ exists []. split; [now rewrite app_nil_r|]. discriminate. }
  destruct (obtener_valor regla) as [| | | | |dias|] eqn:Ev;
    try (exists []; split; [now rewrite app_nil_r|];
         intros _ r' d' b' [= <-] Hv'; congruence).
  cbv zeta. destruct (lower_todos dias) as [bajos|e] eqn:El.
  2:{ exists []. split; [now rewrite app_nil_r|].
      intros _ r' d' b' [= <-] Hv' Hl'. congruence. }
  destruct (en_lista _ bajos) eqn:Ee.
  - eexists. split; [reflexivity|]. discriminate.
  - exists []. split; [now rewrite app_nil_r|].
    intros _ r' d' b' [= <-] Hv' Hl'.
    rewrite Ev in Hv'. injection Hv' as <-. rewrite El in Hl'.
    injection Hl' as <-. exact Ee.
Qed.

Lemma revisar_horas_inv bd nf rol errores :
  exists d, revisar_horas bd nf rol errores = (errores ++ d)%list /\
    (d = [] -> forall regla horas,
       obtener_regla_activa bd "HORAS_BLACKOUT" rol = Some regla ->
       obtener_valor regla = VList horas ->
       existsb (py_eq_int (hour nf)) horas = false).
Proof.
  unfold revisar_horas.
  destruct (obtener_regla_activa bd "HORAS_BLACKOUT" rol) as [regla|].
  2:{ exists []. split; [now rewrite app_nil_r|]. discriminate. }
  destruct (obtener_valor regla) as [| | | | |horas|] eqn:Ev;
    try (exists []; split; [now rewrite app_nil_r|];
         intros _ r' h' [= <-] Hv'; congruence).
  cbv zeta. destruct (existsb _ horas) eqn:Ee.
  - eexists. split; [reflexivity|]. discriminate.
  - exists []. split; [now rewrite app_nil_r|].
    intros _ r' h' [= <-] Hv'. rewrite Ev in Hv'. injection Hv' as <-.
    exact Ee.
Qed.

Lemma revisar_rol_inv reserva nf rol errores w l w' :
  revisar_rol reserva nf rol errores w = (Ok l, w') ->
  m_bd w' = m_bd w /\
  exists d, l = (errores ++ d)%list /\
    (d = [] ->
     (forall regla n,
        obtener_regla_activa (m_bd w) "LIMITE_REPROGRAMACIONES" rol
          = Some regla ->
        es_numero (obtener_valor regla) = true ->
        int_py (obtener_valor regla) = Ok n ->
        numero_reprogramaciones reserva < n) /\
     (forall regla dias bajos,
        obtener_regla_activa (m_bd w) "DIAS_BLACKOUT" rol = Some regla ->
        obtener_valor regla = VList dias ->
        lower_todos dias = Ok bajos ->
        en_lista (nth (Z.to_nat (weekday nf)) validators.nombres_dias "")
                 bajos = false) /\
     (forall regla horas,
        obtener_regla_activa (m_bd w) "HORAS_BLACKOUT" rol = Some regla ->
        obtener_valor regla = VList horas ->
        existsb (py_eq_int (hour nf)) horas = false)).
Proof.
  unfold revisar_rol. intros H.
  apply bind_inv in H. destruct H as (bd & w0 & Hb & H).
  unfold leer_bd in Hb. injection Hb as <- <-.
  apply bind_inv in H. destruct H as (e1 & w1 & H1 & H).
  apply bind_inv in H. destruct H as (e2 & w2 & H2 & H).
  apply bind_inv in H. destruct H as (e3 & w3 & H3 & H).
  cbv zeta in H. unfold ret in H. injection H as <- <-.
  destruct (revisar_minimo_inv _ _ _ _ _ _ _ H1) as (B1 & d1 & ->).
  destruct (revisar_maximo_inv _ _ _ _ _ _ _ H2) as (B2 & d2 & ->).
  destruct (revisar_limite_inv _ _ _ _ _ _ _ H3) as (-> & d3 & -> & F3).
  destruct (revisar_dias_inv (m_bd w) nf rol (((errores ++ d1) ++ d2) ++ d3))
    as (d4 & -> & F4).
  destruct (revisar_horas_inv (m_bd w) nf rol
              ((((errores ++ d1) ++ d2) ++ d3) ++ d4)) as (d5 & -> & F5).
  split; [rewrite B2, B1; reflexivity|].
  exists (d1 ++ d2 ++ d3 ++ d4 ++ d5)%list. split.
  - rewrite <- !app_assoc. reflexivity.
  - intros Hd. apply app_eq_nil in Hd. destruct Hd as [_ Hd].
    apply app_eq_nil in Hd. destruct Hd as [_ Hd].
    apply app_eq_nil in Hd. destruct Hd as [Hd3 Hd].
    apply app_eq_nil in Hd. destruct Hd as [Hd4 Hd5].
    split; [exact (F3 Hd3)|]. split; [exact (F4 Hd4)|exact (F5 Hd5)].
Qed.

Lemma recorrer_roles_inv reserva nf roles :
  forall errores w l w',
    recorrer_roles reserva nf roles errores w = (Ok l, w') ->
    m_bd w' = m_bd w /\
    exists d, l = (errores ++ d)%list /\
      (d = [] -> forall rol, In rol roles ->
       (forall regla n,
          obtener_regla_activa (m_bd w) "LIMITE_REPROGRAMACIONES" rol
            = Some regla ->
          es_numero (obtener_valor regla) = true ->
          int_py (obtener_valor regla) = Ok n ->
          numero_reprogramaciones reserva < n) /\
       (forall regla dias bajos,
          obtener_regla_activa (m_bd w) "DIAS_BLACKOUT" rol = Some regla ->
          obtener_valor regla = VList dias ->
          lower_todos dias = Ok bajos ->
          en_lista (nth (Z.to_nat (weekday nf)) validators.nombres_dias "")
                   bajos = false) /\
       (forall regla horas,
          obtener_regla_activa (m_bd w) "HORAS_BLACKOUT" rol = Some regla ->
          obtener_valor regla = VList horas ->
          existsb (py_eq_int (hour nf)) horas = false)).
Proof.
  induction roles as [|rol resto IH]; intros errores w l w' H;
    cbn [recorrer_roles] in H.
  - unfold ret in H. injection H as <- <-. split; [reflexivity|].
    exists []. split; [now rewrite app_nil_r|]. intros _ rol [].
  - apply bind_inv in H. destruct H as (e1 & w1 & H1 & H).
    destruct (revisar_rol_inv _ _ _ _ _ _ _ H1) as (B1 & d1 & -> & F1).
    destruct (IH _ _ _ _ H) as (B2 & d2 & -> & F2).
    split; [rewrite B2, B1; reflexivity|].
    exists (d1 ++ d2)%list. split; [now rewrite app_assoc|].
    intros Hd. apply app_eq_nil in Hd. destruct Hd as [Hd1 Hd2].
    intros r [<-|Hin]; [exact (F1 Hd1)|].
    rewrite <- B1. exact (F2 Hd2 r Hin).
Qed.

Lemma cb_recorrer_roles reserva nf roles :
  forall errores, conserva_bd (recorrer_roles reserva nf roles errores).
Proof.
  induction roles as [|rol resto IH]; intros errores; cbn [recorrer_roles].
  - apply cb_ret.
  - apply cb_bind; [|intro; apply IH].
    unfold revisar_rol, revisar_minimo, revisar_maximo, revisar_limite.
    conserva_tac.
Qed.

(** X27.  The serializer that checks a request against the rules.  When
    [validate] accepts, the booking named exists and, for every role of the
    caller and for ALL: the booking was rescheduled fewer times than the
    numeric value of the LIMITE_REPROGRAMACIONES rule that the resolver finds
    for the role; the weekday of the candidate is not in the list of the
    DIAS_BLACKOUT rule found for the role; and its hour is not in the list of
    the HORAS_BLACKOUT rule found for the role.  Here the blackout rules do
    count: what the two checks find is added to the errors, not raised inside
    the [try].  Whatever [validate] returns or raises, it writes nothing. *)
Theorem X27_validador_de_reglas (attrs : Atributos) (w : Mundo) :
  (forall a w',
     validate request_user attrs w = (Ok a, w') ->
     a = attrs /\
     exists reserva,
       find (fun r => id r =? a_reserva_id attrs) (reservas (m_bd w))
         = Some reserva /\
       forall rol,
         In rol (roles_de_request request_user ++ ["ALL"])%list ->
         (forall regla n,
            obtener_regla_activa (m_bd w) "LIMITE_REPROGRAMACIONES" rol
              = Some regla ->
            es_numero (obtener_valor regla) = true ->
            int_py (obtener_valor regla) = Ok n ->
            numero_reprogramaciones reserva < n) /\
         (forall regla dias bajos,
            obtener_regla_activa (m_bd w) "DIAS_BLACKOUT" rol = Some regla ->
            obtener_valor regla = VList dias ->
            lower_todos dias = Ok bajos ->
            en_lista (nth (Z.to_nat (weekday (a_nueva_fecha attrs)))
                          validators.nombres_dias "") bajos = false) /\
         (forall regla horas,
            obtener_regla_activa (m_bd w) "HORAS_BLACKOUT" rol = Some regla ->
            obtener_valor regla = VList horas ->
            existsb (py_eq_int (hour (a_nueva_fecha attrs))) horas = false)) /\
  conserva_bd (validate request_user attrs).
Proof.
  split.
  - intros a w' H. unfold validate in H.
    apply bind_inv in H. destruct H as (bd & w0 & Hb & H).
    unfold leer_bd in Hb. injection Hb as <- <-.
    destruct (find _ _) as [reserva|]; [|discriminate].
    cbv zeta in H.
    apply bind_inv in H. destruct H as (errores & w1 & Hr & H).
    destruct (recorrer_roles_inv _ _ _ _ _ _ _ Hr) as (_ & d & Hd & F).
    simpl in Hd. subst d.
    destruct errores as [|x t]; [|discriminate].
    unfold ret in H. injection H as <- _.
    split; [reflexivity|]. exists reserva. split; [reflexivity|].
    exact (F eq_refl).
  - unfold validate. apply cb_bind; [apply cb_leer_bd|intros bd].
    destruct (find _ _) as [reserva|]; [|apply cb_raise].
    cbv zeta. apply cb_bind; [apply cb_recorrer_roles|].
    intros [|x t]; [apply cb_ret|apply cb_raise].
Qed.

End ValidadorDeReglas.

(** ** The summary of the rules shown to a caller *)

Section ResumenDeReglas.
Import models serializers.
Import ResumenReglasSerializer.
Context `{RT : Runtime}.
Variable request_user : option Usuario.
Variable bd : BD.

Lemma primera_regla_None_iff tipo rs :
  primera_regla bd tipo rs = None <->
  forall rol, In rol rs -> obtener_regla_activa bd tipo rol = None.
Proof.
  split; [apply primera_regla_None|].
  induction rs as [|r t IH]; intros H; simpl; [reflexivity|].
  rewrite (H r (or_introl eq_refl)). apply IH. intros rol Hin.
  apply H. now right.
Qed.

Lemma resumen_de (tipos : list (string * string)) :
  let l := flat_map (fun t => entrada_de request_user bd (fst t) (snd t))
                    tipos in
  map fst l
  = filter (fun t => match primera_regla bd t (roles request_user) with
                     | Some _ => true
                     | None => false
                     end) (map fst tipos) /\
  (forall t e, In (t, e) l ->
     exists rol regla,
       primera_regla bd t (roles request_user) = Some (rol, regla) /\
       e_valor e = obtener_valor regla /\
       e_aplicable_a e = aplicable_a regla).
Proof.
  cbv zeta. unfold entrada_de. set (rs := roles request_user).
  induction tipos as [|[t d] ts [IH1 IH2]];
    cbn [flat_map map filter fst snd].
  - split; [reflexivity|]. intros t e [].
  - destruct (primera_regla bd t rs) as [[rol regla]|] eqn:E;
      cbn [app map fst snd].
    + split; [f_equal; exact IH1|].
      intros t0 e [He|He]; [|eauto].
      injection He as <- <-. exists rol, regla. cbn. auto.
    + split; assumption.
Qed.

(** X28.  The summary of the rules shown to a caller.  It has one entry for
    each of the twelve rule types for which the resolver finds a rule at ALL
    or at a role of the caller, in the order of the types, and its total is
    their number.  A type has an entry exactly when the engine's walk over the
    caller's roles and then ALL finds a rule for it.  But the summary looks
    at ALL first: when the resolver finds a rule for ALL, the entry shows that
    rule, whatever the resolver finds for the caller's own roles, which is
    what the engine applies. *)
Theorem X28_resumen_de_reglas :
  let r := to_representation request_user bd in
  map fst (reglas_activas r)
  = filter (fun t => match primera_regla bd t (roles request_user) with
                     | Some _ => true
                     | None => false
                     end) (map fst TIPOS_REGLA) /\
  total_reglas r = List.length (reglas_activas r) /\
  (total_reglas r <= 12)%nat /\
  (forall t,
     primera_regla bd t (roles request_user) = None <->
     primera_regla bd t (validators.roles request_user) = None) /\
  (forall t e regla,
     In (t, e) (reglas_activas r) ->
     obtener_regla_activa bd t "ALL" = Some regla ->
     e_valor e = obtener_valor regla /\ e_aplicable_a e = "ALL").
Proof.
  cbv zeta. unfold to_representation. cbv zeta.
  cbn [reglas_activas total_reglas].
  destruct (resumen_de TIPOS_REGLA) as [H1 H2]. cbv zeta in H1, H2.
  split; [exact H1|]. split; [reflexivity|]. split; [|split].
  - rewrite <- (length_map fst), H1.
    etransitivity; [apply filter_length_le|]. simpl. lia.
  - intros t. rewrite !primera_regla_None_iff.
    unfold roles, validators.roles, validators._obtener_roles_usuario,
      roles_de_request.
    destruct request_user as [u|]; simpl.
    + split; intros H rol Hin; apply H.
      * apply in_app_or in Hin. destruct Hin as [Hin|[<-|[]]];
          [now right|now left].
      * destruct Hin as [<-|Hin]; apply in_or_app;
          [right; now left|now left].
    + tauto.
  - intros t e regla Hin Hall.
    destruct (H2 t e Hin) as (rol & regla' & Hp & Hv & Ha).
    unfold roles in Hp. simpl in Hp. rewrite Hall in Hp.
    injection Hp as <- <-. split; [exact Hv|].
    rewrite Ha.
    destruct (obtener_regla_activa_Some _ _ _ _ Hall) as (_ & _ & _ & Hap & _).
    unfold es_aplicable_a_rol in Hap.
    destruct (String.eqb (aplicable_a regla) "ALL") eqn:E1;
      [apply String.eqb_eq in E1; exact E1|].
    try rewrite E1 in Hap.
    destruct (String.eqb (aplicable_a regla) "CLIENTE_OPERADOR");
      destruct (String.eqb (aplicable_a regla) "OPERADOR_ADMIN");
      discriminate Hap.
Qed.

End ResumenDeReglas.

(** ** The checks at concrete rows *)

(** X1 at a cancelled booking of the example tables. *)
Lemma X1_testigo :
  let bd := ejemplo.tablas [ejemplo.minimo_todos] [casos.reserva_cancelada] in
  exists v s',
    @validators.validar_reprogramacion_completa ejemplo.rt bd
      (Some ejemplo.cliente) casos.reserva_cancelada (ejemplo.en_horas 96)
      ejemplo.inicio = (Ok v, s') /\
    validators.valida v = false /\
    In "No se puede reprogramar una reserva cancelada."
       (validators.r_errores v).
Proof.
  intros bd.
  destruct (@validators.validar_reprogramacion_completa ejemplo.rt bd
              (Some ejemplo.cliente) casos.reserva_cancelada
              (ejemplo.en_horas 96) ejemplo.inicio) as [[v|e] s'] eqn:E.
  - exists v, s'. split; [reflexivity|].
    apply (@X1_reserva_cancelada_nunca_valida ejemplo.rt bd
             (Some ejemplo.cliente) casos.reserva_cancelada
             (ejemplo.en_horas 96) ejemplo.inicio v s');
      [reflexivity|exact E].
  - vm_compute in E. discriminate.
Defined.

(** X2 at three candidates: one hour before the clock, 800 days ahead, and
    four days ahead. *)
Lemma X2_testigo :
  let bd := ejemplo.tablas [] [ejemplo.reserva1] in
  let u := Some ejemplo.cliente in
  (exists v s',
     @validators.validar_reprogramacion_completa ejemplo.rt bd u
       ejemplo.reserva1 (ejemplo.en_horas (-1)) ejemplo.inicio = (Ok v, s') /\
     validators.valida v = false /\
     In "No se puede reprogramar a una fecha pasada."
        (validators.r_errores v)) /\
  (exists v s',
     @validators.validar_reprogramacion_completa ejemplo.rt bd u
       ejemplo.reserva1 (ejemplo.en_horas (24 * 800)) ejemplo.inicio
       = (Ok v, s') /\
     validators.valida v = false /\
     In "No se puede reprogramar más de 2 años en el futuro."
        (validators.r_errores v)) /\
  @validators._validar_fecha_basica ejemplo.rt (ejemplo.en_horas 96)
    ejemplo.inicio = (Ok tt, validators.leido ejemplo.inicio).
Proof.
  intros bd u. split; [|split].
  - destruct (@validators.validar_reprogramacion_completa ejemplo.rt bd u
                ejemplo.reserva1 (ejemplo.en_horas (-1)) ejemplo.inicio)
      as [[v|e] s'] eqn:E.
    + exists v, s'. split; [reflexivity|].
      destruct (@X2_fecha_basica ejemplo.rt bd u ejemplo.reserva1
                  (ejemplo.en_horas (-1)) ejemplo.inicio) as [H _].
      apply (H v s' E). vm_compute. discriminate.
    + vm_compute in E. discriminate.
  - destruct (@validators.validar_reprogramacion_completa ejemplo.rt bd u
                ejemplo.reserva1 (ejemplo.en_horas (24 * 800)) ejemplo.inicio)
      as [[v|e] s'] eqn:E.
    + exists v, s'. split; [reflexivity|].
      destruct (@X2_fecha_basica ejemplo.rt bd u ejemplo.reserva1
                  (ejemplo.en_horas (24 * 800)) ejemplo.inicio) as [H _].
      apply (H v s' E). vm_compute. reflexivity.
    + vm_compute in E. discriminate.
  - destruct (@X2_fecha_basica ejemplo.rt bd u ejemplo.reserva1
                (ejemplo.en_horas 96) ejemplo.inicio) as [_ H].
    apply (H {| utc := ejemplo.t0 + 730 * us_por_dia; offset := 0 |}).
    + reflexivity.
    + vm_compute. reflexivity.
    + vm_compute. discriminate.
Defined.

(** X3 at a limit of two: a booking rescheduled twice, and one rescheduled
    once. *)
Lemma X3_testigo :
  let bd := ejemplo.tablas [casos.limite_dos] [ejemplo.reserva1] in
  let u := Some ejemplo.cliente in
  (exists v s',
     @validators.validar_reprogramacion_completa ejemplo.rt bd u
       (casos.con_reprogramaciones 2 ejemplo.reserva1) (ejemplo.en_horas 96)
       ejemplo.inicio = (Ok v, s') /\
     validators.valida v = false /\
     In "Ha alcanzado el límite de 2 reprogramaciones."
        (validators.r_errores v)) /\
  @validators._limite_por_reserva ejemplo.rt bd u
    (casos.con_reprogramaciones 1 ejemplo.reserva1) ejemplo.inicio
    = (Ok tt, ejemplo.inicio).
Proof.
  intros bd u.
  assert (Hp : primera_regla bd "LIMITE_REPROGRAMACIONES"
                 (validators.roles u) = Some ("CLIENTE", casos.limite_dos))
    by reflexivity.
  split.
  - destruct (@validators.validar_reprogramacion_completa ejemplo.rt bd u
                (casos.con_reprogramaciones 2 ejemplo.reserva1)
                (ejemplo.en_horas 96) ejemplo.inicio)
      as [[v|e] s'] eqn:E.
    + exists v, s'. split; [reflexivity|].
      destruct (@X3_limite_por_reserva ejemplo.rt bd u
                  (casos.con_reprogramaciones 2 ejemplo.reserva1)
                  (ejemplo.en_horas 96) ejemplo.inicio
                  "CLIENTE" casos.limite_dos 2 Hp eq_refl eq_refl) as [H _].
      apply (H ltac:(simpl; lia) v s' E).
    + vm_compute in E. discriminate.
  - destruct (@X3_limite_por_reserva ejemplo.rt bd u
                (casos.con_reprogramaciones 1 ejemplo.reserva1)
                (ejemplo.en_horas 96) ejemplo.inicio
                "CLIENTE" casos.limite_dos 2 Hp eq_refl eq_refl) as [_ H].
    apply H. simpl. lia.
Defined.

(** X4 at a daily limit of one, with one row of the history made by the
    caller on the day of the clock. *)
Lemma X4_testigo :
  let bd := casos.con_historial [casos.cambio_de_hoy]
              (ejemplo.tablas [casos.limite_diario_uno] [ejemplo.reserva1]) in
  let u := Some ejemplo.cliente in
  (exists v s',
     @validators.validar_reprogramacion_completa ejemplo.rt bd u
       ejemplo.reserva1 (ejemplo.en_horas 96) ejemplo.inicio = (Ok v, s') /\
     validators.valida v = false /\
     In "Ha alcanzado el límite diario de 1 reprogramaciones."
        (validators.r_errores v)) /\
  @validators._aplicar_reglas_limites ejemplo.rt bd None ejemplo.reserva1
    ejemplo.inicio = (Ok tt, ejemplo.inicio).
Proof.
  intros bd u.
  assert (Hp : primera_regla bd "LIMITE_DIARIO" (validators.roles u)
               = Some ("CLIENTE", casos.limite_diario_uno)) by reflexivity.
  split.
  - destruct (@validators.validar_reprogramacion_completa ejemplo.rt bd u
                ejemplo.reserva1 (ejemplo.en_horas 96) ejemplo.inicio)
      as [[v|e] s'] eqn:E.
    + exists v, s'. split; [reflexivity|].
      destruct (@X4_limite_diario ejemplo.rt bd u ejemplo.reserva1
                  (ejemplo.en_horas 96) ejemplo.inicio ejemplo.cliente
                  "CLIENTE" casos.limite_diario_uno 1 eq_refl Hp eq_refl
                  eq_refl) as [H _].
      apply (H ltac:(vm_compute; discriminate) v s' E).
    + vm_compute in E. discriminate.
  - destruct (@X4_limite_diario ejemplo.rt bd u ejemplo.reserva1
                (ejemplo.en_horas 96) ejemplo.inicio ejemplo.cliente
                "CLIENTE" casos.limite_diario_uno 1 eq_refl Hp eq_refl
                eq_refl) as [_ H].
    rewrite H. reflexivity.
Defined.

(** X5 at the hours 22 and 23 closed: a candidate at 22:00 and one at
    10:00. *)
Lemma X5_testigo :
  let bd := ejemplo.tablas [casos.horas_nocturnas] [ejemplo.reserva1] in
  let u := Some ejemplo.cliente in
  (exists v s',
     @validators.validar_reprogramacion_completa ejemplo.rt bd u
       ejemplo.reserva1 (ejemplo.en_horas 118) ejemplo.inicio = (Ok v, s') /\
     validators.valida v = false /\
     In "No se puede reprogramar a las 22:00 horas."
        (validators.r_errores v)) /\
  @validators._horas_blackout ejemplo.rt bd u (ejemplo.en_horas 106)
    ejemplo.inicio = (Ok tt, ejemplo.inicio).
Proof.
  intros bd u.
  assert (Hp : primera_regla bd "HORAS_BLACKOUT" (validators.roles u)
               = Some ("CLIENTE", casos.horas_nocturnas)) by reflexivity.
  assert (Hl : @models.obtener_valor ejemplo.rt casos.horas_nocturnas
               = VList [VInt 22; VInt 23]) by reflexivity.
  split.
  - destruct (@validators.validar_reprogramacion_completa ejemplo.rt bd u
                ejemplo.reserva1 (ejemplo.en_horas 118) ejemplo.inicio)
      as [[v|e] s'] eqn:E.
    + exists v, s'. split; [reflexivity|].
      destruct (@X5_horas_blackout ejemplo.rt bd u ejemplo.reserva1
                  (ejemplo.en_horas 118) ejemplo.inicio "CLIENTE"
                  casos.horas_nocturnas [VInt 22; VInt 23] Hp Hl) as [H _].
      apply (H ltac:(left; reflexivity) v s' E).
    + vm_compute in E. discriminate.
  - destruct (@X5_horas_blackout ejemplo.rt bd u ejemplo.reserva1
                (ejemplo.en_horas 106) ejemplo.inicio "CLIENTE"
                casos.horas_nocturnas [VInt 22; VInt 23] Hp Hl) as [_ H].
    apply H. reflexivity.
Defined.

(** X6 at a rule that restricts the service of the example booking, and at
    a booking with a second line on a service that is not restricted. *)
Lemma X6_testigo :
  let bd := ejemplo.tablas [casos.servicios_restringidos]
              [ejemplo.reserva1; casos.reserva2] in
  let u := Some ejemplo.cliente in
  (exists v s',
     @validators.validar_reprogramacion_completa casos.rt bd u
       ejemplo.reserva1 (ejemplo.en_horas 48) ejemplo.inicio = (Ok v, s') /\
     validators.valida v = false /\
     In "El servicio 'Salar de Uyuni' tiene restricciones para reprogramar."
        (validators.r_errores v)) /\
  @validators._aplicar_reglas_servicios casos.rt bd u casos.reserva2
    ejemplo.inicio
  = (Ok tt,
     validators.agregar
       "El servicio 'Salar de Uyuni' tiene restricciones para reprogramar."
       ejemplo.inicio).
Proof.
  intros bd u.
  assert (Hp : primera_regla bd "SERVICIOS_RESTRINGIDOS" (validators.roles u)
               = Some ("CLIENTE", casos.servicios_restringidos))
    by reflexivity.
  assert (Hl : @models.obtener_valor casos.rt casos.servicios_restringidos
               = VList [VStr "Salar de Uyuni"]) by reflexivity.
  split.
  - destruct (@validators.validar_reprogramacion_completa casos.rt bd u
                ejemplo.reserva1 (ejemplo.en_horas 48) ejemplo.inicio)
      as [[v|e] s'] eqn:E.
    + exists v, s'. split; [reflexivity|].
      destruct (@X6_servicios_restringidos casos.rt bd u ejemplo.reserva1
                  (ejemplo.en_horas 48) ejemplo.inicio "CLIENTE"
                  casos.servicios_restringidos [VStr "Salar de Uyuni"] Hp Hl)
        as [_ H].
      apply (H {| models.servicio_id := 3;
                  models.servicio_titulo := "Salar de Uyuni";
                  models.cantidad := 2 |} v s');
        [left; reflexivity|left; reflexivity|exact E].
    + vm_compute in E. discriminate.
  - destruct (@X6_servicios_restringidos casos.rt bd u casos.reserva2
                (ejemplo.en_horas 48) ejemplo.inicio "CLIENTE"
                casos.servicios_restringidos [VStr "Salar de Uyuni"] Hp Hl)
      as [H _].
    rewrite H. reflexivity.
Defined.

(** X7 at a capacity of one with one other booking on the candidate's day,
    on a free day, and at the two rule values that are floats without an
    integer part. *)
Lemma X7_testigo :
  let bs := [ejemplo.reserva1; casos.reserva2] in
  let bd := ejemplo.tablas [casos.capacidad_uno] bs in
  let u := Some ejemplo.cliente in
  (exists v s',
     @validators.validar_reprogramacion_completa casos.rt bd u
       ejemplo.reserva1 (ejemplo.en_horas 96) ejemplo.inicio = (Ok v, s') /\
     validators.valida v = false /\
     In "La fecha alcanzó la capacidad máxima de 1 reservas."
        (validators.r_errores v)) /\
  @validators._aplicar_reglas_capacidad casos.rt bd u (ejemplo.en_horas 48)
    ejemplo.reserva1 ejemplo.inicio = (Ok tt, ejemplo.inicio) /\
  @validators._aplicar_reglas_capacidad casos.rt
    (ejemplo.tablas [casos.capacidad_nan] bs) u (ejemplo.en_horas 96)
    ejemplo.reserva1 ejemplo.inicio = (Ok tt, ejemplo.inicio) /\
  @validators._aplicar_reglas_capacidad casos.rt
    (ejemplo.tablas [casos.capacidad_infinita] bs) u (ejemplo.en_horas 96)
    ejemplo.reserva1 ejemplo.inicio = (Raise OverflowError, ejemplo.inicio).
Proof.
  intros bs bd u.
  assert (Hp : primera_regla bd "CAPACIDAD_MAXIMA" (validators.roles u)
               = Some ("CLIENTE", casos.capacidad_uno)) by reflexivity.
  split; [|split; [|split]].
  - destruct (@validators.validar_reprogramacion_completa casos.rt bd u
                ejemplo.reserva1 (ejemplo.en_horas 96) ejemplo.inicio)
      as [[v|e] s'] eqn:E.
    + exists v, s'. split; [reflexivity|].
      destruct (@X7_capacidad_maxima casos.rt bd u ejemplo.reserva1
                  (ejemplo.en_horas 96) ejemplo.inicio "CLIENTE"
                  casos.capacidad_uno Hp eq_refl) as [H _].
      destruct (H 1 eq_refl) as [H1 _].
      apply (H1 ltac:(vm_compute; discriminate) v s' E).
    + vm_compute in E. discriminate.
  - destruct (@X7_capacidad_maxima casos.rt bd u ejemplo.reserva1
                (ejemplo.en_horas 48) ejemplo.inicio "CLIENTE"
                casos.capacidad_uno Hp eq_refl) as [H _].
    destruct (H 1 eq_refl) as [_ H2]. apply H2. vm_compute. reflexivity.
  - destruct (@X7_capacidad_maxima casos.rt
                (ejemplo.tablas [casos.capacidad_nan] bs) u ejemplo.reserva1
                (ejemplo.en_horas 96) ejemplo.inicio "CLIENTE"
                casos.capacidad_nan eq_refl eq_refl) as (_ & H & _).
    apply H. reflexivity.
  - destruct (@X7_capacidad_maxima casos.rt
                (ejemplo.tablas [casos.capacidad_infinita] bs) u
                ejemplo.reserva1 (ejemplo.en_horas 96) ejemplo.inicio
                "CLIENTE" casos.capacidad_infinita eq_refl eq_refl)
      as (_ & _ & H).
    apply H. reflexivity.
Defined.

(** X8 at a candidate on the day of another booking with a line on the
    same service, and at a booking without lines. *)
Lemma X8_testigo :
  let bd := ejemplo.tablas [] [ejemplo.reserva1; casos.reserva2] in
  In "Salar de Uyuni"
     (validators.servicios_conflictivos
        (@validators._verificar_disponibilidad ejemplo.rt bd
           (ejemplo.en_horas 96) ejemplo.reserva1)) /\
  validators.disponible
    (@validators._verificar_disponibilidad ejemplo.rt bd
       (ejemplo.en_horas 96) (casos.sin_detalles ejemplo.reserva1)) = true.
Proof.
  intros bd. split.
  - destruct (@X8_disponibilidad ejemplo.rt bd (ejemplo.en_horas 96)
                ejemplo.reserva1) as (_ & _ & H & _).
    apply H.
    exists casos.reserva2,
      {| models.servicio_id := 3; models.servicio_titulo := "Salar de Uyuni";
         models.cantidad := 1 |}.
    split; [right; left; reflexivity|]. split; [left; reflexivity|].
    split; [reflexivity|]. split; [reflexivity|].
    split; [discriminate|]. split; [discriminate|].
    exists {| models.servicio_id := 3;
              models.servicio_titulo := "Salar de Uyuni";
              models.cantidad := 2 |}.
    split; [left; reflexivity|reflexivity].
  - destruct (@X8_disponibilidad ejemplo.rt bd (ejemplo.en_horas 96)
                (casos.sin_detalles ejemplo.reserva1)) as (_ & _ & _ & H).
    apply H. reflexivity.
Defined.

(** X9 at the example tables: the one rule of 24 hours for all, found at the
    role CLIENTE of the caller. *)
Lemma X9_testigo :
  let bd := ejemplo.tablas [ejemplo.minimo_todos] [ejemplo.reserva1] in
  let u := Some ejemplo.cliente in
  map validators.ra_tipo (@validators._obtener_reglas_aplicadas ejemplo.rt bd u)
  = ["TIEMPO_MINIMO"] /\
  Forall (fun e => In (validators.ra_rol e) (validators.roles u))
         (@validators._obtener_reglas_aplicadas ejemplo.rt bd u).
Proof.
  intros bd u.
  destruct (@X9_reglas_aplicadas ejemplo.rt bd u) as (H1 & _ & H3).
  split.
  - rewrite H1. reflexivity.
  - apply Forall_forall. intros e He. exact (proj1 (H3 e He)).
Defined.

(** X10 at the example tables, for a candidate four days ahead. *)
Lemma X10_testigo :
  let bd := ejemplo.tablas [ejemplo.minimo_todos] [ejemplo.reserva1] in
  let u := Some ejemplo.cliente in
  exists v s',
    @validators.validar_reprogramacion_completa ejemplo.rt bd u
      ejemplo.reserva1 (ejemplo.en_horas 96) ejemplo.inicio = (Ok v, s') /\
    validators.valida v = true /\
    validators.r_warnings v = [] /\
    validators.numero_reglas_evaluadas (validators.metadatos v) = 1%nat /\
    fst (@validators.validar_rapido ejemplo.rt bd u ejemplo.reserva1
           (ejemplo.en_horas 96) ejemplo.inicio) = Ok true.
Proof.
  intros bd u.
  destruct (@validators.validar_reprogramacion_completa ejemplo.rt bd u
              ejemplo.reserva1 (ejemplo.en_horas 96) ejemplo.inicio)
    as [[v|e] s'] eqn:E.
  - exists v, s'. split; [reflexivity|].
    destruct (@X10_forma_del_veredicto ejemplo.rt bd u ejemplo.reserva1
                (ejemplo.en_horas 96) ejemplo.inicio v s' E)
      as (Hv & Hw & _ & Hr & Hn & _ & Hq & _).
    assert (Hval : validators.valida v = true).
    { vm_compute in E. injection E as <- _. reflexivity. }
    split; [exact Hval|]. split; [exact Hw|]. split.
    + rewrite Hn, Hr. reflexivity.
    + rewrite Hq, Hval. reflexivity.
  - vm_compute in E. discriminate.
Defined.

(** X11 at the example tables: four suggestions around the instant seven and
    a half days after [t0]. *)
Lemma X11_testigo :
  let bd := ejemplo.tablas [ejemplo.minimo_todos] [ejemplo.reserva1] in
  let u := Some ejemplo.cliente in
  let deseada := ejemplo.en_horas (7 * 24 + 12) in
  exists l s',
    @validators.sugerir_fechas_alternativas ejemplo.rt bd u ejemplo.reserva1
      deseada 4 ejemplo.inicio = (Ok l, s') /\
    List.length l = 4%nat /\
    Forall (fun e =>
              (exists d h,
                 -7 <= d <= 14 /\ d <> 0 /\ -2 <= h <= 2 /\
                 utc (validators.s_fecha e)
                 = utc deseada + d * us_por_dia + h * us_por_hora) /\
              offset (validators.s_fecha e) = offset deseada /\
              validators.s_fecha e <> deseada /\
              -2 <= validators.score e <= 17) l.
Proof.
  intros bd u deseada.
  destruct (@validators.sugerir_fechas_alternativas ejemplo.rt bd u
              ejemplo.reserva1 deseada 4 ejemplo.inicio)
    as [[l|e] s'] eqn:E.
  - exists l, s'. split; [reflexivity|]. split.
    + vm_compute in E. injection E as <- <-. reflexivity.
    + exact (@X11_fechas_sugeridas ejemplo.rt bd u ejemplo.reserva1 deseada 4
               ejemplo.inicio l s' E).
  - vm_compute in E. discriminate.
Defined.

(** X12 at two rules whose validity window ended a year before the clock of
    the examples: the resolver still returns the rule for ALL, priority 1. *)
Lemma X12_testigo :
  let bd := ejemplo.tablas [ejemplo.minimo_clientes; ejemplo.minimo_todos] [] in
  models.obtener_regla_activa
    (casos.con_reglas (map casos.vencida (models.reglas bd)) bd)
    "TIEMPO_MINIMO" "CLIENTE"
  = Some (casos.vencida ejemplo.minimo_todos).
Proof.
  intros bd. unfold casos.con_reglas.
  rewrite (X12_el_resolutor_lee_cuatro_campos casos.vencida bd
             "TIEMPO_MINIMO" "CLIENTE").
  - reflexivity.
  - intros r. repeat split; reflexivity.
Defined.

(** X13 at the two rules of the example in both orders. *)
Lemma X13_testigo :
  models.obtener_regla_activa
    (ejemplo.tablas [ejemplo.minimo_todos; ejemplo.minimo_clientes] [])
    "TIEMPO_MINIMO" "CLIENTE"
  = models.obtener_regla_activa
      (ejemplo.tablas [ejemplo.minimo_clientes; ejemplo.minimo_todos] [])
      "TIEMPO_MINIMO" "CLIENTE".
Proof.
  apply X13_resolutor_sin_empates.
  - apply perm_swap.
  - intros r r' Hr Hr' _ _ _ _ Hp. simpl in Hr, Hr'.
    destruct Hr as [<-|[<-|[]]]; destruct Hr' as [<-|[<-|[]]];
      try reflexivity; simpl in Hp; discriminate.
Defined.

(** X14 at a rule with a number and a validity window, and at a rule with
    no value. *)
Lemma X14_testigo :
  (forall i f,
     models.fecha_inicio_vigencia (casos.vencida ejemplo.minimo_todos)
       = Some i ->
     models.fecha_fin_vigencia (casos.vencida ejemplo.minimo_todos)
       = Some f ->
     utc i < utc f) /\
  @models.obtener_valor ejemplo.rt
    (ejemplo.regla "Sin valor" "TIEMPO_MINIMO" "ALL" 1) = VNone.
Proof.
  split.
  - destruct (@X14_clean_y_el_valor ejemplo.rt
                (casos.vencida ejemplo.minimo_todos)) as (_ & _ & _ & H).
    apply H. reflexivity.
  - destruct (@X14_clean_y_el_valor ejemplo.rt
                (ejemplo.regla "Sin valor" "TIEMPO_MINIMO" "ALL" 1))
      as (_ & H & _).
    apply H. reflexivity.
Defined.

(** X15 at a rule that closes Sundays: the serializer gives the same answer
    with and without the rule, and accepts a candidate on Sunday 7 January
    2024. *)
Lemma X15_testigo :
  let con := ejemplo.tablas [ejemplo.minimo_todos; ejemplo.sin_domingos]
               [ejemplo.reserva1] in
  let sin := ejemplo.tablas [ejemplo.minimo_todos] [ejemplo.reserva1] in
  fst (@serializers.is_valid ejemplo.rt (Some ejemplo.cliente)
         (Some ejemplo.reserva1) (ejemplo.pedido 156)
         {| m_bd := con; m_ticks := 0 |})
  = fst (@serializers.is_valid ejemplo.rt (Some ejemplo.cliente)
           (Some ejemplo.reserva1) (ejemplo.pedido 156)
           {| m_bd := sin; m_ticks := 0 |}) /\
  weekday (ejemplo.en_horas 156) = 6 /\
  fst (@serializers.is_valid ejemplo.rt (Some ejemplo.cliente)
         (Some ejemplo.reserva1) (ejemplo.pedido 156)
         {| m_bd := sin; m_ticks := 0 |})
  = Ok (ejemplo.pedido 156).
Proof.
  intros con sin. split; [|split].
  - apply (@X15_el_serializador_ignora_blackout ejemplo.rt
             (Some ejemplo.cliente) (Some ejemplo.reserva1)
             (ejemplo.pedido 156) con sin 0).
    reflexivity.
  - reflexivity.
  - vm_compute. reflexivity.
Defined.

(** X16 at an accepted request of the example caller for the instant four
    days after [t0], with the rule of 24 hours for all and a reason of 251
    characters that take 502 bytes. *)
Lemma X16_testigo :
  let bd := ejemplo.tablas [ejemplo.minimo_todos] [ejemplo.reserva1] in
  let data :=
    {| serializers.nueva_fecha := ejemplo.en_horas 96;
       serializers.d_motivo := Some casos.motivo_largo |} in
  exists v w',
    @serializers.is_valid ejemplo.rt (Some ejemplo.cliente)
      (Some ejemplo.reserva1) data (ejemplo.mundo bd)
      = (Ok v, w') /\
    ejemplo.t0 + 24 * us_por_hora < utc (ejemplo.en_horas 96) /\
    utc (ejemplo.en_horas 96) <= ejemplo.t0 + 365 * 24 * us_por_hora /\
    models.numero_reprogramaciones ejemplo.reserva1 < 3 /\
    (len casos.motivo_largo <= 500)%nat /\
    String.length casos.motivo_largo = 502%nat.
Proof.
  intros bd data.
  destruct (@serializers.is_valid ejemplo.rt (Some ejemplo.cliente)
              (Some ejemplo.reserva1) data (ejemplo.mundo bd))
    as [[v|e] w'] eqn:E.
  - exists v, w'. split; [reflexivity|].
    destruct (@X16_lo_que_pasa_una_solicitud_aceptada ejemplo.rt
                (Some ejemplo.cliente) ejemplo.reserva1 data
                (ejemplo.mundo bd) v w' E)
      as (_ & Hmin & Hmax & _ & Hlim & _ & Hmot).
    split; [|split; [|split; [|split]]].
    + apply (Hmin (24 * us_por_hora)); reflexivity.
    + apply (Hmax (365 * 24 * us_por_hora)); reflexivity.
    + apply (Hlim 3); reflexivity.
    + apply Hmot. reflexivity.
    + vm_compute. reflexivity.
  - vm_compute in E. discriminate.
Defined.

(** X17 at the example tables: the owner is answered, and another client
    gets Not Found from one endpoint and Permission Denied from the other. *)
Lemma X17_testigo :
  let bd := ejemplo.tablas [ejemplo.minimo_todos] [ejemplo.reserva1] in
  (exists resp w',
     @views.reprogramar ejemplo.rt ejemplo.siempre_disponible
       ejemplo.notifica_cliente ejemplo.notifica_administrador
       (Some ejemplo.cliente) 1 (ejemplo.pedido 96) (ejemplo.mundo bd)
     = (Ok resp, w') /\
     exists reserva,
       In reserva (models.reservas bd) /\ models.id reserva = 1 /\
       models.usuario reserva = 7) /\
  @views.reprogramar ejemplo.rt ejemplo.siempre_disponible
    ejemplo.notifica_cliente ejemplo.notifica_administrador
    (Some casos.otro_cliente) 1 (ejemplo.pedido 96) (ejemplo.mundo bd)
  = (Raise Http404, ejemplo.mundo bd) /\
  @views.post ejemplo.rt ejemplo.disponibilidad_completa
    ejemplo.sin_cambio_precio ejemplo.notifica_cliente
    ejemplo.notifica_administrador (Some casos.otro_cliente) 1
    (ejemplo.pedido 96) (ejemplo.mundo bd)
  = (Raise (PermissionDenied
              "No puedes reprogramar una reserva que no es tuya."),
     ejemplo.mundo bd).
Proof.
  intros bd. split.
  - destruct (@views.reprogramar ejemplo.rt ejemplo.siempre_disponible
                ejemplo.notifica_cliente ejemplo.notifica_administrador
                (Some ejemplo.cliente) 1 (ejemplo.pedido 96)
                (ejemplo.mundo bd)) as [[resp|e] w'] eqn:E.
    + exists resp, w'. split; [reflexivity|].
      destruct (@X17_quien_puede_reprogramar ejemplo.rt
                  ejemplo.siempre_disponible ejemplo.disponibilidad_completa
                  ejemplo.sin_cambio_precio ejemplo.notifica_cliente
                  ejemplo.notifica_administrador (Some ejemplo.cliente) 1
                  (ejemplo.pedido 96) (ejemplo.mundo bd)) as [H _].
      destruct (H resp w' (or_introl E)) as (_ & reserva & Hin & Hid & Hu).
      exists reserva. split; [exact Hin|]. split; [exact Hid|].
      destruct (Hu eq_refl) as (u & Hs & ->). injection Hs as <-.
      reflexivity.
    + vm_compute in E. discriminate.
  - destruct (@X17_quien_puede_reprogramar ejemplo.rt
                ejemplo.siempre_disponible ejemplo.disponibilidad_completa
                ejemplo.sin_cambio_precio ejemplo.notifica_cliente
                ejemplo.notifica_administrador (Some casos.otro_cliente) 1
                (ejemplo.pedido 96) (ejemplo.mundo bd)) as [_ H].
    apply H; try reflexivity.
    + exists ejemplo.reserva1. split; [left; reflexivity|reflexivity].
    + intros r [<-|[]] _. reflexivity.
Defined.

(** X18 at the example tables: the request of the owner for the instant four
    days after [t0]. *)
Lemma X18_testigo :
  let bd := ejemplo.tablas [ejemplo.minimo_todos] [ejemplo.reserva1] in
  exists r' c so w',
    @views.reprogramar ejemplo.rt ejemplo.siempre_disponible
      ejemplo.notifica_cliente ejemplo.notifica_administrador
      (Some ejemplo.cliente) 1 (ejemplo.pedido 96) (ejemplo.mundo bd)
    = (Ok (views.Reprogramada r' c so), w') /\
    models.numero_reprogramaciones r' = 1 /\
    models.estado r' = models.REPROGRAMADA /\
    models.total r' = 100000 /\
    models.reglas (m_bd w') = [ejemplo.minimo_todos] /\
    List.length (models.historial (m_bd w')) = 1%nat.
Proof.
  intros bd.
  destruct (@views.reprogramar ejemplo.rt ejemplo.siempre_disponible
              ejemplo.notifica_cliente ejemplo.notifica_administrador
              (Some ejemplo.cliente) 1 (ejemplo.pedido 96)
              (ejemplo.mundo bd)) as [[[r' c so|]|e] w'] eqn:E.
  - exists r', c, so, w'. split; [reflexivity|].
    destruct (@X18_lo_que_escribe_una_reprogramacion ejemplo.rt
                ejemplo.siempre_disponible ejemplo.disponibilidad_completa
                ejemplo.sin_cambio_precio ejemplo.notifica_cliente
                ejemplo.notifica_administrador (Some ejemplo.cliente) 1
                (ejemplo.pedido 96) (ejemplo.mundo bd) r' c so w') as [H _].
    destruct (H E) as (reserva & He & Ht & _ & _).
    destruct He as (Hin & _ & _ & _ & _ & _ & Hest & Hnum & _ & _ & _
                    & Hreg & _ & h & Hh & _).
    destruct Hin as [<-|[]].
    split; [rewrite Hnum; reflexivity|]. split; [exact Hest|].
    split; [rewrite Ht; reflexivity|]. split; [rewrite Hreg; reflexivity|].
    rewrite Hh. reflexivity.
  - vm_compute in E. discriminate.
  - vm_compute in E. discriminate.
Defined.

(** X19 at a request for the date of the booking itself, which is refused:
    the tables stay as they were. *)
Lemma X19_testigo :
  let bd := ejemplo.tablas [ejemplo.minimo_todos] [ejemplo.reserva1] in
  m_bd (snd (@views.reprogramar ejemplo.rt ejemplo.siempre_disponible
               ejemplo.notifica_cliente ejemplo.notifica_administrador
               (Some ejemplo.cliente) 1 (ejemplo.pedido 241)
               (ejemplo.mundo bd)))
  = bd.
Proof.
  intros bd.
  destruct (@views.reprogramar ejemplo.rt ejemplo.siempre_disponible
              ejemplo.notifica_cliente ejemplo.notifica_administrador
              (Some ejemplo.cliente) 1 (ejemplo.pedido 241)
              (ejemplo.mundo bd)) as [out w'] eqn:E.
  apply (@X19_sin_exito_nada_cambia ejemplo.rt
           ejemplo.siempre_disponible ejemplo.disponibilidad_completa
           ejemplo.sin_cambio_precio ejemplo.notifica_cliente
           ejemplo.notifica_administrador (Some ejemplo.cliente) 1
           (ejemplo.pedido 241) (ejemplo.mundo bd) out w' (or_introl E)).
  intros r c so Hout. rewrite Hout in E. vm_compute in E. discriminate.
Defined.

(** X20 at the example tables: the owner cancels, and then asks to
    reschedule. *)
Lemma X20_testigo :
  let bd := ejemplo.tablas [ejemplo.minimo_todos] [ejemplo.reserva1] in
  exists r w1,
    @views.cancelar (Some ejemplo.cliente) 1 (ejemplo.mundo bd) = (Ok r, w1) /\
    models.estado r = models.CANCELADA /\
    exists e w2,
      @views.reprogramar ejemplo.rt ejemplo.siempre_disponible
        ejemplo.notifica_cliente ejemplo.notifica_administrador
        (Some ejemplo.cliente) 1 (ejemplo.pedido 96)
        {| m_bd := m_bd w1; m_ticks := 5 |} = (Raise e, w2) /\
      m_bd w2 = m_bd w1.
Proof.
  intros bd.
  destruct (@views.cancelar (Some ejemplo.cliente) 1 (ejemplo.mundo bd))
    as [[r|e] w1] eqn:E.
  - exists r, w1. split; [reflexivity|].
    destruct (@X20_cancelar_cierra_la_reprogramacion ejemplo.rt
                (Some ejemplo.cliente) ejemplo.siempre_disponible
                ejemplo.disponibilidad_completa ejemplo.sin_cambio_precio
                ejemplo.notifica_cliente ejemplo.notifica_administrador
                1 (ejemplo.mundo bd) r w1 E)
      as ((reserva & _ & _ & ->) & _ & H).
    split; [reflexivity|].
    destruct (@views.reprogramar ejemplo.rt ejemplo.siempre_disponible
                ejemplo.notifica_cliente ejemplo.notifica_administrador
                (Some ejemplo.cliente) 1 (ejemplo.pedido 96)
                {| m_bd := m_bd w1; m_ticks := 5 |}) as [out w2] eqn:E2.
    destruct (H (Some ejemplo.cliente) (ejemplo.pedido 96) 5%nat out w2
                (or_introl E2)) as ((e & ->) & Hb).
    exists e, w2. split; [reflexivity|exact Hb].
  - vm_compute in E. discriminate.
Defined.

(** X21 at the example tables: the owner cancels and then pays. *)
Lemma X21_testigo :
  let bd := ejemplo.tablas [ejemplo.minimo_todos] [ejemplo.reserva1] in
  exists r w1 w2,
    @views.cancelar (Some ejemplo.cliente) 1 (ejemplo.mundo bd) = (Ok r, w1) /\
    @views.pagar (Some ejemplo.cliente) 1 {| m_bd := m_bd w1; m_ticks := 0 |}
    = (Ok (views.con_estado models.PAGADA ejemplo.reserva1), w2).
Proof.
  intros bd.
  destruct (@views.cancelar (Some ejemplo.cliente) 1 (ejemplo.mundo bd))
    as [[r|e] w1] eqn:E.
  - exists r, w1. eexists. split; [reflexivity|].
    destruct (@X21_pagar_no_mira_el_estado (Some ejemplo.cliente) 1
                (ejemplo.mundo bd)) as [_ H].
    rewrite (H r w1 0%nat E).
    vm_compute in E. injection E as <- <-. reflexivity.
  - vm_compute in E. discriminate.
Defined.

(** X22 at the example booking, ten days ahead of the clock, and at the
    cancelled one. *)
Lemma X22_testigo :
  let bd := ejemplo.tablas [] [ejemplo.reserva1] in
  (exists w',
     @serializers.ReservaConHistorialSerializer.get_puede_reprogramar
       ejemplo.rt ejemplo.reserva1 (ejemplo.mundo bd) = (Ok true, w') /\
     ejemplo.t0 + 24 * us_por_hora < utc (models.fecha_inicio ejemplo.reserva1))
  /\
  @serializers.ReservaConHistorialSerializer.get_puede_reprogramar
    ejemplo.rt casos.reserva_cancelada (ejemplo.mundo bd)
  = (Ok false, ejemplo.mundo bd) /\
  exists e,
    fst (@serializers.is_valid ejemplo.rt (Some ejemplo.cliente)
           (Some casos.reserva_cancelada) (ejemplo.pedido 96)
           (ejemplo.mundo bd)) = Raise e.
Proof.
  intros bd.
  destruct (@X22_puede_reprogramar ejemplo.rt ejemplo.reserva1
              (ejemplo.mundo bd)) as (H1 & _).
  destruct (@X22_puede_reprogramar ejemplo.rt casos.reserva_cancelada
              (ejemplo.mundo bd)) as (_ & H2 & _ & H3).
  split; [|split].
  - eexists. split; [vm_compute; reflexivity|].
    apply (H1 {| m_bd := bd; m_ticks := 1 |}). vm_compute. reflexivity.
  - apply H2. left. reflexivity.
  - destruct (@serializers.is_valid ejemplo.rt (Some ejemplo.cliente)
                (Some casos.reserva_cancelada) (ejemplo.pedido 96)
                (ejemplo.mundo bd)) as [out w1] eqn:E.
    destruct (H3 (Some ejemplo.cliente) (ejemplo.pedido 96) out w1
                (or_introl eq_refl) E) as (e & ->).
    exists e. reflexivity.
Defined.

(** X23 at the attributes of a minimum of 24 hours, and at a penalty sent
    with the decimal 10.00 and the number 500. *)
Lemma X23_testigo :
  @models.clean ejemplo.minimo_todos = Ok tt /\
  @models.obtener_valor ejemplo.rt ejemplo.minimo_todos = VInt 24 /\
  @serializers.ReglasReprogramacionSerializer.validate ejemplo.rt
    (casos.atributos "DESCUENTO_PENALIZACION" (Some 500) (Some 1000))
  = Ok (casos.atributos "DESCUENTO_PENALIZACION" (Some 500) (Some 1000)) /\
  @models.obtener_valor ejemplo.rt casos.penalizacion_doble = VInt 500.
Proof.
  destruct (@X23_validate_de_reglas ejemplo.rt
              (casos.atributos "TIEMPO_MINIMO" (Some 24) None)
              (casos.atributos "TIEMPO_MINIMO" (Some 24) None) eq_refl)
    as (_ & Hc & Ht & _).
  destruct (@X23_validate_de_reglas ejemplo.rt
              (casos.atributos "DESCUENTO_PENALIZACION" (Some 500)
                 (Some 1000))
              (casos.atributos "DESCUENTO_PENALIZACION" (Some 500)
                 (Some 1000)) eq_refl)
    as (_ & _ & _ & _ & Hp & _).
  assert (F1 : serializers.ReglasReprogramacionSerializer.fila_de
                 (casos.atributos "TIEMPO_MINIMO" (Some 24) None)
                 ejemplo.minimo_todos)
    by (repeat split; reflexivity).
  assert (F2 : serializers.ReglasReprogramacionSerializer.fila_de
                 (casos.atributos "DESCUENTO_PENALIZACION" (Some 500)
                    (Some 1000))
                 casos.penalizacion_doble)
    by (repeat split; reflexivity).
  split; [exact (Hc _ F1)|]. split.
  - destruct (Ht eq_refl) as (n & Hn & _ & Hv). injection Hn as <-.
    exact (Hv _ F1).
  - split; [reflexivity|].
    destruct (Hp eq_refl) as (d & _ & _ & Hv). exact (Hv _ F2).
Defined.


(** X25 at the example tables, where the booking counts no rescheduling and
    the history is empty: the tables left by the request of the owner. *)
Lemma X25_testigo :
  let bd := ejemplo.tablas [ejemplo.minimo_todos] [ejemplo.reserva1] in
  cuenta_consistente
    (m_bd (snd (@views.reprogramar ejemplo.rt ejemplo.siempre_disponible
                  ejemplo.notifica_cliente ejemplo.notifica_administrador
                  (Some ejemplo.cliente) 1 (ejemplo.pedido 96)
                  (ejemplo.mundo bd)))) /\
  List.length
    (models.historial
       (m_bd (snd (@views.reprogramar ejemplo.rt ejemplo.siempre_disponible
                     ejemplo.notifica_cliente ejemplo.notifica_administrador
                     (Some ejemplo.cliente) 1 (ejemplo.pedido 96)
                     (ejemplo.mundo bd))))) = 1%nat.
Proof.
  intros bd. split; [|vm_compute; reflexivity].
  assert (Hc : cuenta_consistente (m_bd (ejemplo.mundo bd))).
  { intros r [<-|[]]. reflexivity. }
  destruct (@X25_cuenta_e_historial ejemplo.rt (Some ejemplo.cliente)
              ejemplo.siempre_disponible ejemplo.disponibilidad_completa
              ejemplo.sin_cambio_precio ejemplo.notifica_cliente
              ejemplo.notifica_administrador 1 (ejemplo.pedido 96)
              (ejemplo.mundo bd) Hc) as [H _].
  destruct (@views.reprogramar ejemplo.rt ejemplo.siempre_disponible
              ejemplo.notifica_cliente ejemplo.notifica_administrador
              (Some ejemplo.cliente) 1 (ejemplo.pedido 96)
              (ejemplo.mundo bd)) as [out w'] eqn:E.
  exact (H out w' (or_introl eq_refl)).
Defined.

(** X26 at a table with a rule of 48 hours switched off beside the active
    rule of 24 hours: the verdict is that of the table with the active rule
    alone. *)
Lemma X26_testigo :
  let bd := ejemplo.tablas
              [casos.inactiva ejemplo.minimo_clientes; ejemplo.minimo_todos]
              [ejemplo.reserva1] in
  let bd' := ejemplo.tablas [ejemplo.minimo_todos] [ejemplo.reserva1] in
  @validators.validar_reprogramacion_completa ejemplo.rt bd'
    (Some ejemplo.cliente) ejemplo.reserva1 (ejemplo.en_horas 30)
    ejemplo.inicio
  = @validators.validar_reprogramacion_completa ejemplo.rt bd
      (Some ejemplo.cliente) ejemplo.reserva1 (ejemplo.en_horas 30)
      ejemplo.inicio.
Proof.
  intros bd bd'.
  destruct (@X26_el_motor_lee_por_el_resolutor ejemplo.rt bd
              (Some ejemplo.cliente) ejemplo.reserva1 (ejemplo.en_horas 30)
              5 ejemplo.inicio) as [H _].
  apply (H bd'); try reflexivity.
  intros tipo rol.
  exact (@obtener_regla_activa_de_las_activas bd tipo rol).
Defined.

(** X27 at the example tables: a candidate on Sunday 7 January 2024 passes
    with the rules of 24 hours and of two reschedulings, and is refused, once
    for each role, with the rule that closes Sundays; and the candidate
    exactly 24 hours after the second reading of the clock passes. *)
Lemma X27_testigo :
  let con := ejemplo.tablas [ejemplo.minimo_todos; ejemplo.sin_domingos]
               [ejemplo.reserva1] in
  let sin := ejemplo.tablas [ejemplo.minimo_todos; casos.limite_dos]
               [ejemplo.reserva1] in
  let pide f :=
    {| serializers.ValidadorReglasSerializer.a_reserva_id := 1;
       serializers.ValidadorReglasSerializer.a_nueva_fecha := f;
       serializers.ValidadorReglasSerializer.a_motivo := None |} in
  (exists a w',
     @serializers.ValidadorReglasSerializer.validate ejemplo.rt
       (Some ejemplo.cliente) (pide (ejemplo.en_horas 156))
       (ejemplo.mundo sin) = (Ok a, w') /\
     models.numero_reprogramaciones ejemplo.reserva1 < 2) /\
  fst (@serializers.ValidadorReglasSerializer.validate ejemplo.rt
         (Some ejemplo.cliente) (pide (ejemplo.en_horas 156))
         (ejemplo.mundo con))
  = Raise (ValidationError
             ["reglas_violadas"; "No se puede reprogramar en domingo.";
              "No se puede reprogramar en domingo."]) /\
  m_bd (snd (@serializers.ValidadorReglasSerializer.validate ejemplo.rt
               (Some ejemplo.cliente) (pide (ejemplo.en_horas 156))
               (ejemplo.mundo con))) = con /\
  fst (@serializers.ValidadorReglasSerializer.validate ejemplo.rt
         (Some ejemplo.cliente)
         (pide {| utc := ejemplo.t0 + 1 + 24 * us_por_hora; offset := 0 |})
         (ejemplo.mundo sin))
  = Ok (pide {| utc := ejemplo.t0 + 1 + 24 * us_por_hora; offset := 0 |}).
Proof.
  intros con sin pide. split; [|split; [|split]].
  - destruct (@serializers.ValidadorReglasSerializer.validate ejemplo.rt
                (Some ejemplo.cliente) (pide (ejemplo.en_horas 156))
                (ejemplo.mundo sin)) as [[a|e] w'] eqn:E.
    + exists a, w'. split; [reflexivity|].
      destruct (@X27_validador_de_reglas ejemplo.rt (Some ejemplo.cliente)
                  (pide (ejemplo.en_horas 156)) (ejemplo.mundo sin))
        as [H _].
      destruct (H a w' E) as (_ & reserva & Hf & F).
      vm_compute in Hf. injection Hf as <-.
      destruct (F "ALL" (or_intror (or_introl eq_refl))) as (Fl & _).
      apply (Fl casos.limite_dos 2); reflexivity.
    + vm_compute in E. discriminate.
  - vm_compute. reflexivity.
  - destruct (@X27_validador_de_reglas ejemplo.rt (Some ejemplo.cliente)
                (pide (ejemplo.en_horas 156)) (ejemplo.mundo con))
      as [_ H].
    exact (H (ejemplo.mundo con)).
  - vm_compute. reflexivity.
Defined.

(** X28 at the example tables: with a rule of 24 hours for ALL and a rule of
    48 hours for clients of better priority, the summary of a client shows
    the 24 hours, and the engine applies the 48. *)
Lemma X28_testigo :
  let bd := ejemplo.tablas [ejemplo.minimo_todos; casos.minimo_clientes_primero;
                            ejemplo.penalizacion_clientes] [] in
  let r := @serializers.ResumenReglasSerializer.to_representation ejemplo.rt
             (Some ejemplo.cliente) bd in
  map fst (serializers.ResumenReglasSerializer.reglas_activas r)
  = ["TIEMPO_MINIMO"; "DESCUENTO_PENALIZACION"] /\
  serializers.ResumenReglasSerializer.total_reglas r = 2%nat /\
  serializers.ResumenReglasSerializer.roles_usuario r = ["CLIENTE"] /\
  (forall e,
     In ("TIEMPO_MINIMO", e)
        (serializers.ResumenReglasSerializer.reglas_activas r) ->
     serializers.ResumenReglasSerializer.e_valor e = VInt 24 /\
     serializers.ResumenReglasSerializer.e_aplicable_a e = "ALL") /\
  primera_regla bd "TIEMPO_MINIMO" (validators.roles (Some ejemplo.cliente))
  = Some ("CLIENTE", casos.minimo_clientes_primero).
Proof.
  intros bd r.
  destruct (@X28_resumen_de_reglas ejemplo.rt (Some ejemplo.cliente) bd)
    as (H1 & H2 & _ & _ & H5).
  fold r in H1, H2, H5.
  split; [rewrite H1; vm_compute; reflexivity|].
  split; [rewrite H2, <- (length_map fst), H1; vm_compute; reflexivity|].
  split; [vm_compute; reflexivity|].
  split; [|vm_compute; reflexivity].
  intros e He.
  apply (H5 "TIEMPO_MINIMO" e ejemplo.minimo_todos He).
  vm_compute. reflexivity.
Defined.
